(** * PMU signal simulator and DSP feature extractor

    A shallow embedding of [dsp/signal_simulator.py] and
    [dsp/feature_extractor.py], followed by the properties of the two
    components.

    Numbers.
    - Python integers are [Z].
    - The Python floats that decide how many readings a batch holds
      ([0.40 * n], [0.35 * n] and their [round]) are IEEE binary64 values,
      modelled bit for bit with the Standard Library's [spec_float]
      (precision 53, maximal exponent 1024).  So are, in
      [Double.compute_thd], the parameters [fs] and [fundamental] and the
      bin [int(round(fundamental * n_fft / fs))] computed from them;
      [compute_thd] reads the same parameters as real numbers, which is
      exact at the values the pipeline passes ([fs = 50],
      [fundamental = 50.0]).
    - Sample values (voltages, frequencies, spectra, features) are real
      numbers: [numpy] arithmetic is read with its real-number meaning, so
      rounding errors of additions, [sin], [sqrt] and the FFT, as well as
      NaN and infinities, are outside this model.

    Effects.
    - Exceptions are values of [exn]; a computation that may raise has type
      [result A].
    - [numpy.random] is a random source threaded through the generators.
    - [scipy.signal.butter] and [scipy.signal.filtfilt] are parameters of the
      filter; [scipy.fft.fft] is the discrete Fourier transform. *)

From Stdlib Require Import ZArith Reals Lia Lra Psatz Floats.SpecFloat.
From Stdlib Require Import ClassicalDescription.
From stdpp Require Import base list strings gmap.

Set Default Proof Using "Type".

(* ===================================================================== *)
(** * Part I: the programs                                                *)
(* ===================================================================== *)

(** ** Exceptions *)

Inductive exn :=
  | ValueError | IndexError | ZeroDivisionError | OverflowError
  | LinAlgError | TypeError.

Inductive result (A : Type) :=
  | Ok (a : A)
  | Raise (e : exn).
Arguments Ok {A} a.
Arguments Raise {A} e.

#[global] Instance result_ret : MRet result := λ A a, Ok a.
#[global] Instance result_bind : MBind result := λ A B f m,
  match m with
  | Ok a => f a
  | Raise e => Raise e
  end.

(** ** Decidable comparisons on reals, for [if] tests *)

#[global] Instance Rle_decision (x y : R) : Decision (x <= y)%R := Rle_dec x y.
#[global] Instance Rlt_decision (x y : R) : Decision (x < y)%R := Rlt_dec x y.
#[global] Instance Rge_decision (x y : R) : Decision (x >= y)%R := Rge_dec x y.
#[global] Instance Rgt_decision (x y : R) : Decision (x > y)%R := Rgt_dec x y.
#[global] Instance Req_decision (x y : R) : Decision (x = y) := Req_dec_T x y.

(** ** Python floats that become integers: binary64 *)

Module Float64.

Definition prec : Z := 53.
Definition emax : Z := 1024.

(** [float(n)] for a Python integer: rounded to nearest, ties to even;
    an integer that rounds beyond the largest double raises. *)
Definition of_int (n : Z) : result spec_float :=
  match binary_normalize prec emax n 0 false with
  | S754_infinity _ => Raise OverflowError
  | x => Ok x
  end.

Definition mul : spec_float → spec_float → spec_float := SFmul prec emax.

(** [m / d] rounded to the nearest integer, ties to even ([0 < d]). *)
Definition div_half_even (m d : Z) : Z :=
  let q := (m / d)%Z in
  let r := (m mod d)%Z in
  match (2 * r ?= d)%Z with
  | Lt => q
  | Gt => (q + 1)%Z
  | Eq => if Z.even q then q else (q + 1)%Z
  end.

(** [round(x)] with one argument: the nearest integer, ties to even, as a
    Python integer. *)
Definition round (x : spec_float) : result Z :=
  match x with
  | S754_nan => Raise ValueError
  | S754_infinity _ => Raise OverflowError
  | S754_zero _ => Ok 0%Z
  | S754_finite s m e =>
      Ok (cond_Zopp s
            (match e with
             | Zneg k => div_half_even (Zpos m) (2 ^ Zpos k)
             | _ => Zpos m * 2 ^ e
             end)%Z)
  end.

(** The literals [0.40] and [0.35]: the doubles nearest to 2/5 and 7/20. *)
Definition lit_0_40 : spec_float := S754_finite false 7205759403792794 (-54).
Definition lit_0_35 : spec_float := S754_finite false 6305039478318694 (-54).

(** [c * n] for a float [c] and an integer [n]. *)
Definition mul_int (c : spec_float) (n : Z) : result spec_float :=
  x ← of_int n; Ok (mul c x).

(** [int(round(c * n))] *)
Definition round_mul_int (c : spec_float) (n : Z) : result Z :=
  x ← mul_int c n; round x.

(** The exponent of the last mantissa bit, and powers of two as reals. *)
Definition fexp64 : Z → Z := fexp prec emax.
Definition bpow (e : Z) : R := powerRZ 2 e.

End Float64.

(** ** Python and numpy helpers over real samples *)

Definition sum_R (l : list R) : R := foldr Rplus 0%R l.

(** [np.mean] *)
Definition np_mean (l : list R) : R := (sum_R l / INR (length l))%R.

(** [np.max]: raises on an empty array. *)
Definition np_max (l : list R) : result R :=
  match l with
  | [] => Raise ValueError
  | x :: l' => Ok (foldl Rmax x l')
  end.

(** [a / b] on Python numbers. *)
Definition py_div (a b : R) : result R :=
  if decide (b = 0%R) then Raise ZeroDivisionError else Ok (a / b)%R.

(** [round(x)]: nearest integer, ties to even. *)
Definition round_half_even (x : R) : Z :=
  let f := Int_part x in
  if decide (x - IZR f < 1 / 2)%R then f
  else if decide (x - IZR f > 1 / 2)%R then (f + 1)%Z
  else if Z.even f then f else (f + 1)%Z.

(** [round(x, ndigits)] *)
Definition py_round (x : R) (ndigits : nat) : R :=
  (IZR (round_half_even (x * 10 ^ ndigits)) / 10 ^ ndigits)%R.

(** A number with at most four decimal digits. *)
Definition four_decimals (y : R) : Prop := ∃ k : Z, y = (IZR k / 10000)%R.

(** [a[i]] for a one-dimensional array and a Python integer index. *)
Definition np_index (a : list R) (i : Z) : result R :=
  let len := Z.of_nat (length a) in
  let j := if decide (i < 0)%Z then (i + len)%Z else i in
  if decide (0 ≤ j < len)%Z then
    match a !! Z.to_nat j with
    | Some x => Ok x
    | None => Raise IndexError
    end
  else Raise IndexError.

(** [range(k)] holds [k] values, none when [k] is negative. *)
Definition range_len (k : Z) : nat := Z.to_nat k.

(** [scipy.fft.fft(x, n)]: the input is cut or zero-padded to [n] samples,
    then X_k = sum_j x_j exp(-2 pi i j k / n); complex numbers are pairs. *)
Definition fft_pad (x : list R) (n : nat) : list R :=
  take n x ++ replicate (n - length x) 0%R.

Definition fft_bin (x : list R) (n k : nat) : R * R :=
  (sum_R (imap (λ j xj, xj * cos (2 * PI * INR j * INR k / INR n))%R x),
   (- sum_R (imap (λ j xj, xj * sin (2 * PI * INR j * INR k / INR n))%R x))%R).

Definition fft (x : list R) (n : nat) : list (R * R) :=
  map (fft_bin (fft_pad x n) n) (seq 0 n).

(** [np.abs] of a complex number. *)
Definition np_abs_c (z : R * R) : R := sqrt (z.1 ^ 2 + z.2 ^ 2).

(** ** dsp/signal_simulator.py *)

Record reading := {
  voltage : list R;
  frequency : list R;
  anomaly_type : string;
  severity : string;
}.

(** [numpy.random]: every draw takes the generator state and returns the
    next one. *)
Class RandomSource := {
  rng : Type;
  random_normal : R → R → rng → R * rng;
  random_uniform : R → R → rng → R * rng;
  random_randint : Z → Z → rng → Z * rng;
  random_shuffle : list reading → rng → list reading * rng;
  random_uniform_range : ∀ lo hi g,
    (lo <= hi)%R → (lo <= (random_uniform lo hi g).1 <= hi)%R;
  random_randint_range : ∀ lo hi g,
    (lo < hi)%Z → (lo ≤ (random_randint lo hi g).1 < hi)%Z;
  random_shuffle_perm : ∀ l g, (random_shuffle l g).1 ≡ₚ l;
}.

(** The invariant of a reading: both arrays hold one sample per slot. *)
Definition has_fixed_length (r : reading) : Prop :=
  length (voltage r) = 50%nat ∧ length (frequency r) = 50%nat.

(** The number of readings of a batch that carry a given anomaly type. *)
Definition count_type (t : string) (l : list reading) : nat :=
  length (filter (λ r, anomaly_type r = t) l).

Definition NOMINAL_VOLTAGE : R := 1.0.
Definition NOMINAL_FREQUENCY : R := 50.0.
Definition SAMPLING_RATE : nat := 50.
Definition SAMPLES_PER_READING : nat := 50.

(** [np.arange(k)] *)
Definition np_arange (k : nat) : list R := map INR (seq 0 k).

(** [np.linspace(start, stop, num)] *)
Definition np_linspace (start stop : R) (num : nat) : list R :=
  map (λ k, start + INR k * ((stop - start) / INR (num - 1)))%R (seq 0 num).

Definition phase_offset : R := (PI / 4)%R.

(** [np.sin(2 * np.pi * NOMINAL_FREQUENCY * t + phase_offset)] with
    [t = np.arange(SAMPLES_PER_READING) / SAMPLING_RATE]. *)
Definition base_sine : list R :=
  let t := map (λ k, k / INR SAMPLING_RATE)%R (np_arange SAMPLES_PER_READING) in
  map (λ tk, sin (2 * PI * NOMINAL_FREQUENCY * tk + phase_offset))%R t.

(** [amp * np.sin(...)]: the sine wave of amplitude [amp]. *)
Definition sine_wave (amp : R) : list R := map (Rmult amp) base_sine.

Section Simulator.
Context `{RS : RandomSource}.

(** [np.random.normal(loc, scale, size=size)] *)
Fixpoint random_normal_array (loc scale : R) (size : nat) (g : rng)
  : list R * rng :=
  match size with
  | O => ([], g)
  | S size' =>
      let '(x, g1) := random_normal loc scale g in
      let '(xs, g2) := random_normal_array loc scale size' g1 in
      (x :: xs, g2)
  end.

Definition generate_normal_signal (g : rng) : reading * rng :=
  let voltage := sine_wave NOMINAL_VOLTAGE in
  let '(noise, g1) := random_normal_array 0 0.01 SAMPLES_PER_READING g in
  let frequency := map (λ z, NOMINAL_FREQUENCY + z)%R noise in
  ({| voltage := voltage; frequency := frequency;
      anomaly_type := "none"; severity := "none" |}, g1).

(** The index drawn by [randint(0, SAMPLES_PER_READING)] is within the
    array, so the assignment [voltage[spike_index] = spike_value] never
    raises and is the list update. *)
Definition generate_point_anomaly (g : rng) : reading * rng :=
  let voltage := sine_wave NOMINAL_VOLTAGE in
  let '(noise, g1) := random_normal_array 0 0.01 SAMPLES_PER_READING g in
  let frequency := map (λ z, NOMINAL_FREQUENCY + z)%R noise in
  let '(spike_value, g2) := random_uniform 1.3 1.5 g1 in
  let '(spike_index, g3) :=
    random_randint 0 (Z.of_nat SAMPLES_PER_READING) g2 in
  let voltage := <[Z.to_nat spike_index := spike_value]> voltage in
  let severity := if decide (spike_value > 1.4)%R then "high" else "medium" in
  ({| voltage := voltage; frequency := frequency;
      anomaly_type := "point"; severity := severity |}, g3).

Definition generate_trend_anomaly (g : rng) : reading * rng :=
  let envelope := np_linspace NOMINAL_VOLTAGE 1.2 SAMPLES_PER_READING in
  let voltage := zip_with Rmult envelope base_sine in
  let '(noise, g1) := random_normal_array 0 0.01 SAMPLES_PER_READING g in
  let frequency := map (λ z, NOMINAL_FREQUENCY + z)%R noise in
  ({| voltage := voltage; frequency := frequency;
      anomaly_type := "trend"; severity := "medium" |}, g1).

(** [for _ in range(k): readings.append(gen())] *)
Fixpoint append_loop (gen : rng → reading * rng) (k : nat)
    (readings : list reading) (g : rng) : list reading * rng :=
  match k with
  | O => (readings, g)
  | S k' =>
      let '(r, g1) := gen g in
      append_loop gen k' (readings ++ [r]) g1
  end.

Definition generate_batch (n : Z) (g : rng) : result (list reading * rng) :=
  let readings := [] in
  n_normal ← Float64.round_mul_int Float64.lit_0_40 n;
  n_point ← Float64.round_mul_int Float64.lit_0_35 n;
  let n_trend := (n - n_normal - n_point)%Z in
  let '(readings, g1) :=
    append_loop generate_normal_signal (range_len n_normal) readings g in
  let '(readings, g2) :=
    append_loop generate_point_anomaly (range_len n_point) readings g1 in
  let '(readings, g3) :=
    append_loop generate_trend_anomaly (range_len n_trend) readings g2 in
  Ok (random_shuffle readings g3).

End Simulator.

(** A random source that always returns the low end of the range and leaves
    the order of a list alone. *)
#[program] Definition constant_source : RandomSource := {|
  rng := unit;
  random_normal := λ loc _ g, (loc, g);
  random_uniform := λ lo _ g, (lo, g);
  random_randint := λ lo _ g, (lo, g);
  random_shuffle := λ l g, (l, g);
|}.
Next Obligation. simpl. intros. lra. Qed.
Next Obligation. simpl. intros. lia. Qed.
Next Obligation. simpl. intros. reflexivity. Qed.

(** A random source whose spike is the high end of the range and lands on
    sample 7. *)
#[program] Definition high_source : RandomSource := {|
  rng := unit;
  random_normal := λ loc _ g, (loc, g);
  random_uniform := λ _ hi g, (hi, g);
  random_randint := λ lo hi g, (Z.min (lo + 7) (hi - 1), g);
  random_shuffle := λ l g, (reverse l, g);
|}.
Next Obligation. simpl. intros. lra. Qed.
Next Obligation. simpl. intros. lia. Qed.
Next Obligation. simpl. intros. apply reverse_Permutation. Qed.

(** ** dsp/feature_extractor.py *)

Record features := {
  rms_voltage : R;
  thd_percent : R;
  frequency_deviation_hz : R;
  peak_voltage : R;
  feat_anomaly_type : string;
  feat_severity : string;
}.

(** [except (ValueError, np.linalg.LinAlgError)] *)
Definition caught (e : exn) : bool :=
  match e with
  | ValueError | LinAlgError => true
  | _ => false
  end.

Section Extractor.
(** [scipy.signal.butter(order, [low, high], btype="band")] and
    [scipy.signal.filtfilt(b, a, signal)]. *)
Variable butter : Z → R → R → result (list R * list R).
Variable filtfilt : list R → list R → list R → result (list R).

Definition bandpass_filter (signal : list R) (lowcut highcut fs : R)
    (order : Z) : result (list R) :=
  let nyq := (0.5 * fs)%R in
  low ← py_div lowcut nyq;
  high ← py_div highcut nyq;
  if decide (low >= 1 ∨ high >= 1 ∨ low <= 0 ∨ high <= 0)%R then Ok signal
  else
    match (ba ← butter order low high; filtfilt ba.1 ba.2 signal) with
    | Ok filtered => Ok filtered
    | Raise e => if caught e then Ok signal else Raise e
    end.

Definition compute_rms (signal : list R) : R :=
  if decide (length signal = 0%nat) then 0%R
  else
    let rms := sqrt (np_mean (map (λ x, x ^ 2)%R signal)) in
    py_round rms 4.

(** One turn of [for h in range(2, 6)]. *)
Definition thd_step (spectrum : list R) (fund_bin half : Z)
    (harmonic_amps_sq : R) (h : Z) : result R :=
  let bin_h := (h * fund_bin)%Z in
  if decide (bin_h ≤ half)%Z then
    a ← np_index spectrum bin_h; Ok (harmonic_amps_sq + a ^ 2)%R
  else Ok harmonic_amps_sq.

(** [int(np.ceil(np.log2(n)))] is read exactly, as [Z.log2_up n]; [dt] is
    the sample spacing [1 / fs] handed to [fft.fftfreq], whose result the
    function does not use afterwards. *)
Definition compute_thd (signal : list R) (fs fundamental : R) : result R :=
  let n := length signal in
  if decide (n = 0%nat) then Ok 0%R
  else
    let n_fft := Z.max (Z.of_nat n) (2 ^ Z.log2_up (Z.of_nat n)) in
    let spectrum := map np_abs_c (fft signal (Z.to_nat n_fft)) in
    dt ← py_div 1 fs;
    let half := (n_fft `div` 2)%Z in
    let spectrum := take (Z.to_nat (half + 1)) spectrum in
    q ← py_div (fundamental * IZR n_fft) fs;
    let fund_bin := round_half_even q in
    let fund_bin := Z.max 1 (Z.min fund_bin half) in
    fund_amp ← np_index spectrum fund_bin;
    if decide (fund_amp <= 0)%R then Ok 0%R
    else
      harmonic_amps_sq ←
        foldl (λ acc h, s ← acc; thd_step spectrum fund_bin half s h)
              (Ok 0%R) [2; 3; 4; 5]%Z;
      let thd_pct := (100.0 * sqrt harmonic_amps_sq / fund_amp)%R in
      Ok (py_round thd_pct 4).

Definition compute_frequency_deviation (frequency_array : list R) : R :=
  if decide (length frequency_array = 0%nat) then 0%R
  else
    let deviation := np_mean (map (λ x, Rabs (x - 50.0))%R frequency_array) in
    py_round deviation 4.

Definition extract_features (r : reading) : result features :=
  let voltage := voltage r in
  let frequency_array := frequency r in
  filtered ← bandpass_filter voltage 45.0 55.0 50 3;
  let rms_voltage := compute_rms voltage in
  thd_percent ← compute_thd voltage 50 50.0;
  let frequency_deviation_hz := compute_frequency_deviation frequency_array in
  m ← np_max (map Rabs filtered);
  let peak_voltage := py_round m 4 in
  Ok {| rms_voltage := rms_voltage;
        thd_percent := thd_percent;
        frequency_deviation_hz := frequency_deviation_hz;
        peak_voltage := peak_voltage;
        feat_anomaly_type := anomaly_type r;
        feat_severity := severity r |}.

End Extractor.

(** ** compute_thd with [fs] and [fundamental] as Python floats

    The bin [int(round(fundamental * n_fft / fs))] is decided by binary64
    arithmetic: the product and the quotient are rounded, [round] raises on
    an infinite quotient and on NaN, and a rounded quotient may fall on the
    other side of a half-integer than the exact one.  Here [fs] and
    [fundamental] are binary64 values (an [int] argument of magnitude below
    2^53 behaves as the float of the same value); the spectrum keeps its
    real-number meaning. *)
Module Double.

(** The value of a finite float as a real number. *)
Definition value (x : spec_float) : R :=
  match x with
  | S754_finite s m e =>
      ((if s then -1 else 1) * IZR (Zpos m) * Float64.bpow e)%R
  | _ => 0%R
  end.

Definition is_zero (x : spec_float) : bool :=
  match x with
  | S754_zero _ => true
  | _ => false
  end.

(** The quotient of two floats, rounded to nearest, ties to even. *)
Definition div : spec_float → spec_float → spec_float :=
  SFdiv Float64.prec Float64.emax.

(** [a / b] on Python floats: only a zero divisor raises. *)
Definition py_div (a b : spec_float) : result spec_float :=
  if is_zero b then Raise ZeroDivisionError else Ok (div a b).

(** The floats [1.0], [50.0] and [200.0]. *)
Definition one : spec_float := S754_finite false 4503599627370496 (-52).
Definition lit_50_0 : spec_float := S754_finite false 7036874417766400 (-47).
Definition lit_200_0 : spec_float := S754_finite false 7036874417766400 (-45).

(** [fft.fftfreq(n, d)] starts with [val = 1.0 / (n * d)]; the grid
    [results * val] is not used by the caller. *)
Definition fftfreq_val (n : Z) (d : spec_float) : result spec_float :=
  nf ← Float64.of_int n;
  py_div one (Float64.mul nf d).

(** [int(round(fundamental * n_fft / fs))] *)
Definition fund_bin (fundamental : spec_float) (n_fft : Z) (fs : spec_float)
  : result Z :=
  nf ← Float64.of_int n_fft;
  q ← py_div (Float64.mul fundamental nf) fs;
  Float64.round q.

Definition compute_thd (signal : list R) (fs fundamental : spec_float)
  : result R :=
  let n := length signal in
  if decide (n = 0%nat) then Ok 0%R
  else
    let n_fft := Z.max (Z.of_nat n) (2 ^ Z.log2_up (Z.of_nat n)) in
    let spectrum := map np_abs_c (fft signal (Z.to_nat n_fft)) in
    dt ← py_div one fs;
    _ ← fftfreq_val n_fft dt;
    let half := (n_fft `div` 2)%Z in
    let spectrum := take (Z.to_nat (half + 1)) spectrum in
    fund_bin ← fund_bin fundamental n_fft fs;
    let fund_bin := Z.max 1 (Z.min fund_bin half) in
    fund_amp ← np_index spectrum fund_bin;
    if decide (fund_amp <= 0)%R then Ok 0%R
    else
      harmonic_amps_sq ←
        foldl (λ acc h, s ← acc; thd_step spectrum fund_bin half s h)
              (Ok 0%R) [2; 3; 4; 5]%Z;
      let thd_pct := (100.0 * sqrt harmonic_amps_sq / fund_amp)%R in
      Ok (py_round thd_pct 4).

(** Two floats next to 2 and 3/4: [2 - 2^-52] and [3/4 - 2^-53]. *)
Definition below_2 : spec_float := S754_finite false 9007199254740991 (-52).
Definition below_0_75 : spec_float :=
  S754_finite false 6755399441055743 (-53).

(** The float [1e308]. *)
Definition lit_1e308 : spec_float := S754_finite false 5010420900022432 971.

End Double.

(** ** The distortion measure in the words of the specification

    Zero-pad to the next power of two, take the magnitude of the spectrum at
    the non-negative frequencies, find the fundamental bin by rounding and
    clamping, and relate the harmonics 2 to 5 that stay within the spectrum
    to the fundamental; the result is rounded to four decimals. *)

Definition next_pow2 (n : Z) : Z := (2 ^ Z.log2_up n)%Z.

Definition magnitude (signal : list R) (n_fft k : Z) : R :=
  np_abs_c (fft_bin (fft_pad signal (Z.to_nat n_fft)) (Z.to_nat n_fft)
              (Z.to_nat k)).

Definition fundamental_bin (n_fft : Z) (fs fundamental : R) : Z :=
  Z.max 1 (Z.min (round_half_even (fundamental * IZR n_fft / fs))
                 (n_fft `div` 2)).

Definition thd_by_words (signal : list R) (fs fundamental : R) : R :=
  let n_fft := next_pow2 (Z.of_nat (length signal)) in
  let half := (n_fft `div` 2)%Z in
  let fund_bin := fundamental_bin n_fft fs fundamental in
  let fund_amp := magnitude signal n_fft fund_bin in
  if decide (fund_amp <= 0)%R then 0%R
  else
    let bins := filter (λ b, b ≤ half)%Z
                  (map (λ h, h * fund_bin)%Z [2; 3; 4; 5]%Z) in
    let squares := map (λ b, magnitude signal n_fft b ^ 2)%R bins in
    py_round (100 * sqrt (sum_R squares) / fund_amp) 4.

(** The same measure without the final rounding. *)
Definition thd_unrounded (signal : list R) (fs fundamental : R) : R :=
  let n_fft := next_pow2 (Z.of_nat (length signal)) in
  let half := (n_fft `div` 2)%Z in
  let fund_bin := fundamental_bin n_fft fs fundamental in
  let fund_amp := magnitude signal n_fft fund_bin in
  if decide (fund_amp <= 0)%R then 0%R
  else
    let bins := filter (λ b, b ≤ half)%Z
                  (map (λ h, h * fund_bin)%Z [2; 3; 4; 5]%Z) in
    let squares := map (λ b, magnitude signal n_fft b ^ 2)%R bins in
    (100 * sqrt (sum_R squares) / fund_amp)%R.

(** The measure at a rounded bin [b], before the clamp, without the final
    rounding. *)
Definition thd_at_bin (signal : list R) (b : Z) : R :=
  let n_fft := next_pow2 (Z.of_nat (length signal)) in
  let half := (n_fft `div` 2)%Z in
  let fund_bin := Z.max 1 (Z.min b half) in
  let fund_amp := magnitude signal n_fft fund_bin in
  if decide (fund_amp <= 0)%R then 0%R
  else
    let bins := filter (λ b, b ≤ half)%Z
                  (map (λ h, h * fund_bin)%Z [2; 3; 4; 5]%Z) in
    let squares := map (λ b, magnitude signal n_fft b ^ 2)%R bins in
    (100 * sqrt (sum_R squares) / fund_amp)%R.

(** The check that, at [fs = 50] and [fundamental = 50.0] with
    [n_fft = 2 ^ k], the three steps on the parameters succeed and the bin
    is [n_fft]. *)
Definition pipeline_bin_exact (k : nat) : bool :=
  match Double.py_div Double.one Double.lit_50_0 with
  | Ok dt =>
      match Double.fftfreq_val (2 ^ Z.of_nat k) dt,
            Double.fund_bin Double.lit_50_0 (2 ^ Z.of_nat k) Double.lit_50_0
      with
      | Ok _, Ok b => (b =? 2 ^ Z.of_nat k)%Z
      | _, _ => false
      end
  | Raise _ => false
  end.

(** Four samples whose distortion at [fs = 200] is 100/3. *)
Definition demo_signal : list R := [3; 1; 0; 1]%R.

(** Stand-ins for [scipy] whose filter design always fails. *)
Definition failing_butter (order : Z) (low high : R)
  : result (list R * list R) := Raise ValueError.
Definition failing_filtfilt (b a signal : list R)
  : result (list R) := Raise ValueError.

(** ** What the three generators produce

    A reading as one of the generators builds it: the label pair and the
    voltage array that goes with it. *)
Definition generated (r : reading) : Prop :=
  has_fixed_length r ∧
  ((anomaly_type r = "none" ∧ severity r = "none" ∧
    voltage r = sine_wave NOMINAL_VOLTAGE) ∨
   (anomaly_type r = "point" ∧
    ∃ (spike_value : R) (spike_index : nat),
      (1.3 <= spike_value <= 1.5)%R ∧ (spike_index < 50)%nat ∧
      voltage r = <[spike_index := spike_value]> (sine_wave NOMINAL_VOLTAGE) ∧
      severity r = (if decide (spike_value > 1.4)%R then "high" else "medium")) ∨
   (anomaly_type r = "trend" ∧ severity r = "medium" ∧
    voltage r = zip_with Rmult (np_linspace NOMINAL_VOLTAGE 1.2 50) base_sine)).

(** ** main.py

    The values a dictionary of the pipeline may hold, and the dictionaries
    themselves. *)

#[warnings="-register-all"] Inductive pyval : Type :=
| VNone
| VBool (b : bool)
| VNum (x : R)
| VStr (s : string)
| VList (l : list pyval)
| VDict (d : gmap string pyval).

(** [d.get(key, dflt)] *)
Definition dict_get (d : gmap string pyval) (key : string) (dflt : pyval)
  : pyval :=
  default dflt (d !! key).

(** [v == s] for a string literal [s]: a value of another type is
    different, never an error. *)
Definition py_eq_str (v : pyval) (s : string) : bool :=
  match v with
  | VStr t => bool_decide (t = s)
  | _ => false
  end.

(** The number a value stands for in a comparison with a float; [bool] is a
    subclass of [int]. *)
Definition py_number (v : pyval) : option R :=
  match v with
  | VNum x => Some x
  | VBool b => Some (if b then 1 else 0)%R
  | _ => None
  end.

(** [v > c] and [v >= c] for a float literal [c]. *)
Definition py_gt (v : pyval) (c : R) : result bool :=
  match py_number v with
  | Some x => Ok (bool_decide (x > c)%R)
  | None => Raise TypeError
  end.

Definition py_ge (v : pyval) (c : R) : result bool :=
  match py_number v with
  | Some x => Ok (bool_decide (x >= c)%R)
  | None => Raise TypeError
  end.

(** [a or b] on comparisons: [b] is evaluated only when [a] is false. *)
Definition py_or (a b : result bool) : result bool :=
  x ← a; if x : bool then Ok true else b.

Definition MOCK_MODE : bool := true.

Definition mock_score_trust (features : gmap string pyval)
  : result (gmap string pyval) :=
  let anomaly := dict_get features "anomaly_type" (VStr "none") in
  let severity := dict_get features "severity" (VStr "none") in
  let peak := dict_get features "peak_voltage" (VNum 0.0) in
  let thd := dict_get features "thd_percent" (VNum 0.0) in
  let freq_dev := dict_get features "frequency_deviation_hz" (VNum 0.0) in
  let rms := dict_get features "rms_voltage" (VNum 0.0) in
  if py_eq_str anomaly "point" && py_eq_str severity "high" then
    Ok {[ "trust_score" := VNum 0.15;
          "reason" := VStr "Mock: high severity point anomaly";
          "prompt_version" := VStr "trust_scorer_v1" ]}
  else if py_eq_str anomaly "point" && py_eq_str severity "medium" then
    Ok {[ "trust_score" := VNum 0.35;
          "reason" := VStr "Mock: medium severity point anomaly";
          "prompt_version" := VStr "trust_scorer_v1" ]}
  else if py_eq_str anomaly "trend" then
    Ok {[ "trust_score" := VNum 0.50;
          "reason" := VStr "Mock: trend anomaly detected";
          "prompt_version" := VStr "trust_scorer_v1" ]}
  else
    borderline ← py_or (py_gt thd 5.0) (py_or (py_gt freq_dev 0.05)
                   (py_or (py_gt rms 0.72) (py_gt peak 0.73)));
    if borderline : bool then
      Ok {[ "trust_score" := VNum 0.55;
            "reason" := VStr "Mock: borderline features detected";
            "prompt_version" := VStr "trust_scorer_v1" ]}
    else
      Ok {[ "trust_score" := VNum 0.95;
            "reason" := VStr "Mock: all features normal";
            "prompt_version" := VStr "trust_scorer_v1" ]}.

Definition mock_decide_mitigation (trust_result : gmap string pyval)
  : result (gmap string pyval) :=
  let score := dict_get trust_result "trust_score" (VNum 0.5) in
  accept ← py_ge score 0.70;
  if accept : bool then
    Ok {[ "decision" := VStr "ACCEPT";
          "explanation" := VStr "Mock: trust score above threshold";
          "prompt_version" := VStr "mitigation_v1" ]}
  else
    quarantine ← py_ge score 0.30;
    if quarantine : bool then
      Ok {[ "decision" := VStr "QUARANTINE";
            "explanation" := VStr "Mock: suspicious reading";
            "prompt_version" := VStr "mitigation_v1" ]}
    else
      Ok {[ "decision" := VStr "REJECT";
            "explanation" := VStr "Mock: forced reject";
            "prompt_version" := VStr "mitigation_v1" ]}.

(** The dictionary [extract_features] returns. *)
Definition features_dict (fv : features) : gmap string pyval :=
  {[ "rms_voltage" := VNum (rms_voltage fv);
     "thd_percent" := VNum (thd_percent fv);
     "frequency_deviation_hz" := VNum (frequency_deviation_hz fv);
     "peak_voltage" := VNum (peak_voltage fv);
     "anomaly_type" := VStr (feat_anomaly_type fv);
     "severity" := VStr (feat_severity fv) ]}.

(** What the scripts and the agents do to the outside: the lines they
    print, with the values that fill the format fields, the pauses they
    take and the requests they send to the language model. *)
Inductive line :=
| MockWarning
| ReadingLine (i : nat) (anomaly : pyval) (trust : R) (decision : pyval)
| BlankLine
| SummaryHeader
| TotalLine (n : nat)
| DecisionsLine (accept quarantine reject : nat)
| AnomalyLine (atype : string) (n : nat)
| PassLine (case_id description expected got : pyval)
| FailLine (case_id description expected got : pyval)
| ScoreLine (passed total : nat) (score_pct : R)
| VerdictLine (passed : bool)
| RateLimitLine (wait_time : Z).

Inductive effect :=
| Printed (l : line)
| Slept (seconds : Z)
| Asked (system_instruction contents : string).

(** The exceptions of the scripts and the agents: those of the signal code
    and the further classes that occur; a constructor stands for the class
    and its subclasses, [OtherError] for every other class. *)
Inductive error :=
| Builtin (e : exn)
| KeyError (key : string)
| AttributeError
| JSONDecodeError
| UnboundLocalError
| OtherError.

Inductive outcome_of (A : Type) :=
| Returns (a : A)
| Raises (e : error).
Arguments Returns {A} a.
Arguments Raises {A} e.

(** A computation that leaves a trace of effects and returns or raises. *)
Inductive io (A : Type) := IO (effects : list effect) (outcome : outcome_of A).
Arguments IO {A} effects outcome.

Definition effects {A} (m : io A) : list effect :=
  match m with IO l _ => l end.
Definition outcome {A} (m : io A) : outcome_of A :=
  match m with IO _ r => r end.

#[global] Instance io_ret : MRet io := λ A a, IO [] (Returns a).
#[global] Instance io_bind : MBind io := λ A B f m,
  match m with
  | IO l (Returns a) => match f a with IO l' r => IO (l ++ l') r end
  | IO l (Raises e) => IO l (Raises e)
  end.

Definition print (l : line) : io unit := IO [Printed l] (Returns tt).
Definition time_sleep (seconds : Z) : io unit :=
  IO [Slept seconds] (Returns tt).
Definition raise {A} (e : error) : io A := IO [] (Raises e).
Definition lift {A} (r : result A) : io A :=
  match r with
  | Ok a => mret a
  | Raise e => raise (Builtin e)
  end.

(** [for b in l: a = f(a, b)] *)
Fixpoint for_each {A B} (f : A → B → io A) (a : A) (l : list B) : io A :=
  match l with
  | [] => mret a
  | b :: l' => a' ← f a b; for_each f a' l'
  end.

(** The field [{:.2f}] takes a number; a string is a [ValueError], any other
    value a [TypeError]. *)
Definition format_2f (v : pyval) : result R :=
  match v with
  | VNum x => Ok x
  | VBool b => Ok (if b then 1 else 0)%R
  | VStr _ => Raise ValueError
  | _ => Raise TypeError
  end.

(** [l.count(s)] for a string literal [s]. *)
Definition list_count (s : string) (l : list pyval) : nat :=
  length (filter (λ v, py_eq_str v s = true) l).

(** The trust score and the decision of the mock agents for a reading of a
    batch, by its labels and the deviation of its frequency array. *)
Definition verdict (r : reading) : R * string :=
  if decide (anomaly_type r = "point" ∧ severity r = "high") then
    (0.15, "REJECT")%R
  else if decide (anomaly_type r = "point" ∧ severity r = "medium") then
    (0.35, "QUARANTINE")%R
  else if decide (anomaly_type r = "trend") then (0.50, "QUARANTINE")%R
  else if decide (compute_frequency_deviation (frequency r) > 0.05)%R then
    (0.55, "QUARANTINE")%R
  else (0.95, "ACCEPT")%R.

(** The line [run_pipeline] prints for the [i]-th reading of a batch. *)
Definition reading_line (i : nat) (r : reading) : line :=
  ReadingLine i (VStr (anomaly_type r)) (verdict r).1 (VStr (verdict r).2).

Section Pipeline.
Context `{RS : RandomSource}.
Variable butter : Z → R → R → result (list R * list R).
Variable filtfilt : list R → list R → list R → result (list R).
(** The two agents of [agents/], which ask the language model. *)
Variable score_trust : gmap string pyval → io (gmap string pyval).
Variable decide_mitigation : gmap string pyval → io (gmap string pyval).

(** One turn of [for i, reading in enumerate(readings, start=1)]. *)
Definition pipeline_step (total : nat) (acc : list pyval * list pyval)
    (ir : nat * reading) : io (list pyval * list pyval) :=
  let '(decisions, anomaly_types) := acc in
  let '(i, reading) := ir in
  fv ← lift (extract_features butter filtfilt reading);
  let features := features_dict fv in
  trust_result ← (if MOCK_MODE then lift (mock_score_trust features)
                   else score_trust features);
  mitigation_result ← (if MOCK_MODE
                        then lift (mock_decide_mitigation trust_result)
                        else decide_mitigation trust_result);
  let anomaly := dict_get features "anomaly_type" (VStr "none") in
  let trust := dict_get trust_result "trust_score" (VNum 0.0) in
  let decision := dict_get mitigation_result "decision" (VStr "QUARANTINE") in
  t ← lift (format_2f trust);
  _ ← print (ReadingLine i anomaly t decision);
  _ ← (if negb MOCK_MODE && bool_decide (i < total)%nat then time_sleep 30
       else mret tt);
  mret (decisions ++ [decision], anomaly_types ++ [anomaly]).

Definition run_pipeline (n_readings : Z) (g : rng) : io unit :=
  _ ← (if MOCK_MODE then print MockWarning else mret tt);
  batch ← lift (generate_batch n_readings g);
  let readings := batch.1 in
  acc ← for_each (pipeline_step (length readings)) ([], [])
          (zip (seq 1 (length readings)) readings);
  let '(decisions, anomaly_types) := acc in
  _ ← print BlankLine;
  _ ← print SummaryHeader;
  _ ← print (TotalLine (length readings));
  _ ← print (DecisionsLine (list_count "ACCEPT" decisions)
                           (list_count "QUARANTINE" decisions)
                           (list_count "REJECT" decisions));
  _ ← for_each
        (λ _ atype,
           print (AnomalyLine atype (list_count atype anomaly_types)))
        tt ["none"; "point"; "trend"];
  mret tt.

End Pipeline.

(** ** evals/run_evals.py

    The module has its own copies of [mock_score_trust] and
    [mock_decide_mitigation], word for word those of main.py, and its own
    [MOCK_MODE = True]. *)

(** [a == b] on values read from JSON: numbers by value (a bool is 0 or 1),
    strings, [None], arrays element by element, objects key by key; values
    of different kinds differ. *)
#[warnings="-register-all"] Inductive py_equal : pyval → pyval → Prop :=
| equal_none : py_equal VNone VNone
| equal_number a b x :
    py_number a = Some x → py_number b = Some x → py_equal a b
| equal_str s : py_equal (VStr s) (VStr s)
| equal_list l1 l2 : Forall2 py_equal l1 l2 → py_equal (VList l1) (VList l2)
| equal_dict d1 d2 :
    (∀ k, option_Forall2 py_equal (d1 !! k) (d2 !! k)) →
    py_equal (VDict d1) (VDict d2).

Definition py_eq (a b : pyval) : bool :=
  if excluded_middle_informative (py_equal a b) then true else false.

(** [v[key]] for a string literal [key]: only a dictionary takes a string
    as subscript. *)
Definition py_item (v : pyval) (key : string) : io pyval :=
  match v with
  | VDict d =>
      match d !! key with
      | Some x => mret x
      | None => raise (KeyError key)
      end
  | _ => raise (Builtin TypeError)
  end.

(** The receiver of [features.get]: only a dictionary has the method. *)
Definition as_dict (v : pyval) : io (gmap string pyval) :=
  match v with
  | VDict d => mret d
  | _ => raise AttributeError
  end.

(** [tc != test_cases[-1]] *)
Definition differs_from_last (tc : pyval) (test_cases : list pyval) : io bool :=
  match last test_cases with
  | Some l => mret (negb (py_eq tc l))
  | None => raise (Builtin IndexError)
  end.

Section Evals.
Variable score_trust : gmap string pyval → io (gmap string pyval).
Variable decide_mitigation : gmap string pyval → io (gmap string pyval).

(** One turn of [for tc in test_cases]. *)
Definition evals_step (test_cases : list pyval) (passed : nat) (tc : pyval)
  : io nat :=
  case_id ← py_item tc "id";
  description ← py_item tc "description";
  features ← py_item tc "features";
  expected ← py_item tc "expected_decision";
  features ← as_dict features;
  trust_result ← (if MOCK_MODE then lift (mock_score_trust features)
                   else score_trust features);
  mitigation_result ← (if MOCK_MODE
                        then lift (mock_decide_mitigation trust_result)
                        else decide_mitigation trust_result);
  let got := dict_get mitigation_result "decision" (VStr "QUARANTINE") in
  passed ← (if py_eq got expected then
              _ ← print (PassLine case_id description expected got);
              mret (passed + 1)%nat
            else
              _ ← print (FailLine case_id description expected got);
              mret passed);
  _ ← (if negb MOCK_MODE then
         pause ← differs_from_last tc test_cases;
         if pause : bool then time_sleep 3 else mret tt
       else mret tt);
  mret passed.

(** [test_cases] is the array [json.load] reads from test_cases.json. *)
Definition run_evals (test_cases : list pyval) : io R :=
  passed ← for_each (evals_step test_cases) 0%nat test_cases;
  let total := length test_cases in
  let score_pct :=
    if decide (total = 0%nat) then 0.0%R
    else (100.0 * INR passed / INR total)%R in
  _ ← print BlankLine;
  _ ← print (ScoreLine passed total score_pct);
  _ ← print (VerdictLine (bool_decide (score_pct >= 80.0)%R));
  mret score_pct.

(** [sys.exit(0 if score >= 80.0 else 1)] *)
Definition exit_status (score : R) : Z :=
  if decide (score >= 80.0)%R then 0 else 1.

End Evals.

(** The decision the two mock agents reach on a feature dictionary. *)
Definition mock_decision (features : gmap string pyval) : result pyval :=
  trust_result ← mock_score_trust features;
  mitigation_result ← mock_decide_mitigation trust_result;
  Ok (dict_get mitigation_result "decision" (VStr "QUARANTINE")).

(** A test case the loop gets through: an object with the four keys, its
    features an object whose four numbers, where present, are numbers. *)
Definition well_formed_case (tc : pyval) : Prop :=
  ∃ (d features : gmap string pyval),
    tc = VDict d ∧
    is_Some (d !! "id") ∧ is_Some (d !! "description") ∧
    d !! "features" = Some (VDict features) ∧
    is_Some (d !! "expected_decision") ∧
    is_Some (py_number (dict_get features "thd_percent" (VNum 0.0))) ∧
    is_Some (py_number
               (dict_get features "frequency_deviation_hz" (VNum 0.0))) ∧
    is_Some (py_number (dict_get features "rms_voltage" (VNum 0.0))) ∧
    is_Some (py_number (dict_get features "peak_voltage" (VNum 0.0))).

(** A test case passes when its expected decision is the string the mock
    agents decide on its features. *)
Definition case_passes (tc : pyval) : bool :=
  match tc with
  | VDict d =>
      match d !! "features", d !! "expected_decision" with
      | Some (VDict features), Some (VStr expected) =>
          match mock_decision features with
          | Ok (VStr got) => bool_decide (got = expected)
          | _ => false
          end
      | _, _ => false
      end
  | _ => false
  end.

(** The exception a test case raises before the agents are asked: it is
    not an object, it lacks one of the four keys, read in the order of the
    loop, or its features are not an object. *)
Definition case_error (tc : pyval) : option error :=
  match tc with
  | VDict d =>
      match d !! "id", d !! "description", d !! "features",
            d !! "expected_decision" with
      | None, _, _, _ => Some (KeyError "id")
      | Some _, None, _, _ => Some (KeyError "description")
      | Some _, Some _, None, _ => Some (KeyError "features")
      | Some _, Some _, Some _, None => Some (KeyError "expected_decision")
      | Some _, Some _, Some (VDict _), Some _ => None
      | Some _, Some _, Some _, Some _ => Some AttributeError
      end
  | _ => Some (Builtin TypeError)
  end.

(** Two test cases: a normal reading that is expected to be accepted, and a
    point anomaly of high severity that is wrongly expected to be
    quarantined. *)
Definition demo_cases : list pyval :=
  [ VDict {[ "id" := VNum 1; "description" := VStr "normal";
             "features" := VDict {[ "rms_voltage" := VNum 0.7071;
                                    "anomaly_type" := VStr "none" ]};
             "expected_decision" := VStr "ACCEPT" ]};
    VDict {[ "id" := VNum 2; "description" := VStr "spike";
             "features" := VDict {[ "anomaly_type" := VStr "point";
                                    "severity" := VStr "high" ]};
             "expected_decision" := VStr "QUARANTINE" ]} ].

(** ** agents/trust_scorer.py and agents/mitigation.py

    What a request to the language model comes back with: a response, whose
    [text] may be [None], or an exception of some class with its message
    [str(e)]. *)
Inductive api_reply :=
| Reply (text : option string)
| Failure (e : error) (message : string).

#[global] Instance outcome_ret : MRet outcome_of := λ A a, Returns a.
#[global] Instance outcome_bind : MBind outcome_of := λ A B f m,
  match m with
  | Returns a => f a
  | Raises e => Raises e
  end.

Definition newline_char : Ascii.ascii := Ascii.ascii_of_nat 10.
Definition newline : string := String newline_char EmptyString.

(** [needle in hay] *)
Fixpoint contains (needle hay : string) : bool :=
  String.prefix needle hay ||
  match hay with
  | EmptyString => false
  | String _ hay' => contains needle hay'
  end.

(** [s.split("\n")] *)
Fixpoint split_newline (s : string) : list string :=
  match s with
  | EmptyString => [EmptyString]
  | String c s' =>
      if Ascii.eqb c newline_char then EmptyString :: split_newline s'
      else
        match split_newline s' with
        | l :: ls => String c l :: ls
        | [] => [String c EmptyString]
        end
  end.

(** ["\n".join(lines)] *)
Fixpoint join_newline (lines : list string) : string :=
  match lines with
  | [] => EmptyString
  | [l] => l
  | l :: ls => l +:+ newline +:+ join_newline ls
  end.

(** ["429" in str(e) or "RESOURCE_EXHAUSTED" in str(e)] *)
Definition rate_limited (message : string) : bool :=
  contains "429" message || contains "RESOURCE_EXHAUSTED" message.

(** The float literal [0.30], as the number it holds: the double nearest
    to 3/10, which lies below it.  A number in a dictionary is the exact
    value of the Python number, so that [trust_score < 0.30] is the
    comparison with this value. *)
Definition lit_0_30 : spec_float := S754_finite false 5404319552844595 (-54).
Definition float_0_30 : R := (5404319552844595 / 18014398509481984)%R.

(** [except (json.JSONDecodeError, ValueError, TypeError, AttributeError)];
    [JSONDecodeError] and numpy's [LinAlgError] are subclasses of
    [ValueError]. *)
Definition agent_catches (e : error) : bool :=
  match e with
  | JSONDecodeError | AttributeError
  | Builtin ValueError | Builtin TypeError | Builtin LinAlgError => true
  | _ => false
  end.

(** [v < c] for a float literal [c]. *)
Definition py_lt (v : pyval) (c : R) : outcome_of bool :=
  match py_number v with
  | Some x => Returns (bool_decide (x < c)%R)
  | None => Raises (Builtin TypeError)
  end.

(** [data.get(key, dflt)] on a value read from JSON: only an object has the
    method. *)
Definition json_get (data : pyval) (key : string) (dflt : pyval)
  : outcome_of pyval :=
  match data with
  | VDict d => Returns (dict_get d key dflt)
  | _ => Raises AttributeError
  end.

(** The requests sent and the seconds slept in a trace. *)
Definition requests (eff : list effect) : nat :=
  foldr (λ e acc, match e with Asked _ _ => S acc | _ => acc end) 0%nat eff.

Definition seconds_slept (eff : list effect) : Z :=
  foldr (λ e acc, match e with Slept s => s + acc | _ => acc end)%Z 0%Z eff.

Section Agents.
(** The client of the language model, with the state of the service; the
    parser of [json]; and four functions of Python's strings and floats:
    [str] on a value that is not a string, [str.strip], [str.upper] and
    [float] on a string. *)
Variable api : Type.
Variable generate_content : string → string → api → api_reply * api.
Variable json_loads : string → option pyval.
Variable py_repr : pyval → string.
Variable str_strip : string → string.
Variable str_upper : string → string.
Variable float_of_str : string → option R.
(** The two prompts of config/prompts.py. *)
Variable TRUST_SCORER_PROMPT_V1 : string.
Variable MITIGATION_PROMPT_V1 : string.

(** [str(v)], and ["{}".format(v)] *)
Definition py_str (v : pyval) : string :=
  match v with
  | VStr s => s
  | _ => py_repr v
  end.

(** [float(v)]: a number is a float already, or an integer that a float
    holds exactly. *)
Definition py_float (v : pyval) : outcome_of R :=
  match v with
  | VNum x => Returns x
  | VBool b => Returns (if b then 1 else 0)%R
  | VStr s =>
      match float_of_str s with
      | Some x => Returns x
      | None => Raises (Builtin ValueError)
      end
  | _ => Raises (Builtin TypeError)
  end.

(** [json.loads(text)] *)
Definition py_json_loads (text : string) : outcome_of pyval :=
  match json_loads text with
  | Some data => Returns data
  | None => Raises JSONDecodeError
  end.

(** The turns [attempts] of [for attempt in range(max_retries)]: the
    request, and on an exception whose message names a rate limit the
    pause before the next turn; the last turn and every other exception
    raise again.  A loop that ends without [break] leaves [response]
    unbound. *)
Fixpoint generate_with_retry (system_instruction contents : string)
    (max_retries : Z) (attempts : list Z) (a : api)
  : io (option string) * api :=
  match attempts with
  | [] => (raise UnboundLocalError, a)
  | attempt :: rest =>
      match generate_content system_instruction contents a with
      | (Reply text, a') =>
          (IO [Asked system_instruction contents] (Returns text), a')
      | (Failure e message, a') =>
          if contains "429" message || contains "RESOURCE_EXHAUSTED" message
          then
            let wait_time := (15 * (attempt + 1))%Z in
            let eff := [Asked system_instruction contents;
                        Printed (RateLimitLine wait_time); Slept wait_time] in
            if (attempt =? max_retries - 1)%Z then (IO eff (Raises e), a')
            else
              let '(m, a'') :=
                generate_with_retry system_instruction contents max_retries
                  rest a' in
              (IO (eff ++ effects m) (outcome m), a'')
          else (IO [Asked system_instruction contents] (Raises e), a')
      end
  end.

(** [(response.text or "").strip()] and the removal of a markdown code
    fence; [split] returns at least one line. *)
Definition response_text (text : option string) : string :=
  let text := str_strip (default EmptyString text) in
  if String.prefix "```" text then
    let lines := split_newline text in
    let lines :=
      if String.prefix "```" (hd EmptyString lines) then tail lines
      else lines in
    let lines :=
      match last lines with
      | Some l => if String.eqb (str_strip l) "```" then removelast lines
                  else lines
      | None => lines
      end in
    join_newline lines
  else text.

(** The [try] block of [score_trust] after the request. *)
Definition parse_trust (text : option string)
  : outcome_of (gmap string pyval) :=
  let text := response_text text in
  data ← py_json_loads text;
  v ← json_get data "trust_score" (VNum 0.5);
  trust_score ← py_float v;
  r ← json_get data "reason" (VStr "");
  let reason := py_str r in
  Returns {[ "trust_score" := VNum trust_score;
             "reason" := VStr reason;
             "prompt_version" := VStr "trust_scorer_v1" ]}.

(** The [try] block of [decide_mitigation] after the request. *)
Definition parse_mitigation (trust_score : pyval) (text : option string)
  : outcome_of (gmap string pyval) :=
  let text := response_text text in
  data ← py_json_loads text;
  d ← json_get data "decision" (VStr "QUARANTINE");
  let decision := str_upper (str_strip (py_str d)) in
  x ← json_get data "explanation" (VStr "");
  let explanation := py_str x in
  low ← py_lt trust_score float_0_30;
  if low : bool then
    Returns {[ "decision" := VStr "REJECT";
               "explanation" :=
                 VStr "Forced REJECT: trust_score below 0.30 threshold.";
               "prompt_version" := VStr "mitigation_v1" ]}
  else
    Returns {[ "decision" := VStr decision;
               "explanation" := VStr explanation;
               "prompt_version" := VStr "mitigation_v1" ]}.

(** [try: ... except (...): return fallback] *)
Definition except_parse_error {A} (fallback : A) (r : outcome_of A)
  : outcome_of A :=
  match r with
  | Returns a => Returns a
  | Raises e => if agent_catches e then Returns fallback else Raises e
  end.

Definition score_trust (features : gmap string pyval) (a : api)
  : io (gmap string pyval) * api :=
  let field (key : string) :=
    key +:+ ": " +:+ py_str (dict_get features key (VStr "")) in
  let lines := [ field "rms_voltage"; field "thd_percent";
                 field "frequency_deviation_hz"; field "peak_voltage";
                 field "anomaly_type"; field "severity" ] in
  let user_message := join_newline lines in
  let '(m, a') :=
    generate_with_retry TRUST_SCORER_PROMPT_V1 user_message 3 [0; 1; 2]%Z a in
  (IO (effects m)
      (except_parse_error
         {[ "trust_score" := VNum 0.5;
            "reason" := VStr "parse error";
            "prompt_version" := VStr "trust_scorer_v1" ]}
         (outcome m ≫= parse_trust)), a').

Definition decide_mitigation (trust_result : gmap string pyval) (a : api)
  : io (gmap string pyval) * api :=
  let trust_score := dict_get trust_result "trust_score" (VNum 0.0) in
  let reason := dict_get trust_result "reason" (VStr "") in
  let user_message :=
    "trust_score: " +:+ py_str trust_score +:+ newline +:+
    "reason: " +:+ py_str reason in
  let '(m, a') :=
    generate_with_retry MITIGATION_PROMPT_V1 user_message 3 [0; 1; 2]%Z a in
  (IO (effects m)
      (except_parse_error
         {[ "decision" := VStr "QUARANTINE";
            "explanation" := VStr "parse error";
            "prompt_version" := VStr "mitigation_v1" ]}
         (outcome m ≫= parse_mitigation trust_score)), a').


Definition mitigation_message (trust_result : gmap string pyval) : string :=
  "trust_score: "
  +:+ py_str (dict_get trust_result "trust_score" (VNum 0.0)) +:+ newline
  +:+ "reason: " +:+ py_str (dict_get trust_result "reason" (VStr "")).

End Agents.


Definition mitigation_fallback : gmap string pyval :=
  {[ "decision" := VStr "QUARANTINE";
     "explanation" := VStr "parse error";
     "prompt_version" := VStr "mitigation_v1" ]}.

(* ===================================================================== *)
(** * Part II: properties                                                 *)
(* ===================================================================== *)

(** ** Binary64 rounding *)

Module Float64Facts.
Import Float64.
Local Open Scope Z_scope.

Lemma digits2_pos_size (m : positive) : digits2_pos m = Pos.size m.
Proof. induction m as [m IH|m IH|]; simpl; congruence. Qed.

Lemma digits2_pos_bounds (m : positive) :
2 ^ (Zpos (digits2_pos m) - 1) ≤ Zpos m < 2 ^ Zpos (digits2_pos m).
Proof.
rewrite digits2_pos_size. split.
- pose proof (Pos.size_le m) as H.
  apply Pos2Z.pos_le_pos in H. rewrite Pos2Z.inj_pow in H.
  replace (Zpos (Pos.size m)) with (Zpos (Pos.size m) - 1 + 1) in H by lia.
  rewrite Z.pow_add_r, Z.pow_1_r in H by lia.
  pose proof (Pos2Z.inj_xO m). lia.
- pose proof (Pos.size_gt m) as H.
  apply Pos2Z.pos_lt_pos in H. now rewrite Pos2Z.inj_pow in H.
Qed.

Lemma Zdigits2_nonneg (m : Z) : 0 ≤ Zdigits2 m.
Proof. destruct m; simpl; lia. Qed.

(** A non-negative integer below [2 ^ k] has at most [k] binary digits. *)
Lemma Zdigits2_le_of_lt (m k : Z) : 0 ≤ k → 0 ≤ m < 2 ^ k → Zdigits2 m ≤ k.
Proof.
intros Hk [Hm Hlt]. destruct m as [|p|p]; simpl; [lia| |lia].
pose proof (digits2_pos_bounds p) as [Hlo _].
destruct (Z_le_gt_dec (Zpos (digits2_pos p)) k) as [|Hgt]; [done|].
exfalso. assert (2 ^ k ≤ 2 ^ (Zpos (digits2_pos p) - 1)).
{ apply Z.pow_le_mono_r; lia. }
lia.
Qed.

(** ** The right shift of the rounding procedure *)

Lemma shr_1_spec (x : shr_record) :
0 ≤ shr_m x →
shr_m (shr_1 x) = shr_m x / 2 ∧ shr_r (shr_1 x) = Z.odd (shr_m x).
Proof.
destruct x as [m r s]. simpl. intros Hm.
destruct m as [|[p|p|]|p]; simpl; try lia; split; try reflexivity.
- rewrite Pos2Z.inj_xI. apply Z.div_unique with (r := 1); lia.
- rewrite Pos2Z.inj_xO. apply Z.div_unique with (r := 0); lia.
Qed.

Lemma iter_pos_shr_1 (p : positive) : ∀ x : shr_record,
0 ≤ shr_m x →
shr_m (SpecFloat.iter_pos shr_1 p x) = shr_m x / 2 ^ Zpos p ∧
shr_r (SpecFloat.iter_pos shr_1 p x) = Z.testbit (shr_m x) (Zpos p - 1).
Proof.
assert (Hcomp : ∀ (a b : Z) (x y z : shr_record),
  0 < a → 0 < b → 0 ≤ shr_m x →
  shr_m y = shr_m x / 2 ^ a → 
  shr_m z = shr_m y / 2 ^ b ∧ shr_r z = Z.testbit (shr_m y) (b - 1) →
  shr_m z = shr_m x / 2 ^ (a + b) ∧ shr_r z = Z.testbit (shr_m x) (a + b - 1)).
{ intros a b x y z Ha Hb Hx Hy [Hz Hr]. split.
  - rewrite Hz, Hy, Z.pow_add_r, Z.div_div by lia. reflexivity.
  - rewrite Hr, Hy, <- Z.shiftr_div_pow2, Z.shiftr_spec by lia.
    f_equal. lia. }
assert (Hpos : ∀ (a : Z) (x y : shr_record),
  0 < a → 0 ≤ shr_m x → shr_m y = shr_m x / 2 ^ a → 0 ≤ shr_m y).
{ intros a x y Ha Hx ->. apply Z.div_pos; [done|]. apply Z.pow_pos_nonneg; lia. }
induction p as [p IH|p IH|]; intros x Hx; simpl SpecFloat.iter_pos.
- destruct (shr_1_spec x Hx) as [H1m H1r].
  assert (H1 : 0 ≤ shr_m (shr_1 x)) by (rewrite H1m; apply Z.div_pos; lia).
  destruct (IH _ H1) as [H2m H2r].
  assert (H2 : 0 ≤ shr_m (SpecFloat.iter_pos shr_1 p (shr_1 x)))
    by (apply (Hpos (Zpos p) (shr_1 x)); [lia | assumption | assumption]).
  pose proof (IH _ H2) as H3.
  assert (Hs : shr_m (SpecFloat.iter_pos shr_1 p (shr_1 x)) = shr_m x / 2 ^ (1 + Zpos p)
               ∧ shr_r (SpecFloat.iter_pos shr_1 p (shr_1 x)) = Z.testbit (shr_m x) (1 + Zpos p - 1)).
  { apply (Hcomp 1 (Zpos p) x (shr_1 x)); try lia; [|split; assumption].
    rewrite H1m. reflexivity. }
  destruct Hs as [Hsm Hsr].
  replace (Zpos p~1) with ((1 + Zpos p) + Zpos p) by lia.
  apply (Hcomp (1 + Zpos p) (Zpos p) x (SpecFloat.iter_pos shr_1 p (shr_1 x))); try lia; assumption.
- destruct (IH _ Hx) as [H1m H1r].
  assert (H1 : 0 ≤ shr_m (SpecFloat.iter_pos shr_1 p x))
    by (apply (Hpos (Zpos p) x); [lia | assumption | assumption]).
  pose proof (IH _ H1) as H2.
  replace (Zpos p~0) with (Zpos p + Zpos p) by lia.
  apply (Hcomp (Zpos p) (Zpos p) x (SpecFloat.iter_pos shr_1 p x)); try lia; assumption.
- destruct (shr_1_spec x Hx) as [H1m H1r]. split; [assumption|].
  rewrite H1r. symmetry. apply Z.bit0_odd.
Qed.


(** Rounding up adds one only when the first dropped bit is set, so the
  rounded mantissa exceeds the exact quotient by at most one half. *)
Lemma div_pow2_round_bit (m k : Z) :
0 ≤ m → 0 < k →
2 * (m / 2 ^ k + Z.b2z (Z.testbit m (k - 1))) * 2 ^ k ≤ 2 * m + 2 ^ k.
Proof.
intros Hm Hk.
assert (HP : 0 < 2 ^ (k - 1)) by (apply Z.pow_pos_nonneg; lia).
assert (Hk2 : 2 ^ k = 2 ^ (k - 1) * 2).
{ replace k with (k - 1 + 1) at 1 by lia. rewrite Z.pow_add_r, Z.pow_1_r; lia. }
rewrite Z.testbit_odd, Z.shiftr_div_pow2 by lia.
rewrite Hk2, <- Z.div_div by lia.
set (P := 2 ^ (k - 1)) in *. set (q := m / P).
assert (Hq : m = P * q + m mod P) by (apply Z.div_mod; lia).
assert (Hr : 0 ≤ m mod P < P) by (apply Z.mod_pos_bound; lia).
assert (Hb : q = 2 * (q / 2) + Z.b2z (Z.odd q)).
{ rewrite <- Z.div2_div. apply Z.div2_odd. }
assert (Hb1 : 0 ≤ Z.b2z (Z.odd q) ≤ 1) by (destruct (Z.odd q); simpl; lia).
nia.
Qed.

Lemma round_nearest_even_record (r : shr_record) :
shr_m r ≤ round_nearest_even (shr_m r) (loc_of_shr_record r)
        ≤ shr_m r + Z.b2z (shr_r r).
Proof.
destruct r as [m [] []]; simpl; destruct (Z.even m); simpl; lia.
Qed.


Lemma shr_fexp_exact (m e : Z) :
0 ≤ m →
∃ r, shr_fexp prec emax m e loc_Exact
       = (r, Z.max e (fexp64 (Zdigits2 m + e))) ∧
     shr_m r = m / 2 ^ (Z.max e (fexp64 (Zdigits2 m + e)) - e) ∧
     ((fexp64 (Zdigits2 m + e) ≤ e ∧ r = Build_shr_record m false false) ∨
      (e < fexp64 (Zdigits2 m + e) ∧
       shr_r r = Z.testbit m (fexp64 (Zdigits2 m + e) - e - 1))).
Proof.
intros Hm. unfold shr_fexp, shr, fexp64. simpl shr_record_of_loc.
set (f := fexp prec emax (Zdigits2 m + e)).
destruct (f - e) as [|p|p] eqn:Hn.
- exists (Build_shr_record m false false).
  replace (Z.max e f) with e by lia. rewrite Z.sub_diag, Z.div_1_r.
  split; [reflexivity|]. split; [reflexivity|]. left. split; [lia|reflexivity].
- exists (SpecFloat.iter_pos shr_1 p (Build_shr_record m false false)).
  destruct (iter_pos_shr_1 p (Build_shr_record m false false) Hm) as [H1 H2].
  simpl shr_m in H1, H2.
  replace (Z.max e f) with (e + Zpos p) by lia.
  replace (e + Zpos p - e) with (Zpos p) by lia.
  split; [reflexivity|]. split; [exact H1|]. right. split; [lia|].
  rewrite H2. f_equal; lia.
- exists (Build_shr_record m false false).
  replace (Z.max e f) with e by lia. rewrite Z.sub_diag, Z.div_1_r.
  split; [reflexivity|]. split; [reflexivity|]. left. split; [lia|reflexivity].
Qed.

(** The two stages of [binary_round_aux] on an exact positive input: the
  mantissa is shifted to the target exponent [e1] and rounded to [m1]; a
  second shift renormalises a mantissa that the rounding made too long. *)
Lemma binary_round_aux_exact (s : bool) (m : positive) (e : Z) :
∃ m1 m2 e1 e2 : Z,
  e1 = Z.max e (fexp64 (Zpos (digits2_pos m) + e)) ∧
  0 ≤ m1 ∧
  2 * m1 * 2 ^ (e1 - e) ≤ 2 * Zpos m + 2 ^ (e1 - e) ∧
  (e1 = e → m1 = Zpos m) ∧
  e2 = Z.max e1 (fexp64 (Zdigits2 m1 + e1)) ∧
  m2 = m1 / 2 ^ (e2 - e1) ∧
  binary_round_aux prec emax s (Zpos m) e loc_Exact =
    match m2 with
    | 0 => S754_zero s
    | Zpos p => if e2 <=? emax - prec then S754_finite s p e2
                else S754_infinity s
    | Zneg _ => S754_nan
    end.
Proof.
assert (Hm : 0 ≤ Zpos m) by lia.
destruct (shr_fexp_exact (Zpos m) e Hm) as (r & Hr & Hrm & Hcase).
simpl Zdigits2 in *.
set (e1 := Z.max e (fexp64 (Zpos (digits2_pos m) + e))) in *.
set (m1 := round_nearest_even (shr_m r) (loc_of_shr_record r)).
assert (Hr0 : 0 ≤ shr_m r).
{ rewrite Hrm. apply Z.div_pos; [lia|]. apply Z.pow_pos_nonneg; lia. }
pose proof (round_nearest_even_record r) as Hrne. fold m1 in Hrne.
assert (Hm1 : 0 ≤ m1) by lia.
destruct (shr_fexp_exact m1 e1 Hm1) as (r2 & Hr2 & Hr2m & _).
exists m1, (shr_m r2), e1, (Z.max e1 (fexp64 (Zdigits2 m1 + e1))).
split; [reflexivity|]. split; [assumption|].
split; [|split; [|split; [reflexivity|split; [assumption|]]]].
- destruct Hcase as [[Hle ->]|[Hlt Hbit]].
  + replace (e1 - e) with 0 by lia. simpl in *. lia.
  + replace (e1 - e) with (fexp64 (Zpos (digits2_pos m) + e) - e) in * by lia.
    pose proof (div_pow2_round_bit (Zpos m)
                  (fexp64 (Zpos (digits2_pos m) + e) - e) Hm ltac:(lia)) as Hb.
    rewrite <- Hbit, <- Hrm in Hb.
    assert (0 < 2 ^ (fexp64 (Zpos (digits2_pos m) + e) - e))
      by (apply Z.pow_pos_nonneg; lia).
    nia.
- intros He1. destruct Hcase as [[Hle ->]|[Hlt Hbit]]; [reflexivity|lia].
- unfold binary_round_aux. rewrite Hr. fold m1. rewrite Hr2. reflexivity.
Qed.


(** ** Powers of two as reals *)

Lemma bpow_pos (e : Z) : (0 < bpow e)%R.
Proof. apply powerRZ_lt. lra. Qed.

Lemma bpow_add (a b : Z) : bpow (a + b) = (bpow a * bpow b)%R.
Proof. apply powerRZ_add. lra. Qed.

Lemma bpow_pow2 (k : Z) : 0 ≤ k → IZR (2 ^ k) = bpow k.
Proof.
intros Hk. unfold bpow. rewrite <- (Z2Nat.id k Hk).
rewrite <- pow_IZR, <- pow_powerRZ. reflexivity.
Qed.

Lemma bpow_ge_1 (k : Z) : 0 ≤ k → (1 <= bpow k)%R.
Proof.
intros Hk. rewrite <- bpow_pow2 by assumption.
apply IZR_le. pose proof (Z.pow_pos_nonneg 2 k). lia.
Qed.

Lemma bpow_le (a b : Z) : a ≤ b → (bpow a <= bpow b)%R.
Proof.
intros Hab. replace b with (a + (b - a)) by lia. rewrite bpow_add.
pose proof (bpow_pos a). pose proof (bpow_ge_1 (b - a) ltac:(lia)). nra.
Qed.

Lemma bpow_lt_inv (a b : Z) : (bpow a < bpow b)%R → a < b.
Proof.
intros Hlt. destruct (Z_lt_le_dec a b) as [|Hle]; [assumption|].
apply bpow_le in Hle. lra.
Qed.

Lemma bpow_succ (a : Z) : bpow (a + 1) = (2 * bpow a)%R.
Proof. rewrite bpow_add. unfold bpow at 2. simpl. lra. Qed.

Lemma fexp64_eq (x : Z) : fexp64 x = Z.max (x - 53) (-1074).
Proof. reflexivity. Qed.

(** A positive mantissa with exponent [e] is at least [2 ^ (digits - 1 + e)]. *)
Lemma digits_bpow_le (m : positive) (e : Z) :
(bpow (Zpos (digits2_pos m) - 1 + e) <= IZR (Zpos m) * bpow e)%R.
Proof.
rewrite bpow_add. pose proof (bpow_pos e).
pose proof (digits2_pos_bounds m) as [Hlo _].
apply IZR_le in Hlo. rewrite bpow_pow2 in Hlo by lia. nra.
Qed.

(** Rounding an exact product or integer [m * 2 ^ e] that stays below the
  overflow threshold: the result is a zero or a finite float, at most one
  half unit in the last place above the exact value. *)
Lemma binary_round_aux_bound (s : bool) (m : positive) (e : Z) :
e ≤ 971 →
(IZR (Zpos m) * bpow e < bpow 1024 - bpow 970)%R →
binary_round_aux prec emax s (Zpos m) e loc_Exact = S754_zero s ∨
∃ (p : positive) (e2 : Z),
  binary_round_aux prec emax s (Zpos m) e loc_Exact = S754_finite s p e2 ∧
  e2 ≤ 971 ∧
  (IZR (Zpos p) * bpow e2
     <= IZR (Zpos m) * bpow e * (1 + bpow (-53)) + bpow (-1075))%R.
Proof.
intros He Hv.
destruct (binary_round_aux_exact s m e)
  as (m1 & m2 & e1 & e2 & He1 & Hm1 & Hround & Hexact & He2 & Hm2 & Hres).
rewrite fexp64_eq in He1, He2.
set (d := Zpos (digits2_pos m)) in *. set (v := (IZR (Zpos m) * bpow e)%R) in *.
pose proof (bpow_pos e) as Hpe. pose proof (bpow_pos e1) as Hpe1.
assert (Hvpos : (0 < v)%R).
{ unfold v. apply Rmult_lt_0_compat; [apply IZR_lt; lia|assumption]. }
pose proof (digits_bpow_le m e) as Hdig. fold d v in Hdig.
pose proof (bpow_pos 970) as Hp970.
(* the target exponent stays in range *)
assert (Hd : d + e ≤ 1024).
{ assert (d - 1 + e < 1024); [|lia]. apply bpow_lt_inv. lra. }
assert (He1le : e1 ≤ 971) by lia.
(* the rounded mantissa, as a real *)
assert (Hshift : (IZR (2 ^ (e1 - e)) * bpow e = bpow e1)%R).
{ rewrite bpow_pow2 by lia. rewrite <- bpow_add. f_equal. lia. }
assert (Hr1 : (2 * (IZR m1 * bpow e1) <= 2 * v + bpow e1)%R).
{ apply IZR_le in Hround. rewrite plus_IZR, !mult_IZR in Hround.
  rewrite <- Hshift. unfold v. nra. }
assert (Hhalf : e < e1 → (bpow e1 <= 2 * (v * bpow (-53) + bpow (-1075)))%R).
{ intros Hlt. assert (Hf : e1 = Z.max (d + e - 53) (-1074)) by lia.
  pose proof (bpow_pos (-1075)). pose proof (bpow_pos (-53)).
  destruct (Z_le_gt_dec (d + e - 53) (-1074)) as [Hsub|Hnorm].
  - replace e1 with (-1075 + 1) by lia. rewrite bpow_succ. nra.
  - replace e1 with ((d - 1 + e) + -53 + 1) by lia.
    rewrite bpow_succ, bpow_add. nra. }
assert (Hv1 : (IZR m1 * bpow e1 <= v * (1 + bpow (-53)) + bpow (-1075))%R).
{ destruct (Z.eq_dec e1 e) as [Heq|Hne].
  - rewrite (Hexact Heq), Heq. fold v.
    pose proof (bpow_pos (-1075)). pose proof (bpow_pos (-53)). nra.
  - assert (e < e1) by lia. specialize (Hhalf ltac:(assumption)). lra. }
(* the final exponent stays in range *)
assert (Hdm1 : Zdigits2 m1 + e1 ≤ 1024).
{ destruct m1 as [|q|q]; simpl; [lia| |lia].
  assert (Zpos (digits2_pos q) - 1 + e1 < 1024); [|lia].
  apply bpow_lt_inv. pose proof (digits_bpow_le q e1) as Hq.
  assert (bpow e1 <= bpow 971)%R by (apply bpow_le; lia).
  assert (bpow 971 = 2 * bpow 970)%R by (rewrite <- bpow_succ; reflexivity).
  lra. }
assert (He2le : e2 ≤ 971) by lia.
(* the second shift only drops bits *)
assert (Hp2 : 0 < 2 ^ (e2 - e1)) by (apply Z.pow_pos_nonneg; lia).
assert (Hm2le : m2 * 2 ^ (e2 - e1) ≤ m1).
{ rewrite Hm2. rewrite Z.mul_comm. apply Z.mul_div_le. assumption. }
assert (Hm2pos : 0 ≤ m2) by (rewrite Hm2; apply Z.div_pos; lia).
assert (Hv2 : (IZR m2 * bpow e2 <= IZR m1 * bpow e1)%R).
{ replace e2 with ((e2 - e1) + e1) by lia. rewrite bpow_add.
  rewrite <- bpow_pow2 by lia. apply IZR_le in Hm2le.
  rewrite mult_IZR in Hm2le. nra. }
rewrite Hres. destruct m2 as [|p|p]; [left; reflexivity| |lia].
right. exists p, e2. change (emax - prec) with 971.
destruct (Z.leb_spec e2 971); [|lia].
split; [reflexivity|]. split; [assumption|]. lra.
Qed.


(** ** The literals

    [0.40] and [0.35] are the correctly rounded quotients 2/5 and 7/20. *)

Example lit_0_40_nearest :
  SFdiv prec emax (S754_finite false 2 0) (S754_finite false 5 0) = lit_0_40.
Proof. vm_compute. reflexivity. Qed.

Example lit_0_35_nearest :
  SFdiv prec emax (S754_finite false 7 0) (S754_finite false 20 0) = lit_0_35.
Proof. vm_compute. reflexivity. Qed.

(** ** Conversion of an integer *)

Lemma pos_iter_xO (m d : positive) :
Zpos (Pos.iter xO m d) = Zpos m * 2 ^ Zpos d.
Proof.
induction d as [|d IH] using Pos.peano_ind.
- simpl. lia.
- rewrite Pos.iter_succ, Pos2Z.inj_xO, IH, Pos2Z.inj_succ, Z.pow_succ_r by lia.
  lia.
Qed.

Lemma shl_align_spec (m : positive) (e e' : Z) :
∃ (mz : positive) (ez : Z),
  shl_align m e e' = (mz, ez) ∧ ez ≤ e ∧
  (IZR (Zpos mz) * bpow ez = IZR (Zpos m) * bpow e)%R.
Proof.
unfold shl_align. destruct (e' - e) as [|d|d] eqn:Hd.
- exists m, e. repeat split; try reflexivity; lia.
- exists m, e. repeat split; try reflexivity; lia.
- exists (Pos.iter xO m d), e'. split; [reflexivity|]. split; [lia|].
  rewrite pos_iter_xO, mult_IZR, bpow_pow2 by lia.
  rewrite Rmult_assoc, <- bpow_add. do 2 f_equal. lia.
Qed.

Lemma threshold_IZR (n : Z) :
n < 2 ^ 1024 - 2 ^ 970 → (IZR n < bpow 1024 - bpow 970)%R.
Proof.
intros Hn. rewrite <- !bpow_pow2 by lia. rewrite <- minus_IZR.
apply IZR_lt. exact Hn.
Qed.

(** [float(n)] succeeds below the threshold and exceeds [n] by at most one
  half unit in the last place. *)
Lemma of_int_bound (n : Z) :
0 < n < 2 ^ 1024 - 2 ^ 970 →
∃ x, of_int n = Ok x ∧
  (x = S754_zero false ∨
   ∃ (p : positive) (e : Z), x = S754_finite false p e ∧ e ≤ 971 ∧
     (IZR (Zpos p) * bpow e <= IZR n * (1 + bpow (-53)) + bpow (-1075))%R).
Proof.
intros [Hpos Hlt]. destruct n as [|m|m]; try lia.
unfold of_int, binary_normalize, binary_round.
destruct (shl_align_spec m 0 (fexp prec emax (Zpos (digits2_pos m) + 0)))
  as (mz & ez & -> & Hez & Hval).
assert (Hb0 : bpow 0 = 1%R) by reflexivity.
rewrite Hb0, Rmult_1_r in Hval.
apply threshold_IZR in Hlt. rewrite <- Hval in Hlt.
destruct (binary_round_aux_bound false mz ez ltac:(lia) Hlt)
  as [->|(p & e2 & -> & He2 & Hb)].
- eexists. split; [reflexivity|]. left. reflexivity.
- eexists. split; [reflexivity|]. right. exists p, e2.
  split; [reflexivity|]. split; [assumption|]. rewrite <- Hval. exact Hb.
Qed.

(** ** Product with a literal below one half *)

Lemma bpow_m10 : bpow (-10) = (/ 1024)%R.
Proof. unfold bpow. simpl. lra. Qed.

Lemma unit_roundoff_small : (0 < bpow (-53) <= / 1024)%R.
Proof.
split; [apply bpow_pos|]. rewrite <- bpow_m10. apply bpow_le. lia.
Qed.

Lemma underflow_unit_small : (0 < bpow (-1075) <= / 1024)%R.
Proof.
split; [apply bpow_pos|]. rewrite <- bpow_m10. apply bpow_le. lia.
Qed.

Lemma bpow_1024_970 : (1024 * bpow 970 <= bpow 1024)%R.
Proof.
change (bpow 1024) with (bpow (970 + 54)). rewrite bpow_add.
assert (H10 : bpow 10 = 1024%R) by (unfold bpow; simpl; lra).
pose proof (bpow_le 10 54 ltac:(lia)) as H54. rewrite H10 in H54.
pose proof (bpow_pos 970). nra.
Qed.

Lemma mul_finite_bound (mc p : positive) (e : Z) (X : R) :
(IZR (Zpos mc) * bpow (-54) <= / 2)%R →
e ≤ 971 →
(IZR (Zpos p) * bpow e <= X)%R →
(X < (bpow 1024 - bpow 970) * (1 + bpow (-53)) + bpow (-1075))%R →
mul (S754_finite false mc (-54)) (S754_finite false p e) = S754_zero false ∨
∃ (q : positive) (e3 : Z),
  mul (S754_finite false mc (-54)) (S754_finite false p e)
    = S754_finite false q e3 ∧
  (IZR (Zpos q) * bpow e3
     <= IZR (Zpos mc) * bpow (-54) * X * (1 + bpow (-53)) + bpow (-1075))%R.
Proof.
intros Hc He HX HXlt. unfold mul, SFmul. simpl xorb.
pose proof unit_roundoff_small as Hu. pose proof underflow_unit_small as Heta.
pose proof bpow_1024_970 as HB. pose proof (bpow_ge_1 970 ltac:(lia)) as Hb.
pose proof (bpow_pos e) as Hpe. pose proof (bpow_pos (-54)) as Hp54.
assert (Hp : (0 < IZR (Zpos p))%R) by (apply IZR_lt; lia).
assert (Hmc : (0 < IZR (Zpos mc))%R) by (apply IZR_lt; lia).
assert (Hv : (IZR (Zpos (mc * p)) * bpow (-54 + e)
              = IZR (Zpos mc) * bpow (-54) * (IZR (Zpos p) * bpow e))%R).
{ rewrite Pos2Z.inj_mul, mult_IZR, bpow_add. ring. }
assert (Hlt : (IZR (Zpos (mc * p)) * bpow (-54 + e) < bpow 1024 - bpow 970)%R).
{ rewrite Hv.
  set (c := (IZR (Zpos mc) * bpow (-54))%R) in *.
  set (xv := (IZR (Zpos p) * bpow e)%R) in *.
  set (B := bpow 1024) in *. set (b := bpow 970) in *.
  set (u := bpow (-53)) in *. set (eta := bpow (-1075)) in *.
  assert (0 < xv)%R by (apply Rmult_lt_0_compat; assumption).
  assert (c * xv <= / 2 * xv)%R by (apply Rmult_le_compat_r; lra).
  assert ((B - b) * u <= (B - b) * / 1024)%R
    by (apply Rmult_le_compat_l; lra).
  lra. }
destruct (binary_round_aux_bound false (mc * p) (-54 + e) ltac:(lia) Hlt)
  as [->|(q & e3 & -> & _ & Hq)]; [left; reflexivity|].
right. exists q, e3. split; [reflexivity|]. rewrite Hv in Hq.
assert (Hc0 : (0 < IZR (Zpos mc) * bpow (-54))%R)
  by (apply Rmult_lt_0_compat; assumption).
assert (Hle : (IZR (Zpos mc) * bpow (-54) * (IZR (Zpos p) * bpow e)
               <= IZR (Zpos mc) * bpow (-54) * X)%R)
  by (apply Rmult_le_compat_l; lra).
apply (Rmult_le_compat_r (1 + bpow (-53))) in Hle; lra.
Qed.

(** ** Rounding a float to an integer *)

Lemma div_half_even_bound (m d : Z) :
0 ≤ m → 0 < d →
0 ≤ div_half_even m d ∧ 2 * div_half_even m d * d ≤ 2 * m + d.
Proof.
intros Hm Hd. unfold div_half_even.
pose proof (Z.div_mod m d ltac:(lia)) as Hdm.
pose proof (Z.mod_pos_bound m d Hd) as Hr.
pose proof (Z.div_pos m d Hm Hd) as Hq.
destruct (Z.compare_spec (2 * (m mod d)) d) as [Heq|Hlt|Hgt];
  [destruct (Z.even (m / d))| |]; split; nia.
Qed.

Lemma round_finite_bound (p : positive) (e : Z) :
∃ N : Z, round (S754_finite false p e) = Ok N ∧ 0 ≤ N ∧
  (IZR N <= IZR (Zpos p) * bpow e + / 2)%R.
Proof.
unfold round. simpl cond_Zopp. eexists. split; [reflexivity|].
destruct e as [|k|k].
- rewrite Z.pow_0_r, Z.mul_1_r. split; [lia|].
  change (bpow 0) with 1%R. lra.
- pose proof (Z.pow_pos_nonneg 2 (Zpos k)) as Hp. split; [nia|].
  rewrite mult_IZR, bpow_pow2 by lia. lra.
- pose proof (Z.pow_pos_nonneg 2 (Zpos k) ltac:(lia) ltac:(lia)) as Hp.
  destruct (div_half_even_bound (Zpos p) (2 ^ Zpos k) ltac:(lia) Hp) as [H0 Hb].
  split; [assumption|].
  apply IZR_le in Hb. rewrite plus_IZR, !mult_IZR, bpow_pow2 in Hb by lia.
  assert (Hinv : (bpow (Zneg k) * bpow (Zpos k) = 1)%R).
  { rewrite <- bpow_add. replace (Zneg k + Zpos k) with 0 by lia. reflexivity. }
  pose proof (bpow_pos (Zpos k)). pose proof (bpow_pos (Zneg k)).
  set (N := IZR (div_half_even (Zpos p) (2 ^ Zpos k))) in *.
  apply (Rmult_le_reg_r (bpow (Zpos k))); [assumption|].
  replace ((IZR (Zpos p) * bpow (Zneg k) + / 2) * bpow (Zpos k))%R
    with (IZR (Zpos p) * (bpow (Zneg k) * bpow (Zpos k)) + bpow (Zpos k) / 2)%R
    by field.
  rewrite Hinv. lra.
Qed.


(** ** [round(c * n)] for a literal [c] below one half *)

Lemma round_mul_int_bound (mc : positive) (n : Z) :
(IZR (Zpos mc) * bpow (-54) <= / 2)%R →
0 < n < 2 ^ 1024 - 2 ^ 970 →
∃ N : Z, round_mul_int (S754_finite false mc (-54)) n = Ok N ∧ 0 ≤ N ∧
  (IZR N <= IZR (Zpos mc) * bpow (-54)
              * (IZR n * (1 + bpow (-53)) + bpow (-1075)) * (1 + bpow (-53))
            + bpow (-1075) + / 2)%R.
Proof.
intros Hc Hn. unfold round_mul_int, mul_int.
pose proof unit_roundoff_small as Hu. pose proof underflow_unit_small as Heta.
assert (Hn1 : (1 <= IZR n)%R) by (apply IZR_le; lia).
assert (Hc0 : (0 < IZR (Zpos mc) * bpow (-54))%R).
{ apply Rmult_lt_0_compat; [apply IZR_lt; lia|apply bpow_pos]. }
set (c := (IZR (Zpos mc) * bpow (-54))%R) in *.
set (X := (IZR n * (1 + bpow (-53)) + bpow (-1075))%R).
assert (HX : (0 < X)%R) by (unfold X; nra).
assert (Hrhs : (0 <= c * X * (1 + bpow (-53)) + bpow (-1075) + / 2)%R).
{ assert (0 < c * X)%R by (apply Rmult_lt_0_compat; assumption). nra. }
destruct (of_int_bound n Hn) as (x & -> & [->|(p & e & -> & He & Hx)]).
- exists 0. split; [reflexivity|]. split; [lia|exact Hrhs].
- cbn [mbind result_bind]. fold X in Hx.
  assert (HXlt : (X < (bpow 1024 - bpow 970) * (1 + bpow (-53)) + bpow (-1075))%R).
  { unfold X. destruct Hn as [_ Hn]. apply threshold_IZR in Hn.
    apply Rplus_lt_compat_r, Rmult_lt_compat_r; lra. }
  destruct (mul_finite_bound mc p e X Hc He Hx HXlt)
    as [->|(q & e3 & -> & Hq)].
  + exists 0. split; [reflexivity|]. split; [lia|exact Hrhs].
  + destruct (round_finite_bound q e3) as (N & -> & HN0 & HN).
    exists N. split; [reflexivity|]. split; [assumption|]. fold c in Hq. lra.
Qed.

Lemma bpow_m54 : bpow (-54) = (/ 18014398509481984)%R.
Proof.
assert (H : (bpow (-54) * bpow 54 = 1)%R) by (rewrite <- bpow_add; reflexivity).
rewrite <- (bpow_pow2 54) in H by lia.
change (2 ^ 54) with 18014398509481984 in H.
apply Rmult_eq_reg_r with 18014398509481984%R; [|lra].
rewrite H. field.
Qed.

(** The two rounded shares never exceed the batch size. *)
Lemma shares_le (n : Z) :
0 ≤ n < 2 ^ 1024 - 2 ^ 970 →
∃ n_normal n_point : Z,
  round_mul_int lit_0_40 n = Ok n_normal ∧
  round_mul_int lit_0_35 n = Ok n_point ∧
  0 ≤ n_normal ∧ 0 ≤ n_point ∧ n_normal + n_point ≤ n.
Proof.
intros [Hn0 Hn]. destruct (Z.eq_dec n 0) as [->|Hne].
{ exists 0, 0. repeat split; reflexivity || lia. }
assert (Hn' : 0 < n < 2 ^ 1024 - 2 ^ 970) by lia.
assert (H40 : (IZR (Zpos 7205759403792794) * bpow (-54) <= / 2)%R)
  by (rewrite bpow_m54; lra).
assert (H35 : (IZR (Zpos 6305039478318694) * bpow (-54) <= / 2)%R)
  by (rewrite bpow_m54; lra).
destruct (round_mul_int_bound _ n H40 Hn') as (Na & Ha & Ha0 & Hab).
destruct (round_mul_int_bound _ n H35 Hn') as (Np & Hp & Hp0 & Hpb).
exists Na, Np. repeat split; try assumption.
assert (Hlt : Na + Np < n + 1); [|lia].
apply lt_IZR. rewrite !plus_IZR.
pose proof unit_roundoff_small as Hu. pose proof underflow_unit_small as Heta.
assert (Hn1 : (1 <= IZR n)%R) by (apply IZR_le; lia).
set (u := bpow (-53)) in *. set (eta := bpow (-1075)) in *.
set (Y := ((IZR n * (1 + u) + eta) * (1 + u))%R).
assert (HY : (Y <= (IZR n * (1025 / 1024) + / 1024) * (1025 / 1024))%R).
{ unfold Y. apply Rmult_le_compat; nra. }
rewrite bpow_m54 in Hab, Hpb.
rewrite Rmult_assoc in Hab, Hpb. fold Y in Hab, Hpb.
lra.
Qed.

End Float64Facts.

(** ** The signal generator *)

#[global] Arguments base_sine : simpl never.
#[global] Arguments sine_wave : simpl never.
#[global] Arguments np_linspace : simpl never.
#[global] Arguments np_arange : simpl never.

Section SimulatorFacts.
Context `{RS : RandomSource}.

Lemma random_normal_array_length (loc scale : R) (size : nat) (g : rng) :
  length (random_normal_array loc scale size g).1 = size.
Proof.
  revert g. induction size as [|size IH]; intros g; simpl; [reflexivity|].
  destruct (random_normal loc scale g) as [x g1].
  specialize (IH g1). destruct (random_normal_array loc scale size g1) as [xs g2].
  simpl in *. congruence.
Qed.

Lemma base_sine_length : length base_sine = 50%nat.
Proof. unfold base_sine, np_arange. rewrite !length_map, length_seq. reflexivity. Qed.

Lemma sine_wave_length (amp : R) : length (sine_wave amp) = 50%nat.
Proof. unfold sine_wave. rewrite length_map. apply base_sine_length. Qed.

Lemma sine_wave_le_1 (j : nat) (x : R) :
  sine_wave NOMINAL_VOLTAGE !! j = Some x → (x <= 1)%R.
Proof.
  unfold sine_wave, base_sine. rewrite !list_lookup_fmap.
  destruct (np_arange SAMPLES_PER_READING !! j) as [k|]; simpl; [|discriminate].
  intros [= <-]. unfold NOMINAL_VOLTAGE.
  match goal with |- (_ * sin ?a <= 1)%R => pose proof (SIN_bound a) end. lra.
Qed.

Lemma generate_normal_signal_spec (g : rng) :
  let r := (generate_normal_signal g).1 in
  voltage r = sine_wave NOMINAL_VOLTAGE ∧ length (frequency r) = 50%nat ∧
  anomaly_type r = "none" ∧ severity r = "none".
Proof.
  unfold generate_normal_signal.
  pose proof (random_normal_array_length 0 0.01 SAMPLES_PER_READING g) as Hlen.
  destruct (random_normal_array 0 0.01 SAMPLES_PER_READING g) as [noise g1].
  simpl in *. rewrite length_map. auto.
Qed.

Lemma generate_trend_anomaly_spec (g : rng) :
  let r := (generate_trend_anomaly g).1 in
  length (voltage r) = 50%nat ∧ length (frequency r) = 50%nat ∧
  anomaly_type r = "trend" ∧ severity r = "medium".
Proof.
  unfold generate_trend_anomaly.
  pose proof (random_normal_array_length 0 0.01 SAMPLES_PER_READING g) as Hlen.
  destruct (random_normal_array 0 0.01 SAMPLES_PER_READING g) as [noise g1].
  cbn [fst voltage frequency anomaly_type severity].
  rewrite length_map, length_zip_with, base_sine_length.
  unfold np_linspace. rewrite length_map, length_seq. auto.
Qed.

Lemma generate_point_anomaly_spec (g : rng) :
  ∃ (spike_value : R) (spike_index : nat),
    let r := (generate_point_anomaly g).1 in
    anomaly_type r = "point" ∧
    (1.3 <= spike_value <= 1.5)%R ∧
    (spike_index < 50)%nat ∧
    voltage r = <[spike_index := spike_value]> (sine_wave NOMINAL_VOLTAGE) ∧
    length (frequency r) = 50%nat ∧
    severity r = (if decide (spike_value > 1.4)%R then "high" else "medium").
Proof.
  unfold generate_point_anomaly.
  pose proof (random_normal_array_length 0 0.01 SAMPLES_PER_READING g) as Hlen.
  destruct (random_normal_array 0 0.01 SAMPLES_PER_READING g) as [noise g1].
  pose proof (random_uniform_range 1.3 1.5 g1 ltac:(lra)) as Hu.
  destruct (random_uniform 1.3 1.5 g1) as [spike_value g2].
  pose proof (random_randint_range 0 (Z.of_nat SAMPLES_PER_READING) g2
                ltac:(unfold SAMPLES_PER_READING; lia)) as Hi.
  destruct (random_randint 0 (Z.of_nat SAMPLES_PER_READING) g2)
    as [spike_index g3].
  simpl in *. exists spike_value, (Z.to_nat spike_index).
  rewrite length_map. unfold SAMPLES_PER_READING in Hi.
  repeat split; try tauto; try lia.
Qed.


Lemma append_loop_spec (gen : rng → reading * rng) (P : reading → Prop)
    (k : nat) :
  (∀ g, P (gen g).1) →
  ∀ readings g, ∃ new,
    (append_loop gen k readings g).1 = readings ++ new ∧
    length new = k ∧ Forall P new.
Proof.
  intros Hgen. induction k as [|k IH]; intros readings g; simpl.
  - exists []. rewrite app_nil_r. auto.
  - specialize (Hgen g). destruct (gen g) as [r g1].
    destruct (IH (readings ++ [r]) g1) as (new & Heq & Hlen & Hall).
    exists (r :: new). rewrite Heq, <- app_assoc. simpl.
    split; [reflexivity|]. split; [congruence|]. constructor; assumption.
Qed.

Lemma count_type_app (t : string) (l1 l2 : list reading) :
  count_type t (l1 ++ l2) = (count_type t l1 + count_type t l2)%nat.
Proof. unfold count_type. rewrite filter_app, length_app. reflexivity. Qed.

Lemma count_type_same (t : string) (l : list reading) :
  Forall (λ r, anomaly_type r = t) l → count_type t l = length l.
Proof.
  unfold count_type. induction 1 as [|r l Hr _ IH]; [reflexivity|].
  rewrite filter_cons_True by assumption. simpl. congruence.
Qed.

Lemma count_type_other (t t' : string) (l : list reading) :
  t ≠ t' → Forall (λ r, anomaly_type r = t') l → count_type t l = 0%nat.
Proof.
  intros Hne. unfold count_type. induction 1 as [|r l Hr _ IH]; [reflexivity|].
  rewrite filter_cons_False by congruence. assumption.
Qed.

Lemma count_type_perm (t : string) (l1 l2 : list reading) :
  l1 ≡ₚ l2 → count_type t l1 = count_type t l2.
Proof. intros Hp. unfold count_type. rewrite Hp. reflexivity. Qed.

(** The list that [generate_batch] hands to the shuffle, once the two
    rounded shares are known. *)
Lemma generate_batch_shape (n n_normal n_point : Z) (g : rng) :
  Float64.round_mul_int Float64.lit_0_40 n = Ok n_normal →
  Float64.round_mul_int Float64.lit_0_35 n = Ok n_point →
  ∃ (l1 l2 l3 : list reading) (g3 : rng),
    generate_batch n g = Ok (random_shuffle (l1 ++ l2 ++ l3) g3) ∧
    length l1 = Z.to_nat n_normal ∧
    length l2 = Z.to_nat n_point ∧
    length l3 = Z.to_nat (n - n_normal - n_point) ∧
    Forall (λ r, anomaly_type r = "none" ∧ has_fixed_length r) l1 ∧
    Forall (λ r, anomaly_type r = "point" ∧ has_fixed_length r) l2 ∧
    Forall (λ r, anomaly_type r = "trend" ∧ has_fixed_length r) l3.
Proof.
  intros Ha Hp.
  unfold generate_batch. rewrite Ha, Hp. cbn [mbind result_bind].
  destruct (append_loop_spec generate_normal_signal
              (λ r, anomaly_type r = "none" ∧ has_fixed_length r)
              (range_len n_normal)) with (readings := @nil reading) (g := g)
    as (l1 & H1 & Hl1 & HP1).
  { intros g0. destruct (generate_normal_signal_spec g0) as (Hv & Hf & Ht & _).
    split; [assumption|]. split; [|assumption].
    rewrite Hv. apply sine_wave_length. }
  destruct (append_loop generate_normal_signal (range_len n_normal) [] g)
    as [r1 g1]. simpl in H1. subst r1.
  destruct (append_loop_spec generate_point_anomaly
              (λ r, anomaly_type r = "point" ∧ has_fixed_length r)
              (range_len n_point)) with (readings := l1) (g := g1)
    as (l2 & H2 & Hl2 & HP2).
  { intros g0.
    destruct (generate_point_anomaly_spec g0)
      as (sv & si & Ht & _ & _ & Hv & Hf & _).
    split; [assumption|]. split; [|assumption].
    rewrite Hv, length_insert. apply sine_wave_length. }
  destruct (append_loop generate_point_anomaly (range_len n_point) l1 g1)
    as [r2 g2]. simpl in H2. subst r2.
  destruct (append_loop_spec generate_trend_anomaly
              (λ r, anomaly_type r = "trend" ∧ has_fixed_length r)
              (range_len (n - n_normal - n_point)))
    with (readings := l1 ++ l2) (g := g2) as (l3 & H3 & Hl3 & HP3).
  { intros g0. destruct (generate_trend_anomaly_spec g0) as (Hv & Hf & Ht & _).
    split; [assumption|]. split; assumption. }
  destruct (append_loop generate_trend_anomaly
              (range_len (n - n_normal - n_point)) (l1 ++ l2) g2) as [r3 g3].
  simpl in H3. subst r3.
  exists l1, l2, l3, g3. rewrite <- app_assoc.
  unfold range_len in *. repeat split; assumption.
Qed.

Lemma Forall_fst {A} (P Q : A → Prop) (l : list A) :
  Forall (λ x, P x ∧ Q x) l → Forall P l.
Proof. intros H. eapply Forall_impl; [exact H|]. simpl. tauto. Qed.

Lemma Forall_snd {A} (P Q : A → Prop) (l : list A) :
  Forall (λ x, P x ∧ Q x) l → Forall Q l.
Proof. intros H. eapply Forall_impl; [exact H|]. simpl. tauto. Qed.

(** C1 (amended): for every batch size [n] with [0 <= n < 2^1024 - 2^970],
    the integers that Python converts to a float, [generate_batch n]
    returns exactly [n] readings: [round(0.40 * n)] of type "none",
    [round(0.35 * n)] of type "point" and the remaining
    [n - round(0.40 * n) - round(0.35 * n)], never negative, of type
    "trend"; the three counts sum to [n]. *)
Theorem generate_batch_split (n : Z) (g : rng) :
  (0 ≤ n < 2 ^ 1024 - 2 ^ 970)%Z →
  ∃ (n_normal n_point : Z) (readings : list reading) (g' : rng),
    Float64.round_mul_int Float64.lit_0_40 n = Ok n_normal ∧
    Float64.round_mul_int Float64.lit_0_35 n = Ok n_point ∧
    generate_batch n g = Ok (readings, g') ∧
    Z.of_nat (length readings) = n ∧
    Z.of_nat (count_type "none" readings) = n_normal ∧
    Z.of_nat (count_type "point" readings) = n_point ∧
    Z.of_nat (count_type "trend" readings) = (n - n_normal - n_point)%Z ∧
    (0 ≤ n - n_normal - n_point)%Z ∧
    (count_type "none" readings + count_type "point" readings
     + count_type "trend" readings = length readings)%nat.
Proof.
  intros Hn.
  destruct (Float64Facts.shares_le n Hn)
    as (n_normal & n_point & Ha & Hp & Ha0 & Hp0 & Hsum).
  destruct (generate_batch_shape n n_normal n_point g Ha Hp)
    as (l1 & l2 & l3 & g3 & Hb & Hl1 & Hl2 & Hl3 & H1 & H2 & H3).
  pose proof (random_shuffle_perm (l1 ++ l2 ++ l3) g3) as Hperm.
  destruct (random_shuffle (l1 ++ l2 ++ l3) g3) as [readings g'].
  simpl in Hperm.
  apply Forall_fst in H1, H2, H3.
  assert (Hnone : count_type "none" readings = length l1).
  { rewrite (count_type_perm _ _ _ Hperm), !count_type_app.
    rewrite (count_type_same _ _ H1).
    rewrite (count_type_other "none" "point" l2), (count_type_other "none" "trend" l3)
      by (assumption || discriminate). lia. }
  assert (Hpoint : count_type "point" readings = length l2).
  { rewrite (count_type_perm _ _ _ Hperm), !count_type_app.
    rewrite (count_type_same _ _ H2).
    rewrite (count_type_other "point" "none" l1), (count_type_other "point" "trend" l3)
      by (assumption || discriminate). lia. }
  assert (Htrend : count_type "trend" readings = length l3).
  { rewrite (count_type_perm _ _ _ Hperm), !count_type_app.
    rewrite (count_type_same _ _ H3).
    rewrite (count_type_other "trend" "none" l1), (count_type_other "trend" "point" l2)
      by (assumption || discriminate). lia. }
  assert (Hlen : length readings = (length l1 + length l2 + length l3)%nat).
  { rewrite (Permutation_length Hperm), !length_app. lia. }
  exists n_normal, n_point, readings, g'.
  rewrite Hnone, Hpoint, Htrend, Hlen, Hl1, Hl2, Hl3.
  repeat split; try assumption; lia.
Qed.

(** C4: a reading of [generate_point_anomaly] has type "point"; one sample
    index holds a spike drawn from [1.3, 1.5], every other sample is the
    sample of the plain sine wave, and the spike differs from the sample it
    replaces; the severity is "high" exactly when the spike exceeds 1.4 and
    "medium" otherwise. *)
Theorem point_anomaly_spike (g : rng) :
  ∃ (spike_value : R) (spike_index : nat),
    let r := (generate_point_anomaly g).1 in
    anomaly_type r = "point" ∧
    (1.3 <= spike_value <= 1.5)%R ∧
    (spike_index < 50)%nat ∧
    voltage r !! spike_index = Some spike_value ∧
    (∀ j, j ≠ spike_index →
          voltage r !! j = sine_wave NOMINAL_VOLTAGE !! j) ∧
    sine_wave NOMINAL_VOLTAGE !! spike_index ≠ Some spike_value ∧
    (severity r = "high" ↔ (spike_value > 1.4)%R) ∧
    (severity r = "medium" ↔ (spike_value <= 1.4)%R).
Proof.
  destruct (generate_point_anomaly_spec g)
    as (sv & si & Ht & Hrange & Hidx & Hv & _ & Hsev).
  exists sv, si. cbv zeta in *. rewrite Hv, Hsev.
  split; [assumption|]. split; [assumption|]. split; [assumption|].
  split; [|split; [|split; [|split]]].
  - apply list_lookup_insert_eq. rewrite sine_wave_length. assumption.
  - intros j Hj. apply list_lookup_insert_ne. congruence.
  - intros Hsame. apply sine_wave_le_1 in Hsame. lra.
  - destruct (decide (sv > 1.4)%R); split; intros; (done || lra).
  - destruct (decide (sv > 1.4)%R); split; intros; (done || lra).
Qed.

(** C5: every reading of the three generators, and every reading of a
    batch returned by [generate_batch], has 50 voltage samples and 50
    frequency samples. *)
Theorem readings_have_50_samples (n : Z) (g : rng)
    (readings : list reading) (g' : rng) :
  generate_batch n g = Ok (readings, g') →
  has_fixed_length (generate_normal_signal g).1 ∧
  has_fixed_length (generate_point_anomaly g).1 ∧
  has_fixed_length (generate_trend_anomaly g).1 ∧
  Forall has_fixed_length readings.
Proof.
  intros Hbatch. split; [|split; [|split]].
  - destruct (generate_normal_signal_spec g) as (Hv & Hf & _).
    split; [rewrite Hv; apply sine_wave_length|assumption].
  - destruct (generate_point_anomaly_spec g) as (sv & si & _ & _ & _ & Hv & Hf & _).
    split; [|assumption]. rewrite Hv, length_insert. apply sine_wave_length.
  - destruct (generate_trend_anomaly_spec g) as (Hv & Hf & _). split; assumption.
  - destruct (Float64.round_mul_int Float64.lit_0_40 n) as [n_normal|e] eqn:Ha;
      [|unfold generate_batch in Hbatch; rewrite Ha in Hbatch; discriminate].
    destruct (Float64.round_mul_int Float64.lit_0_35 n) as [n_point|e] eqn:Hp;
      [|unfold generate_batch in Hbatch; rewrite Ha, Hp in Hbatch; discriminate].
    destruct (generate_batch_shape n n_normal n_point g Ha Hp)
      as (l1 & l2 & l3 & g3 & Hb & _ & _ & _ & H1 & H2 & H3).
    rewrite Hb in Hbatch. injection Hbatch as Hshuf.
    pose proof (random_shuffle_perm (l1 ++ l2 ++ l3) g3) as Hperm.
    rewrite Hshuf in Hperm. simpl in Hperm. rewrite Hperm.
    apply Forall_snd in H1, H2, H3. rewrite !Forall_app. auto.
Qed.

End SimulatorFacts.

(** *** The generator at concrete random sources *)

Lemma generate_batch_split_witness :
  ∃ (n_normal n_point : Z) (readings : list reading) (g' : unit),
    Float64.round_mul_int Float64.lit_0_40 10 = Ok n_normal ∧
    Float64.round_mul_int Float64.lit_0_35 10 = Ok n_point ∧
    generate_batch (RS := constant_source) 10 tt = Ok (readings, g') ∧
    Z.of_nat (length readings) = 10%Z ∧
    Z.of_nat (count_type "none" readings) = n_normal ∧
    Z.of_nat (count_type "point" readings) = n_point ∧
    Z.of_nat (count_type "trend" readings) = (10 - n_normal - n_point)%Z ∧
    (0 ≤ 10 - n_normal - n_point)%Z ∧
    (count_type "none" readings + count_type "point" readings
     + count_type "trend" readings = length readings)%nat.
Proof.
  apply (generate_batch_split (RS := constant_source) 10 tt).
  split; [lia|reflexivity].
Defined.

(** C1 as stated fails at [n = 2^1024 - 2^970]: the integer does not
    convert to a float, [0.40 * n] raises [OverflowError] and no batch is
    returned. *)
Lemma generate_batch_overflow :
  (0 ≤ 2 ^ 1024 - 2 ^ 970)%Z ∧
  generate_batch (RS := constant_source) (2 ^ 1024 - 2 ^ 970) tt
    = Raise OverflowError.
Proof. split; [vm_compute; discriminate|vm_compute; reflexivity]. Qed.

(** The largest batch size that converts is one below the threshold. *)
Example of_int_below_threshold :
  Float64.of_int (2 ^ 1024 - 2 ^ 970 - 1)
    = Ok (S754_finite false 9007199254740991 971).
Proof. vm_compute. reflexivity. Qed.

(** The shares of small batches, and a batch size at which the float product
    [0.35 * 90 = 31.499999999999996] rounds down where 31.5 would round to 32. *)
Example shares_small :
  map (λ n, (Float64.round_mul_int Float64.lit_0_40 n,
             Float64.round_mul_int Float64.lit_0_35 n)) [0; 1; 2; 3; 10; 90]%Z
  = [(Ok 0, Ok 0); (Ok 0, Ok 0); (Ok 1, Ok 1); (Ok 1, Ok 1); (Ok 4, Ok 4);
     (Ok 36, Ok 31)]%Z.
Proof. vm_compute. reflexivity. Qed.

Lemma point_anomaly_spike_witness :
  ∃ (spike_value : R) (spike_index : nat),
    let r := (generate_point_anomaly (RS := high_source) tt).1 in
    anomaly_type r = "point" ∧
    (1.3 <= spike_value <= 1.5)%R ∧
    (spike_index < 50)%nat ∧
    voltage r !! spike_index = Some spike_value ∧
    (∀ j, j ≠ spike_index →
          voltage r !! j = sine_wave NOMINAL_VOLTAGE !! j) ∧
    sine_wave NOMINAL_VOLTAGE !! spike_index ≠ Some spike_value ∧
    (severity r = "high" ↔ (spike_value > 1.4)%R) ∧
    (severity r = "medium" ↔ (spike_value <= 1.4)%R).
Proof. exact (point_anomaly_spike (RS := high_source) tt). Defined.

Lemma readings_have_50_samples_witness :
  ∃ (readings : list reading) (g' : unit),
    generate_batch (RS := constant_source) 4 tt = Ok (readings, g') ∧
    has_fixed_length (generate_normal_signal (RS := constant_source) tt).1 ∧
    has_fixed_length (generate_point_anomaly (RS := constant_source) tt).1 ∧
    has_fixed_length (generate_trend_anomaly (RS := constant_source) tt).1 ∧
    Forall has_fixed_length readings.
Proof.
  eexists _, _. split; [reflexivity|].
  apply (readings_have_50_samples (RS := constant_source) 4 tt _ tt).
  reflexivity.
Defined.

(** ** Rounding of reals *)

Lemma Int_part_bounds (x : R) : (IZR (Int_part x) <= x < IZR (Int_part x) + 1)%R.
Proof. destruct (base_Int_part x). lra. Qed.

Lemma round_half_even_cases (x : R) :
  round_half_even x = Int_part x ∧ (x - IZR (Int_part x) <= 1 / 2)%R ∨
  round_half_even x = (Int_part x + 1)%Z ∧ (x - IZR (Int_part x) >= 1 / 2)%R.
Proof.
  unfold round_half_even.
  destruct (decide (x - IZR (Int_part x) < 1 / 2)%R); [left; split; [done|lra]|].
  destruct (decide (x - IZR (Int_part x) > 1 / 2)%R); [right; split; [done|lra]|].
  destruct (Z.even (Int_part x)); [left|right]; split; (done || lra).
Qed.

Lemma round_half_even_error (x : R) :
  (- (1 / 2) <= IZR (round_half_even x) - x <= 1 / 2)%R.
Proof.
  pose proof (Int_part_bounds x).
  destruct (round_half_even_cases x) as [[-> ?]|[-> ?]];
    rewrite ?plus_IZR; lra.
Qed.

Lemma round_half_even_nonneg (x : R) : (0 <= x)%R → (0 ≤ round_half_even x)%Z.
Proof.
  intros Hx. pose proof (Int_part_bounds x) as [_ Hub].
  assert (Hf : (0 ≤ Int_part x)%Z).
  { assert (-1 < Int_part x)%Z; [|lia]. apply lt_IZR. lra. }
  destruct (round_half_even_cases x) as [[-> _]|[-> _]]; lia.
Qed.

Lemma round_half_even_near (x : R) (z : Z) :
  (IZR z - 1 / 2 < x < IZR z + 1 / 2)%R → round_half_even x = z.
Proof.
  intros [Hlo Hhi]. pose proof (Int_part_bounds x) as [Hf1 Hf2].
  assert (Hle : (Int_part x < z + 1)%Z) by (apply lt_IZR; rewrite plus_IZR; lra).
  assert (Hge : (z < Int_part x + 2)%Z) by (apply lt_IZR; rewrite plus_IZR; lra).
  destruct (Z.eq_dec (Int_part x) z) as [Heq|Hne].
  - destruct (round_half_even_cases x) as [[-> _]|[_ Hc]]; [assumption|].
    rewrite Heq in Hc. lra.
  - assert (Heq : Int_part x = (z - 1)%Z) by lia.
    destruct (round_half_even_cases x) as [[_ Hc]|[-> _]]; [|lia].
    rewrite Heq, minus_IZR in Hc. lra.
Qed.

Lemma round_half_even_IZR (z : Z) : round_half_even (IZR z) = z.
Proof. apply round_half_even_near. lra. Qed.

Lemma pow_10_4 : (10 ^ 4 = 10000)%R.
Proof. simpl. lra. Qed.

Lemma py_round_4 (x : R) : py_round x 4 = (IZR (round_half_even (x * 10000)) / 10000)%R.
Proof. unfold py_round. rewrite pow_10_4. reflexivity. Qed.

Lemma py_round_four_decimals (x : R) : four_decimals (py_round x 4).
Proof. exists (round_half_even (x * 10000)). apply py_round_4. Qed.

Lemma py_round_nonneg (x : R) : (0 <= x)%R → (0 <= py_round x 4)%R.
Proof.
  intros Hx. rewrite py_round_4.
  assert (0 ≤ round_half_even (x * 10000))%Z by (apply round_half_even_nonneg; lra).
  apply IZR_le in H. lra.
Qed.


Lemma py_round_0 : py_round 0 4 = 0%R.
Proof.
  rewrite py_round_4, Rmult_0_l, (round_half_even_IZR 0). lra.
Qed.

Lemma py_round_near (x : R) (k : Z) :
  (IZR k - 1 / 2 < x * 10000 < IZR k + 1 / 2)%R →
  py_round x 4 = (IZR k / 10000)%R.
Proof. intros H. rewrite py_round_4, (round_half_even_near _ k H). reflexivity. Qed.

Lemma four_decimals_0 : four_decimals 0.
Proof. exists 0%Z. lra. Qed.

(** ** Sums, means and maxima *)

Lemma py_div_ok (a b : R) : b ≠ 0%R → py_div a b = Ok (a / b)%R.
Proof. intros Hb. unfold py_div. destruct (decide (b = 0%R)); done. Qed.

Lemma sum_R_nonneg (l : list R) : Forall (λ x, 0 <= x)%R l → (0 <= sum_R l)%R.
Proof. induction 1; simpl; lra. Qed.

Lemma sum_R_const (c : R) (l : list R) :
  Forall (λ x, x = c) l → sum_R l = (INR (length l) * c)%R.
Proof.
  induction 1 as [|x l -> _ IH]; [simpl; lra|].
  cbn [sum_R foldr length]. fold (sum_R l). rewrite IH, S_INR. lra.
Qed.

Lemma np_mean_nonneg (l : list R) : Forall (λ x, 0 <= x)%R l → (0 <= np_mean l)%R.
Proof.
  intros Hl. unfold np_mean. apply sum_R_nonneg in Hl.
  destruct l as [|x l]; [simpl; lra|].
  apply Rmult_le_pos; [assumption|].
  apply Rlt_le, Rinv_0_lt_compat, lt_0_INR. simpl. lia.
Qed.

Lemma np_mean_const (c : R) (l : list R) :
  l ≠ [] → Forall (λ x, x = c) l → np_mean l = c.
Proof.
  intros Hne Hl. unfold np_mean. rewrite (sum_R_const c l Hl).
  assert (0 < INR (length l))%R.
  { apply lt_0_INR. destruct l; [done|simpl; lia]. }
  field. lra.
Qed.

Lemma foldl_Rmax_spec (l : list R) : ∀ x : R,
  (x <= foldl Rmax x l)%R ∧
  Forall (λ y, y <= foldl Rmax x l)%R l ∧
  (foldl Rmax x l = x ∨ foldl Rmax x l ∈ l).
Proof.
  induction l as [|y l IH]; intros x; simpl.
  - split; [lra|]. split; [constructor|]. left. reflexivity.
  - destruct (IH (Rmax x y)) as (H1 & H2 & H3).
    pose proof (Rmax_l x y). pose proof (Rmax_r x y).
    split; [lra|]. split; [constructor; [lra|assumption]|].
    destruct H3 as [H3|H3]; [|right; right; assumption].
    rewrite H3. unfold Rmax. destruct (Rle_dec x y); [right; left|left]; reflexivity.
Qed.

(** [np_max] returns an element of the array that bounds all the others. *)
Lemma np_max_spec (l : list R) (m : R) :
  np_max l = Ok m → m ∈ l ∧ Forall (λ y, y <= m)%R l.
Proof.
  destruct l as [|x l]; [discriminate|]. simpl. intros [= <-].
  destruct (foldl_Rmax_spec l x) as (H1 & H2 & H3). split.
  - destruct H3 as [->|H3]; [left|right; assumption].
  - constructor; assumption.
Qed.

Lemma np_max_nonempty (l : list R) : l ≠ [] → ∃ m, np_max l = Ok m.
Proof. destruct l; [done|]. intros _. eexists. reflexivity. Qed.

(** ** The spectrum *)

Lemma sum_R_imap_zero (f : nat → R → R) (l : list R) :
  (∀ j x, x = 0%R → f j x = 0%R) →
  Forall (λ x, x = 0%R) l → sum_R (imap f l) = 0%R.
Proof.
  intros Hf Hl. revert f Hf. induction Hl as [|x l Hx _ IH]; intros f Hf.
  - reflexivity.
  - rewrite imap_cons. cbn [sum_R foldr]. fold (sum_R (imap (f ∘ S) l)).
    rewrite (Hf 0%nat x Hx), IH; [lra|]. intros j y Hy. apply Hf, Hy.
Qed.

Lemma fft_pad_zero (x : list R) (n : nat) :
  Forall (λ y, y = 0%R) x → Forall (λ y, y = 0%R) (fft_pad x n).
Proof.
  intros Hx. unfold fft_pad. apply Forall_app. split.
  - apply Forall_take, Hx.
  - apply Forall_replicate. reflexivity.
Qed.

(** Every bin of the spectrum of an all-zero signal has magnitude zero. *)
Lemma magnitude_zero (x : list R) (n_fft k : Z) :
  Forall (λ y, y = 0%R) x → magnitude x n_fft k = 0%R.
Proof.
  intros Hx. unfold magnitude, fft_bin, np_abs_c. cbn [fst snd].
  pose proof (fft_pad_zero x (Z.to_nat n_fft) Hx) as Hp.
  rewrite !sum_R_imap_zero; try assumption; try (intros j y ->; lra).
  replace (0 ^ 2 + (- 0) ^ 2)%R with 0%R by lra. apply sqrt_0.
Qed.

Lemma magnitude_nonneg (x : list R) (n_fft k : Z) : (0 <= magnitude x n_fft k)%R.
Proof. apply sqrt_pos. Qed.

Lemma length_fft (x : list R) (n : nat) : length (fft x n) = n.
Proof. unfold fft. rewrite length_map, length_seq. reflexivity. Qed.

(** Reading bin [i] of the half spectrum kept by [compute_thd]. *)
Lemma np_index_spectrum (x : list R) (n_fft half i : Z) :
  (0 ≤ i ≤ half)%Z → (half + 1 ≤ n_fft)%Z →
  np_index (take (Z.to_nat (half + 1))
              (map np_abs_c (fft x (Z.to_nat n_fft)))) i
  = Ok (magnitude x n_fft i).
Proof.
  intros Hi Hhalf. unfold np_index.
  rewrite length_take, length_map, length_fft.
  destruct (decide (i < 0)%Z); [lia|].
  destruct (decide (0 ≤ i < Z.of_nat (Z.to_nat (half + 1) `min` Z.to_nat n_fft))%Z);
    [|lia].
  rewrite lookup_take. destruct (decide (Z.to_nat i < Z.to_nat (half + 1))%nat); [|lia].
  rewrite list_lookup_fmap. unfold fft. rewrite list_lookup_fmap.
  rewrite lookup_seq_lt by lia. reflexivity.
Qed.

Lemma np_index_out_of_range (a : list R) (i : Z) :
  (Z.of_nat (length a) ≤ i)%Z → np_index a i = Raise IndexError.
Proof.
  intros Hi. unfold np_index. destruct (decide (i < 0)%Z); [lia|].
  destruct (decide (0 ≤ i < Z.of_nat (length a))%Z); [lia|reflexivity].
Qed.

(** ** The next power of two *)

Lemma next_pow2_spec (n : Z) :
  (2 ≤ n)%Z →
  (n ≤ next_pow2 n < 2 * n)%Z ∧ (2 ≤ next_pow2 n)%Z ∧
  next_pow2 n = (2 * (next_pow2 n `div` 2))%Z ∧
  (1 ≤ next_pow2 n `div` 2)%Z.
Proof.
  intros Hn. unfold next_pow2.
  pose proof (Z.log2_up_spec n ltac:(lia)) as [Hlo Hhi].
  assert (HL : (0 < Z.log2_up n)%Z) by (apply Z.log2_up_pos; lia).
  assert (Hpow : (2 ^ Z.log2_up n = 2 * 2 ^ Z.pred (Z.log2_up n))%Z).
  { rewrite <- Z.pow_succ_r by lia. f_equal. lia. }
  assert (Hp : (0 < 2 ^ Z.pred (Z.log2_up n))%Z) by (apply Z.pow_pos_nonneg; lia).
  assert (Hdiv : (2 ^ Z.log2_up n `div` 2 = 2 ^ Z.pred (Z.log2_up n))%Z).
  { rewrite Hpow. rewrite Z.mul_comm, Z.div_mul by lia. reflexivity. }
  rewrite Hdiv. lia.
Qed.

Lemma max_next_pow2 (n : Z) : (1 ≤ n)%Z → Z.max n (2 ^ Z.log2_up n) = next_pow2 n.
Proof.
  intros Hn. unfold next_pow2.
  destruct (Z.eq_dec n 1%Z) as [->|Hne]; [reflexivity|].
  pose proof (Z.log2_up_spec n ltac:(lia)). lia.
Qed.

Lemma sum_R_filter (f : Z → R) (P : Z → Prop) `{∀ b, Decision (P b)} (l : list Z) :
  sum_R (map f (filter P l))
  = sum_R (map (λ b, if decide (P b) then f b else 0%R) l).
Proof.
  induction l as [|b l IH]; [reflexivity|].
  rewrite filter_cons. cbn [map sum_R foldr].
  destruct (decide (P b)); cbn [map sum_R foldr];
    fold (sum_R (map f (filter P l)));
    fold (sum_R (map (λ b, if decide (P b) then f b else 0%R) l));
    rewrite IH; lra.
Qed.

(** *** compute_thd *)

Lemma thd_step_spec (x : list R) (n_fft half fund_bin h : Z) (acc : R) :
  (0 ≤ h * fund_bin)%Z → (half + 1 ≤ n_fft)%Z →
  thd_step
    (take (Z.to_nat (half + 1)) (map np_abs_c (fft x (Z.to_nat n_fft))))
    fund_bin half acc h
  = Ok (acc + (if decide (h * fund_bin ≤ half)%Z
               then magnitude x n_fft (h * fund_bin) ^ 2 else 0))%R.
Proof.
  intros Hh Hhalf. unfold thd_step.
  destruct (decide (h * fund_bin ≤ half)%Z).
  - rewrite np_index_spectrum by lia. cbn [mbind result_bind]. reflexivity.
  - rewrite Rplus_0_r. reflexivity.
Qed.

(** [compute_thd] on a signal of at least two samples computes the measure
    of the specification, rounded to four decimals. *)
Lemma compute_thd_by_words (signal : list R) (fs fundamental : R) :
  (2 ≤ length signal)%nat → fs ≠ 0%R →
  compute_thd signal fs fundamental = Ok (thd_by_words signal fs fundamental).
Proof.
  intros Hlen Hfs. unfold compute_thd, thd_by_words.
  destruct (decide (length signal = 0%nat)); [lia|].
  rewrite max_next_pow2 by lia.
  destruct (next_pow2_spec (Z.of_nat (length signal)) ltac:(lia))
    as (Hn & Hn2 & Heven & Hhalf).
  set (n_fft := next_pow2 (Z.of_nat (length signal))) in *.
  rewrite !py_div_ok by assumption. cbn [mbind result_bind].
  fold (fundamental_bin n_fft fs fundamental).
  set (half := (n_fft `div` 2)%Z) in *.
  assert (Hb : (1 ≤ fundamental_bin n_fft fs fundamental ≤ half)%Z).
  { unfold fundamental_bin. fold half. lia. }
  set (fund_bin := fundamental_bin n_fft fs fundamental) in *.
  rewrite np_index_spectrum by lia. cbn [mbind result_bind].
  destruct (decide (magnitude signal n_fft fund_bin <= 0)%R); [reflexivity|].
  cbn [foldl]. cbn [mbind result_bind].
  rewrite thd_step_spec by lia. cbn [mbind result_bind].
  rewrite thd_step_spec by lia. cbn [mbind result_bind].
  rewrite thd_step_spec by lia. cbn [mbind result_bind].
  rewrite thd_step_spec by lia. cbn [mbind result_bind].
  rewrite sum_R_filter. cbn [map sum_R foldr].
  do 2 f_equal. replace 100.0%R with 100%R by lra. do 3 f_equal. lra.
Qed.


(** *** compute_thd at the parameters of the pipeline *)

Lemma fundamental_bin_range (n_fft : Z) (fs fundamental : R) :
  (1 ≤ n_fft `div` 2)%Z →
  (1 ≤ fundamental_bin n_fft fs fundamental ≤ n_fft `div` 2)%Z.
Proof. unfold fundamental_bin. lia. Qed.

Lemma thd_by_words_rounds (signal : list R) (fs fundamental : R) :
  thd_by_words signal fs fundamental
  = py_round (thd_unrounded signal fs fundamental) 4.
Proof.
  unfold thd_by_words, thd_unrounded.
  destruct (decide _); [symmetry; apply py_round_0|reflexivity].
Qed.

Lemma thd_unrounded_nonneg (signal : list R) (fs fundamental : R) :
  (0 <= thd_unrounded signal fs fundamental)%R.
Proof.
  unfold thd_unrounded. destruct (decide _) as [|Hpos]; [lra|].
  apply Rnot_le_lt in Hpos.
  apply Rmult_le_pos; [|apply Rlt_le, Rinv_0_lt_compat, Hpos].
  apply Rmult_le_pos; [lra|apply sqrt_pos].
Qed.

(** With [fs = 50] and [fundamental = 50.0] the fundamental bin is the last
    bin of the half spectrum, no harmonic bin lies within it, and the
    distortion is zero. *)
Lemma thd_by_words_default (signal : list R) :
  (2 ≤ length signal)%nat → thd_by_words signal 50 50.0 = 0%R.
Proof.
  intros Hlen. unfold thd_by_words.
  destruct (next_pow2_spec (Z.of_nat (length signal)) ltac:(lia))
    as (Hn & Hn2 & Heven & Hhalf).
  set (n_fft := next_pow2 (Z.of_nat (length signal))) in *.
  assert (Hb : fundamental_bin n_fft 50 50.0 = (n_fft `div` 2)%Z).
  { unfold fundamental_bin.
    replace (50.0 * IZR n_fft / 50)%R with (IZR n_fft) by lra.
    rewrite round_half_even_IZR. lia. }
  rewrite Hb. set (half := (n_fft `div` 2)%Z) in *.
  destruct (decide _); [reflexivity|].
  rewrite sum_R_filter. cbn [map sum_R foldr].
  repeat match goal with
         | |- context [decide (?a ≤ ?b)%Z] => destruct (decide (a ≤ b)%Z); try lia
         end.
  replace (0 + (0 + (0 + (0 + 0))))%R with 0%R by lra.
  rewrite sqrt_0. unfold Rdiv. rewrite Rmult_0_r, Rmult_0_l. apply py_round_0.
Qed.

Lemma compute_thd_default (signal : list R) :
  (2 ≤ length signal)%nat → compute_thd signal 50 50.0 = Ok 0%R.
Proof.
  intros Hlen. rewrite compute_thd_by_words by (assumption || lra).
  rewrite thd_by_words_default by assumption. reflexivity.
Qed.

Lemma compute_thd_empty (fs fundamental : R) : compute_thd [] fs fundamental = Ok 0%R.
Proof. reflexivity. Qed.

(** A single sample: the half spectrum has one bin, the clamp answers bin 1. *)
Lemma compute_thd_single_sample (x : R) :
  compute_thd [x] 50 50.0 = Raise IndexError.
Proof.
  unfold compute_thd. cbn [length].
  destruct (decide (1%nat = 0%nat)); [lia|].
  change (Z.max (Z.of_nat 1) (2 ^ Z.log2_up (Z.of_nat 1))) with 1%Z.
  change (1 `div` 2)%Z with 0%Z. change (Z.to_nat (0 + 1)) with 1%nat.
  change (Z.to_nat 1) with 1%nat.
  rewrite !py_div_ok by lra. cbn [mbind result_bind].
  replace (50.0 * 1 / 50)%R with (IZR 1) by lra.
  rewrite round_half_even_IZR. change (Z.max 1 (Z.min 1 0)) with 1%Z.
  rewrite np_index_out_of_range; [reflexivity|].
  rewrite length_take, length_map, length_fft. simpl. lia.
Qed.

(** *** compute_rms and compute_frequency_deviation *)

Lemma compute_rms_empty : compute_rms [] = 0%R.
Proof. reflexivity. Qed.

Lemma compute_rms_nonempty (signal : list R) :
  signal ≠ [] →
  compute_rms signal = py_round (sqrt (np_mean (map (λ x, x ^ 2)%R signal))) 4.
Proof.
  intros Hne. unfold compute_rms.
  destruct (decide (length signal = 0%nat)) as [H0|]; [|reflexivity].
  destruct signal; [done|discriminate].
Qed.

Lemma compute_rms_nonneg (signal : list R) : (0 <= compute_rms signal)%R.
Proof.
  unfold compute_rms. destruct (decide _); [lra|].
  apply py_round_nonneg, sqrt_pos.
Qed.

Lemma compute_rms_four_decimals (signal : list R) : four_decimals (compute_rms signal).
Proof.
  unfold compute_rms. destruct (decide _);
    [apply four_decimals_0|apply py_round_four_decimals].
Qed.

Lemma compute_frequency_deviation_nonneg (l : list R) :
  (0 <= compute_frequency_deviation l)%R.
Proof.
  unfold compute_frequency_deviation. destruct (decide _); [lra|].
  apply py_round_nonneg, np_mean_nonneg, Forall_fmap, Forall_true.
  intros x. simpl. apply Rabs_pos.
Qed.

Lemma compute_frequency_deviation_four_decimals (l : list R) :
  four_decimals (compute_frequency_deviation l).
Proof.
  unfold compute_frequency_deviation. destruct (decide _);
    [apply four_decimals_0|apply py_round_four_decimals].
Qed.

(** *** The nominal sine wave *)

Lemma base_sine_const : Forall (λ x, x = (1 / sqrt 2)%R) base_sine.
Proof.
  unfold base_sine, np_arange. rewrite <- !list_fmap_compose.
  apply Forall_fmap, Forall_true. intros k. unfold compose. cbv beta.
  unfold NOMINAL_FREQUENCY, phase_offset, SAMPLING_RATE.
  replace (INR 50) with 50%R by (simpl; lra).
  replace 50.0%R with 50%R by lra.
  replace (2 * PI * 50 * (INR k / 50) + PI / 4)%R
    with (PI / 4 + 2 * INR k * PI)%R by field.
  rewrite sin_period. apply sin_PI4.
Qed.

Lemma sqrt2_bounds : (14142 / 10000 < sqrt 2 < 14143 / 10000)%R.
Proof.
  pose proof (sqrt_sqrt 2 ltac:(lra)) as Hs. pose proof (sqrt_pos 2) as Hp.
  split; nra.
Qed.

Lemma inv_sqrt2 : (1 / sqrt 2 = sqrt 2 / 2)%R.
Proof.
  pose proof (sqrt_sqrt 2 ltac:(lra)) as Hs. pose proof sqrt2_bounds.
  apply Rmult_eq_reg_r with (sqrt 2); [|lra]. field_simplify; lra.
Qed.

Lemma compute_rms_sine_wave (A : R) :
  (0 <= A)%R → compute_rms (sine_wave A) = py_round (A / sqrt 2) 4.
Proof.
  intros HA. rewrite compute_rms_nonempty.
  2:{ intros H. apply (f_equal length) in H. unfold sine_wave in H.
      rewrite length_map in H. unfold base_sine, np_arange in H.
      rewrite !length_map, length_seq in H. discriminate. }
  f_equal. pose proof sqrt2_bounds as Hs2.
  rewrite (np_mean_const ((A / sqrt 2) ^ 2)%R).
  - apply sqrt_pow2. apply Rmult_le_pos; [assumption|].
    apply Rlt_le, Rinv_0_lt_compat. lra.
  - intros H. apply (f_equal length) in H. unfold sine_wave in H.
    rewrite !length_map in H. unfold base_sine, np_arange in H.
    rewrite !length_map, length_seq in H. discriminate.
  - unfold sine_wave. rewrite <- list_fmap_compose. apply Forall_fmap.
    eapply Forall_impl; [apply base_sine_const|].
    intros x ->. simpl. unfold Rdiv. f_equal; lra.
Qed.

(** ** A four-sample signal whose distortion is not a four-decimal number *)


Lemma cos_3PI : cos (3 * PI) = (-1)%R.
Proof.
  replace (3 * PI)%R with (PI + 2 * INR 1 * PI)%R by (simpl; lra).
  rewrite cos_period. apply cos_PI.
Qed.

Lemma sin_3PI : sin (3 * PI) = 0%R.
Proof.
  replace (3 * PI)%R with (PI + 2 * INR 1 * PI)%R by (simpl; lra).
  rewrite sin_period. apply sin_PI.
Qed.

Lemma demo_magnitude_1 : magnitude demo_signal 4 1 = 3%R.
Proof.
  unfold magnitude, fft_bin, fft_pad, np_abs_c, demo_signal.
  change (Z.to_nat 4) with 4%nat. change (Z.to_nat 1) with 1%nat.
  change (Z.to_nat 2) with 2%nat.
  cbn [take length Nat.sub replicate app imap compose sum_R foldr fst snd INR].
  replace (2 * PI * 0 * 1 / (1 + 1 + 1 + 1))%R with 0%R by lra.
  replace (2 * PI * 1 * 1 / (1 + 1 + 1 + 1))%R with (PI / 2)%R by lra.
  replace (2 * PI * (1 + 1 + 1) * 1 / (1 + 1 + 1 + 1))%R with (3 * (PI / 2))%R by lra.
  rewrite cos_0, sin_0, cos_PI2, sin_PI2, cos_3PI2, sin_3PI2.
  match goal with |- sqrt ?a = _ => replace a with (3 ^ 2)%R by lra end.
  apply sqrt_pow2. lra.
Qed.

Lemma demo_magnitude_2 : magnitude demo_signal 4 2 = 1%R.
Proof.
  unfold magnitude, fft_bin, fft_pad, np_abs_c, demo_signal.
  change (Z.to_nat 4) with 4%nat. change (Z.to_nat 1) with 1%nat.
  change (Z.to_nat 2) with 2%nat.
  cbn [take length Nat.sub replicate app imap compose sum_R foldr fst snd INR].
  replace (2 * PI * 0 * (1 + 1) / (1 + 1 + 1 + 1))%R with 0%R by lra.
  replace (2 * PI * 1 * (1 + 1) / (1 + 1 + 1 + 1))%R with PI by lra.
  replace (2 * PI * (1 + 1 + 1) * (1 + 1) / (1 + 1 + 1 + 1))%R with (3 * PI)%R by lra.
  rewrite cos_0, sin_0, cos_PI, sin_PI, cos_3PI, sin_3PI.
  match goal with |- sqrt ?a = _ => replace a with (1 ^ 2)%R by lra end.
  apply sqrt_pow2. lra.
Qed.

Lemma demo_fundamental_bin : fundamental_bin 4 200 50.0 = 1%Z.
Proof.
  unfold fundamental_bin.
  replace (50.0 * 4 / 200)%R with (IZR 1) by lra.
  rewrite round_half_even_IZR. reflexivity.
Qed.

Lemma demo_thd_unrounded : thd_unrounded demo_signal 200 50.0 = (100 / 3)%R.
Proof.
  unfold thd_unrounded.
  change (next_pow2 (Z.of_nat (length demo_signal))) with 4%Z.
  rewrite demo_fundamental_bin, demo_magnitude_1.
  destruct (decide (3 <= 0)%R); [lra|].
  change (4 `div` 2)%Z with 2%Z.
  rewrite sum_R_filter. cbn [map sum_R foldr Z.mul Pos.mul].
  repeat match goal with
         | |- context [decide (?a ≤ ?b)%Z] => destruct (decide (a ≤ b)%Z); try lia
         end.
  change (2 * 1)%Z with 2%Z. rewrite demo_magnitude_2.
  replace (1 ^ 2 + (0 + (0 + (0 + 0))))%R with 1%R by lra.
  rewrite sqrt_1. lra.
Qed.

Lemma demo_thd_by_words : thd_by_words demo_signal 200 50.0 = (333333 / 10000)%R.
Proof.
  unfold thd_by_words.
  change (next_pow2 (Z.of_nat (length demo_signal))) with 4%Z.
  rewrite demo_fundamental_bin, demo_magnitude_1.
  destruct (decide (3 <= 0)%R); [lra|].
  change (4 `div` 2)%Z with 2%Z.
  rewrite sum_R_filter. cbn [map sum_R foldr Z.mul Pos.mul].
  repeat match goal with
         | |- context [decide (?a ≤ ?b)%Z] => destruct (decide (a ≤ b)%Z); try lia
         end.
  change (2 * 1)%Z with 2%Z. rewrite demo_magnitude_2.
  replace (1 ^ 2 + (0 + (0 + (0 + 0))))%R with 1%R by lra.
  rewrite sqrt_1. apply py_round_near. lra.
Qed.

(** *** compute_thd with binary64 parameters *)

Lemma thd_unrounded_at_bin (signal : list R) (fs fundamental : R) :
  thd_unrounded signal fs fundamental
  = thd_at_bin signal
      (round_half_even
         (fundamental * IZR (next_pow2 (Z.of_nat (length signal))) / fs)).
Proof. reflexivity. Qed.


(** After the three steps that can raise on the parameters, the function
    computes the measure at the bin they give. *)
Lemma compute_thd_at_bin (signal : list R) (fs fundamental : spec_float) :
  (2 ≤ length signal)%nat →
  Double.compute_thd signal fs fundamental
  = (dt ← Double.py_div Double.one fs;
     _ ← Double.fftfreq_val (next_pow2 (Z.of_nat (length signal))) dt;
     b ← Double.fund_bin fundamental
           (next_pow2 (Z.of_nat (length signal))) fs;
     Ok (py_round (thd_at_bin signal b) 4)).
Proof.
  intros Hlen. unfold Double.compute_thd.
  destruct (decide (length signal = 0%nat)); [lia|].
  rewrite max_next_pow2 by lia.
  destruct (next_pow2_spec (Z.of_nat (length signal)) ltac:(lia))
    as (Hn & Hn2 & Heven & Hhalf).
  set (n_fft := next_pow2 (Z.of_nat (length signal))) in *.
  destruct (Double.py_div Double.one fs) as [dt|e]; [|reflexivity].
  cbn [mbind result_bind].
  destruct (Double.fftfreq_val n_fft dt) as [v|e]; [|reflexivity].
  cbn [mbind result_bind].
  destruct (Double.fund_bin fundamental n_fft fs) as [b|e]; [|reflexivity].
  cbn [mbind result_bind]. unfold thd_at_bin. fold n_fft.
  set (half := (n_fft `div` 2)%Z) in *.
  set (fund_bin := Z.max 1 (Z.min b half)).
  assert (Hb : (1 ≤ fund_bin ≤ half)%Z) by (unfold fund_bin; lia).
  rewrite np_index_spectrum by lia. cbn [mbind result_bind].
  destruct (decide (magnitude signal n_fft fund_bin <= 0)%R);
    [rewrite py_round_0; reflexivity|].
  cbn [foldl]. cbn [mbind result_bind].
  rewrite thd_step_spec by lia. cbn [mbind result_bind].
  rewrite thd_step_spec by lia. cbn [mbind result_bind].
  rewrite thd_step_spec by lia. cbn [mbind result_bind].
  rewrite thd_step_spec by lia. cbn [mbind result_bind].
  rewrite sum_R_filter. cbn [map sum_R foldr].
  do 2 f_equal. replace 100.0%R with 100%R by lra. do 3 f_equal. lra.
Qed.

(** The float literals stand for the numbers they are named after. *)
Lemma bpow_neg_pow2 (k : Z) :
  (0 ≤ k)%Z → Float64.bpow (- k) = (/ IZR (2 ^ k))%R.
Proof.
  intros Hk. rewrite Float64Facts.bpow_pow2 by assumption.
  pose proof (Float64Facts.bpow_pos k) as Hp.
  apply Rmult_eq_reg_r with (Float64.bpow k); [|lra].
  rewrite <- Float64Facts.bpow_add. replace (- k + k)%Z with 0%Z by lia.
  rewrite Rinv_l by lra. reflexivity.
Qed.

Lemma double_literals :
  Double.value Double.one = 1%R ∧
  Double.value Double.lit_50_0 = 50%R ∧
  Double.value Double.lit_200_0 = 200%R ∧
  Double.value Double.below_2 = (2 - / 4503599627370496)%R ∧
  Double.value Double.below_0_75 = (3 / 4 - / 9007199254740992)%R.
Proof.
  unfold Double.value, Double.one, Double.lit_50_0, Double.lit_200_0,
    Double.below_2, Double.below_0_75.
  pose proof (bpow_neg_pow2 52 ltac:(lia)) as H52.
  pose proof (bpow_neg_pow2 47 ltac:(lia)) as H47.
  pose proof (bpow_neg_pow2 45 ltac:(lia)) as H45.
  pose proof (bpow_neg_pow2 53 ltac:(lia)) as H53.
  change (- (52))%Z with (Zneg 52) in H52. change (- (47))%Z with (Zneg 47) in H47.
  change (- (45))%Z with (Zneg 45) in H45. change (- (53))%Z with (Zneg 53) in H53.
  change (2 ^ 52)%Z with 4503599627370496%Z in H52.
  change (2 ^ 47)%Z with 140737488355328%Z in H47.
  change (2 ^ 45)%Z with 35184372088832%Z in H45.
  change (2 ^ 53)%Z with 9007199254740992%Z in H53.
  rewrite H52, H47, H45, H53. repeat split; lra.
Qed.

(** The three steps on the parameters, at [fs = 200.0] and
    [fundamental = 50.0] with four samples. *)
Lemma demo_fund_bin_binary64 :
  (dt ← Double.py_div Double.one Double.lit_200_0;
   Double.fftfreq_val 4 dt) = Ok Double.lit_50_0 ∧
  Double.fund_bin Double.lit_50_0 4 Double.lit_200_0 = Ok 1%Z.
Proof. split; vm_compute; reflexivity. Qed.

Lemma thd_at_bin_demo_1 : thd_at_bin demo_signal 1 = (100 / 3)%R.
Proof.
  rewrite <- demo_thd_unrounded, thd_unrounded_at_bin. f_equal.
  change (next_pow2 (Z.of_nat (length demo_signal))) with 4%Z.
  replace (50.0 * 4 / 200)%R with (IZR 1) by lra.
  symmetry. apply round_half_even_IZR.
Qed.

Lemma thd_at_bin_demo_2 : thd_at_bin demo_signal 2 = 0%R.
Proof.
  unfold thd_at_bin.
  change (next_pow2 (Z.of_nat (length demo_signal))) with 4%Z.
  change (4 `div` 2)%Z with 2%Z. change (Z.max 1 (Z.min 2 2)) with 2%Z.
  rewrite demo_magnitude_2.
  destruct (decide (1 <= 0)%R); [lra|].
  rewrite sum_R_filter. cbn [map sum_R foldr Z.mul Pos.mul].
  repeat match goal with
         | |- context [decide (?a ≤ ?b)%Z] => destruct (decide (a ≤ b)%Z); try lia
         end.
  replace (0 + (0 + (0 + (0 + 0))))%R with 0%R by lra.
  rewrite sqrt_0. lra.
Qed.


(** A fundamental of [1e308]: the product [fundamental * n_fft] is
    infinite and [round] raises. *)
Lemma compute_thd_overflow :
  Double.fund_bin Double.lit_1e308 4 Double.lit_200_0 = Raise OverflowError ∧
  Double.compute_thd demo_signal Double.lit_200_0 Double.lit_1e308
  = Raise OverflowError.
Proof.
  assert (H : Double.fund_bin Double.lit_1e308 4 Double.lit_200_0
              = Raise OverflowError) by (vm_compute; reflexivity).
  split; [exact H|].
  rewrite compute_thd_at_bin by (simpl; lia).
  change (next_pow2 (Z.of_nat (length demo_signal))) with 4%Z.
  destruct demo_fund_bin_binary64 as [H1 _].
  destruct (Double.py_div Double.one Double.lit_200_0) as [dt|e];
    [|discriminate].
  cbn [mbind result_bind] in H1 |- *. rewrite H1, H. reflexivity.
Qed.

(** A quotient just below 3/2 that binary64 rounds to 3/2: with
    [fs = 2 - 2^-52] and [fundamental = 3/4 - 2^-53] on four samples the
    function uses bin 2 and returns 0.0, where the exactly rounded quotient
    gives bin 1 and 33.3333. *)
Lemma compute_thd_tie_binary64 :
  Double.fund_bin Double.below_0_75 4 Double.below_2 = Ok 2%Z ∧
  round_half_even
    (Double.value Double.below_0_75 * 4 / Double.value Double.below_2) = 1%Z ∧
  Double.compute_thd demo_signal Double.below_2 Double.below_0_75 = Ok 0%R ∧
  compute_thd demo_signal (Double.value Double.below_2)
    (Double.value Double.below_0_75) = Ok (333333 / 10000)%R.
Proof.
  assert (Hb : Double.fund_bin Double.below_0_75 4 Double.below_2 = Ok 2%Z)
    by (vm_compute; reflexivity).
  destruct double_literals as (_ & _ & _ & Hfs & Hf).
  assert (Hr : round_half_even
                 (Double.value Double.below_0_75 * 4
                  / Double.value Double.below_2) = 1%Z).
  { rewrite Hfs, Hf. apply round_half_even_near.
    assert (Hq : ((3 / 4 - / 9007199254740992) * 4
                  / (2 - / 4503599627370496)
                  = 13510798882111486 / 9007199254740991)%R) by (field; lra).
    rewrite Hq. lra. }
  split; [exact Hb|]. split; [exact Hr|]. split.
  - rewrite compute_thd_at_bin by (simpl; lia).
    change (next_pow2 (Z.of_nat (length demo_signal))) with 4%Z.
    assert (H1 : ∃ v, (dt ← Double.py_div Double.one Double.below_2;
                       Double.fftfreq_val 4 dt) = Ok v)
      by (eexists; vm_compute; reflexivity).
    destruct H1 as [v H1].
    destruct (Double.py_div Double.one Double.below_2) as [dt|e];
      [|discriminate].
    cbn [mbind result_bind] in H1 |- *. rewrite H1, Hb.
    cbn [mbind result_bind]. rewrite thd_at_bin_demo_2. f_equal.
    apply py_round_0.
  - rewrite compute_thd_by_words; [|simpl; lia|rewrite Hfs; lra].
    rewrite thd_by_words_rounds, thd_unrounded_at_bin.
    change (next_pow2 (Z.of_nat (length demo_signal))) with 4%Z.
    rewrite Hr, thd_at_bin_demo_1. f_equal. apply py_round_near. lra.
Qed.



(** With the parameters of the pipeline, [fs = 50] and
    [fundamental = 50.0], the quotient is [n_fft] itself in binary64 as in
    exact arithmetic: on an array of up to 2^62 samples the function with
    float parameters is the function with real parameters. *)
Lemma pipeline_bin_exact_upto_62 :
  forallb pipeline_bin_exact (seq 0 63) = true.
Proof. vm_compute. reflexivity. Qed.

Lemma fund_bin_pipeline (n_fft : Z) :
  (∃ k : Z, (0 ≤ k ≤ 62)%Z ∧ n_fft = (2 ^ k)%Z) →
  (dt ← Double.py_div Double.one Double.lit_50_0;
   _ ← Double.fftfreq_val n_fft dt;
   Double.fund_bin Double.lit_50_0 n_fft Double.lit_50_0) = Ok n_fft.
Proof.
  intros (k & Hk & ->).
  pose proof pipeline_bin_exact_upto_62 as H.
  rewrite forallb_forall in H. specialize (H (Z.to_nat k)).
  unfold pipeline_bin_exact in H. rewrite Z2Nat.id in H by lia.
  destruct (Double.py_div Double.one Double.lit_50_0) as [dt|e].
  2:{ discriminate H. apply in_seq. lia. }
  cbn [mbind result_bind].
  destruct (Double.fftfreq_val (2 ^ k) dt) as [v|e].
  2:{ discriminate H. apply in_seq. lia. }
  destruct (Double.fund_bin Double.lit_50_0 (2 ^ k) Double.lit_50_0) as [b|e].
  2:{ discriminate H. apply in_seq. lia. }
  cbn [mbind result_bind]. f_equal. apply Z.eqb_eq, H, in_seq. lia.
Qed.

Lemma compute_thd_pipeline_binary64 (signal : list R) :
  (Z.of_nat (length signal) ≤ 2 ^ 62)%Z →
  Double.compute_thd signal Double.lit_50_0 Double.lit_50_0
  = compute_thd signal 50 50.0.
Proof.
  intros Hmax.
  destruct signal as [|x [|y signal]].
  - reflexivity.
  - rewrite compute_thd_single_sample. unfold Double.compute_thd.
    cbn [length]. destruct (decide (1%nat = 0%nat)); [lia|].
    change (Z.max (Z.of_nat 1) (2 ^ Z.log2_up (Z.of_nat 1))) with 1%Z.
    pose proof (fund_bin_pipeline 1 ltac:(exists 0%Z; split; [lia|reflexivity]))
      as H.
    destruct (Double.py_div Double.one Double.lit_50_0) as [dt|e];
      [|discriminate].
    cbn [mbind result_bind] in H |- *.
    destruct (Double.fftfreq_val 1 dt) as [v|e]; [|discriminate].
    cbn [mbind result_bind] in H |- *. rewrite H. cbn [mbind result_bind].
    change (1 `div` 2)%Z with 0%Z. change (Z.max 1 (Z.min 1 0)) with 1%Z.
    rewrite np_index_out_of_range; [reflexivity|].
    rewrite length_take, length_map, length_fft. simpl. lia.
  - set (sig := x :: y :: signal) in *.
    assert (Hlen : (2 ≤ length sig)%nat) by (unfold sig; simpl; lia).
    rewrite compute_thd_default, compute_thd_at_bin by assumption.
    set (n_fft := next_pow2 (Z.of_nat (length sig))).
    assert (Hk : ∃ k : Z, (0 ≤ k ≤ 62)%Z ∧ n_fft = (2 ^ k)%Z).
    { exists (Z.log2_up (Z.of_nat (length sig))).
      split; [|reflexivity]. split; [apply Z.log2_up_nonneg|].
      apply Z.log2_up_le_pow2; lia. }
    pose proof (fund_bin_pipeline n_fft Hk) as H.
    destruct (Double.py_div Double.one Double.lit_50_0) as [dt|e];
      [|discriminate].
    cbn [mbind result_bind] in H |- *.
    destruct (Double.fftfreq_val n_fft dt) as [v|e]; [|discriminate].
    cbn [mbind result_bind] in H |- *. rewrite H. cbn [mbind result_bind].
    f_equal. rewrite <- (thd_by_words_default sig Hlen).
    rewrite thd_by_words_rounds, thd_unrounded_at_bin. fold n_fft.
    do 2 f_equal. replace (50.0 * IZR n_fft / 50)%R with (IZR n_fft) by lra.
    symmetry. apply round_half_even_IZR.
Qed.
(** *** The steps on the parameters never fail on a finite non-zero [fs]

    A float that is neither zero nor NaN stays so under the division
    [1 / fs] and the product [n * d]: the quotient of 1 by a finite float
    is at least [2^-1024], above the smallest positive float. *)
Module Float64Nonzero.
Import Float64 Float64Facts.
Local Open Scope Z_scope.










End Float64Nonzero.





(** [round] raises on an infinite float and on NaN only. *)
Lemma round_raises (x : spec_float) (e : exn) :
  Float64.round x = Raise e →
  (e = OverflowError ∧ ∃ s, x = S754_infinity s)
  ∨ (e = ValueError ∧ x = S754_nan).
Proof.
  destruct x as [s|s| |s m e']; cbn [Float64.round]; try discriminate.
  - intros [= <-]. left. eauto.
  - intros [= <-]. right. auto.
Qed.




Section PipelineFacts.
Variable butter : Z → R → R → result (list R * list R).
Variable filtfilt : list R → list R → list R → result (list R).

Lemma bandpass_filter_guard (signal : list R) (lowcut highcut fs : R)
    (order : Z) (low high : R) :
  py_div lowcut (0.5 * fs) = Ok low →
  py_div highcut (0.5 * fs) = Ok high →
  (low >= 1 ∨ high >= 1 ∨ low <= 0 ∨ high <= 0)%R →
  bandpass_filter butter filtfilt signal lowcut highcut fs order = Ok signal.
Proof.
  intros Hlow Hhigh Hout. unfold bandpass_filter.
  rewrite Hlow, Hhigh. cbn [mbind result_bind].
  destruct (decide _); [reflexivity|contradiction].
Qed.

(** C3: when a normalized cutoff lies outside the open interval (0, 1), or
    the filter design or the zero-phase filtering fails with one of the
    exceptions of a numerical failure, [bandpass_filter] returns its input
    unchanged and does not raise. *)
Theorem bandpass_filter_fallback (signal : list R) (lowcut highcut fs : R)
    (order : Z) (low high : R) :
  py_div lowcut (0.5 * fs) = Ok low →
  py_div highcut (0.5 * fs) = Ok high →
  (¬ (0 < low < 1)%R ∨ ¬ (0 < high < 1)%R ∨
   (∃ e, caught e = true ∧ butter order low high = Raise e) ∨
   (∃ b a e, caught e = true ∧ butter order low high = Ok (b, a) ∧
             filtfilt b a signal = Raise e)) →
  bandpass_filter butter filtfilt signal lowcut highcut fs order = Ok signal.
Proof.
  intros Hlow Hhigh Hcase.
  destruct Hcase as [Hout|[Hout|Hcase]];
    [apply (bandpass_filter_guard _ _ _ _ _ low high); (assumption || lra)..|].
  unfold bandpass_filter.
  rewrite Hlow, Hhigh. cbn [mbind result_bind].
  destruct (decide _) as [|Hin]; [reflexivity|].
  destruct Hcase as [(e & He & Hb)|(b & a & e & He & Hb & Hf)].
  - rewrite Hb. cbn [mbind result_bind]. rewrite He. reflexivity.
  - rewrite Hb. cbn [mbind result_bind fst snd]. rewrite Hf, He. reflexivity.
Qed.

(** The filter leaves the design to [scipy] only for cutoffs within (0, 1),
    and hands on what the filtering returns. *)
Lemma bandpass_filter_filtered (signal : list R) (lowcut highcut fs : R)
    (order : Z) (low high : R) (b a filtered : list R) :
  py_div lowcut (0.5 * fs) = Ok low →
  py_div highcut (0.5 * fs) = Ok high →
  (0 < low < 1)%R → (0 < high < 1)%R →
  butter order low high = Ok (b, a) → filtfilt b a signal = Ok filtered →
  bandpass_filter butter filtfilt signal lowcut highcut fs order = Ok filtered.
Proof.
  intros Hlow Hhigh Hl Hh Hb Hf. unfold bandpass_filter.
  rewrite Hlow, Hhigh. cbn [mbind result_bind].
  destruct (decide _) as [Hout|]; [exfalso; lra|].
  rewrite Hb. cbn [mbind result_bind fst snd]. rewrite Hf. reflexivity.
Qed.

(** An exception outside the [except] clause is handed on. *)
Lemma bandpass_filter_propagates (signal : list R) (lowcut highcut fs : R)
    (order : Z) (low high : R) (e : exn) :
  py_div lowcut (0.5 * fs) = Ok low →
  py_div highcut (0.5 * fs) = Ok high →
  (0 < low < 1)%R → (0 < high < 1)%R →
  caught e = false → butter order low high = Raise e →
  bandpass_filter butter filtfilt signal lowcut highcut fs order = Raise e.
Proof.
  intros Hlow Hhigh Hl Hh He Hb. unfold bandpass_filter.
  rewrite Hlow, Hhigh. cbn [mbind result_bind].
  destruct (decide _) as [Hout|]; [exfalso; lra|].
  rewrite Hb. cbn [mbind result_bind]. rewrite He. reflexivity.
Qed.

(** A sampling rate of zero has no normalized cutoff: the division raises. *)
Lemma bandpass_filter_zero_fs (signal : list R) (lowcut highcut : R)
    (order : Z) :
  bandpass_filter butter filtfilt signal lowcut highcut 0 order
  = Raise ZeroDivisionError.
Proof.
  unfold bandpass_filter, py_div.
  destruct (decide (0.5 * 0 = 0)%R) as [|Hne]; [reflexivity|].
  exfalso. apply Hne. lra.
Qed.

Lemma bandpass_filter_pipeline (signal : list R) (order : Z) :
  bandpass_filter butter filtfilt signal 45.0 55.0 50 order = Ok signal.
Proof.
  apply (bandpass_filter_guard _ _ _ _ _ (45.0 / (0.5 * 50)) (55.0 / (0.5 * 50)));
    [apply py_div_ok; lra..|].
  right. left. lra.
Qed.


(** *** extract_features *)

(** On a voltage array of at least two samples the pipeline returns. *)
Lemma extract_features_ok (r : reading) :
  (2 ≤ length (voltage r))%nat →
  ∃ m, np_max (map Rabs (voltage r)) = Ok m ∧
    extract_features butter filtfilt r =
      Ok {| rms_voltage := compute_rms (voltage r);
            thd_percent := 0;
            frequency_deviation_hz := compute_frequency_deviation (frequency r);
            peak_voltage := py_round m 4;
            feat_anomaly_type := anomaly_type r;
            feat_severity := severity r |}.
Proof.
  intros Hlen.
  destruct (np_max_nonempty (map Rabs (voltage r))) as [m Hm].
  { intros H. apply (f_equal length) in H. rewrite length_map in H.
    simpl in H. lia. }
  exists m. split; [assumption|]. unfold extract_features.
  rewrite bandpass_filter_pipeline. cbn [mbind result_bind].
  rewrite compute_thd_default by assumption. cbn [mbind result_bind].
  rewrite Hm. reflexivity.
Qed.

Lemma extract_features_empty (r : reading) :
  voltage r = [] → extract_features butter filtfilt r = Raise ValueError.
Proof.
  intros Hv. unfold extract_features.
  rewrite bandpass_filter_pipeline, Hv. reflexivity.
Qed.

Lemma extract_features_single (r : reading) (x : R) :
  voltage r = [x] → extract_features butter filtfilt r = Raise IndexError.
Proof.
  intros Hv. unfold extract_features.
  rewrite bandpass_filter_pipeline, Hv. cbn [mbind result_bind].
  rewrite compute_thd_single_sample. reflexivity.
Qed.

Lemma extract_features_inv (r : reading) (fv : features) :
  extract_features butter filtfilt r = Ok fv → (2 ≤ length (voltage r))%nat.
Proof.
  intros Hfv. destruct (voltage r) as [|x [|y v]] eqn:Hv; [| |simpl; lia].
  - rewrite (extract_features_empty r Hv) in Hfv. discriminate.
  - rewrite (extract_features_single r x Hv) in Hfv. discriminate.
Qed.

Lemma np_max_abs_nonneg (v : list R) (m : R) :
  np_max (map Rabs v) = Ok m → (0 <= m)%R.
Proof.
  intros Hm. apply np_max_spec in Hm as [Hin _].
  apply list_elem_of_fmap in Hin as (x & -> & _). apply Rabs_pos.
Qed.

(** Whatever [extract_features] returns has four non-negative features of
    four decimals and the labels of the reading. *)
Lemma extract_features_invariant (r : reading) (fv : features) :
  extract_features butter filtfilt r = Ok fv →
  (four_decimals (rms_voltage fv) ∧ 0 <= rms_voltage fv)%R ∧
  (four_decimals (thd_percent fv) ∧ 0 <= thd_percent fv)%R ∧
  (four_decimals (frequency_deviation_hz fv)
   ∧ 0 <= frequency_deviation_hz fv)%R ∧
  (four_decimals (peak_voltage fv) ∧ 0 <= peak_voltage fv)%R ∧
  feat_anomaly_type fv = anomaly_type r ∧
  feat_severity fv = severity r.
Proof.
  intros Hfv. pose proof (extract_features_inv r fv Hfv) as Hlen.
  destruct (extract_features_ok r Hlen) as (m & Hm & Hok).
  rewrite Hok in Hfv. injection Hfv as <-. cbn.
  split; [split; [apply compute_rms_four_decimals|apply compute_rms_nonneg]|].
  split; [split; [apply four_decimals_0|lra]|].
  split; [split; [apply compute_frequency_deviation_four_decimals
                 |apply compute_frequency_deviation_nonneg]|].
  split; [|split; reflexivity].
  split; [apply py_round_four_decimals|].
  apply py_round_nonneg, (np_max_abs_nonneg (voltage r)), Hm.
Qed.

(** C6, at the input where the code departs from it: a reading with a
    single voltage sample is non-empty and finite, and [extract_features]
    raises [IndexError] instead of returning a feature dictionary. *)
Theorem extract_features_single_sample_raises
    (x : R) (freq : list R) (atype sev : string) :
  extract_features butter filtfilt
    {| voltage := [x]; frequency := freq;
       anomaly_type := atype; severity := sev |}
  = Raise IndexError.
Proof. apply (extract_features_single _ x). reflexivity. Qed.

(** C8: on an all-zero voltage array of 50 samples [extract_features]
    returns, with [rms_voltage], [thd_percent] and [peak_voltage] all 0.0;
    the spectrum of that array is zero at every bin, so [compute_thd]
    answers 0.0 whatever the sampling rate and fundamental are. *)
Theorem extract_features_all_zero
    (freq : list R) (atype sev : string) (fs fundamental : R) :
  (∃ fv, extract_features butter filtfilt
           {| voltage := replicate 50 0%R; frequency := freq;
              anomaly_type := atype; severity := sev |} = Ok fv ∧
         rms_voltage fv = 0%R ∧ thd_percent fv = 0%R ∧
         peak_voltage fv = 0%R) ∧
  (∀ k : Z, magnitude (replicate 50 0%R) 64 k = 0%R) ∧
  (compute_thd (replicate 50 0%R) fs fundamental = Ok 0%R
   ∨ fs = 0%R).
Proof.
  assert (Hz : Forall (λ y, y = 0%R) (replicate 50 0%R))
    by (apply Forall_replicate; reflexivity).
  split; [|split].
  - set (r := {| voltage := replicate 50 0%R; frequency := freq;
                 anomaly_type := atype; severity := sev |}).
    destruct (extract_features_ok r) as (m & Hm & Hok).
    { unfold r. cbn [voltage]. rewrite length_replicate. lia. }
    eexists. split; [exact Hok|]. cbn [rms_voltage thd_percent peak_voltage].
    split; [|split; [reflexivity|]].
    + unfold r. cbn [voltage]. rewrite compute_rms_nonempty by discriminate.
      rewrite (np_mean_const 0%R).
      * rewrite sqrt_0. apply py_round_0.
      * discriminate.
      * apply Forall_fmap. eapply Forall_impl; [exact Hz|].
        intros y ->. simpl. lra.
    + apply np_max_spec in Hm as [Hin _]. unfold r in Hin. cbn [voltage] in Hin.
      apply list_elem_of_fmap in Hin as (y & -> & Hy).
      apply elem_of_replicate in Hy as [-> _]. rewrite Rabs_R0. apply py_round_0.
  - intros k. apply magnitude_zero, Hz.
  - destruct (decide (fs = 0%R)) as [|Hfs]; [right; assumption|left].
    rewrite compute_thd_by_words; [|rewrite length_replicate; lia|assumption].
    unfold thd_by_words. rewrite magnitude_zero by assumption.
    destruct (decide (0 <= 0)%R); [reflexivity|lra].
Qed.

(** C9: with [lowcut = 45.0], [highcut = 55.0] and [fs = 50] the normalized
    high cutoff is 55/25 = 2.2, at least 1, so [bandpass_filter] returns its
    input unchanged; the [peak_voltage] of every feature dictionary is the
    largest absolute value of the raw voltage array rounded to four
    decimals, and the dictionary exists for every voltage array of two or
    more samples. *)
Theorem peak_voltage_unfiltered (r : reading) :
  (py_div 55.0 (0.5 * 50) = Ok (22 / 10)%R ∧ (22 / 10 >= 1)%R) ∧
  (∀ (signal : list R) (order : Z),
     bandpass_filter butter filtfilt signal 45.0 55.0 50 order = Ok signal) ∧
  (∀ fv, extract_features butter filtfilt r = Ok fv →
     ∃ m, np_max (map Rabs (voltage r)) = Ok m ∧
          m ∈ map Rabs (voltage r) ∧
          Forall (λ x, Rabs x <= m)%R (voltage r) ∧
          peak_voltage fv = py_round m 4) ∧
  ((2 ≤ length (voltage r))%nat →
     ∃ fv, extract_features butter filtfilt r = Ok fv).
Proof.
  split; [split; [|lra]|split; [|split]].
  - rewrite py_div_ok by lra. f_equal. lra.
  - apply bandpass_filter_pipeline.
  - intros fv Hfv. pose proof (extract_features_inv r fv Hfv) as Hlen.
    destruct (extract_features_ok r Hlen) as (m & Hm & Hok).
    rewrite Hok in Hfv. injection Hfv as <-. exists m.
    split; [assumption|]. destruct (np_max_spec _ _ Hm) as [Hin Hall].
    split; [assumption|]. split; [|reflexivity].
    apply Forall_fmap in Hall. exact Hall.
  - intros Hlen. destruct (extract_features_ok r Hlen) as (m & _ & Hok).
    eexists. exact Hok.
Qed.

(** C10: on an empty voltage array [compute_rms], [compute_thd] and
    [compute_frequency_deviation] each return 0.0, the filter returns the
    empty array, the maximum of its absolute values raises, and
    [extract_features] raises [ValueError] instead of returning. *)
Theorem extract_features_empty_voltage_raises
    (freq : list R) (atype sev : string) :
  compute_rms [] = 0%R ∧
  compute_thd [] 50 50.0 = Ok 0%R ∧
  compute_frequency_deviation [] = 0%R ∧
  bandpass_filter butter filtfilt [] 45.0 55.0 50 3 = Ok [] ∧
  np_max (map Rabs []) = Raise ValueError ∧
  extract_features butter filtfilt
    {| voltage := []; frequency := freq;
       anomaly_type := atype; severity := sev |}
  = Raise ValueError.
Proof.
  split; [reflexivity|]. split; [reflexivity|]. split; [reflexivity|].
  split; [apply bandpass_filter_pipeline|]. split; [reflexivity|].
  apply extract_features_empty. reflexivity.
Qed.

End PipelineFacts.

(** ** The extractor at concrete inputs *)



Lemma bandpass_filter_fallback_witness :
  py_div 45.0 (0.5 * 100) = Ok (45.0 / (0.5 * 100))%R ∧
  py_div 48.0 (0.5 * 100) = Ok (48.0 / (0.5 * 100))%R ∧
  (0 < 45.0 / (0.5 * 100) < 1)%R ∧ (0 < 48.0 / (0.5 * 100) < 1)%R ∧
  caught ValueError = true ∧
  bandpass_filter failing_butter failing_filtfilt demo_signal 45.0 48.0 100 3
    = Ok demo_signal.
Proof.
  assert (H1 : py_div 45.0 (0.5 * 100) = Ok (45.0 / (0.5 * 100))%R)
    by (apply py_div_ok; lra).
  assert (H2 : py_div 48.0 (0.5 * 100) = Ok (48.0 / (0.5 * 100))%R)
    by (apply py_div_ok; lra).
  split; [exact H1|]. split; [exact H2|].
  split; [lra|]. split; [lra|]. split; [reflexivity|].
  apply (bandpass_filter_fallback failing_butter failing_filtfilt
           demo_signal 45.0 48.0 100 3 _ _ H1 H2).
  right. right. left. exists ValueError. split; reflexivity.
Defined.

Lemma peak_voltage_unfiltered_witness :
  ∃ fv m,
    extract_features failing_butter failing_filtfilt
      {| voltage := demo_signal; frequency := [50; 50; 50; 50]%R;
         anomaly_type := "none"; severity := "none" |} = Ok fv ∧
    np_max (map Rabs demo_signal) = Ok m ∧
    peak_voltage fv = py_round m 4.
Proof.
  set (r := {| voltage := demo_signal; frequency := [50; 50; 50; 50]%R;
               anomaly_type := "none"; severity := "none" |}).
  destruct (peak_voltage_unfiltered failing_butter failing_filtfilt r)
    as (_ & _ & Hpeak & Hex).
  destruct Hex as [fv Hfv]; [simpl; lia|].
  destruct (Hpeak fv Hfv) as (m & Hm & _ & _ & Hp).
  exists fv, m. split; [exact Hfv|]. split; [exact Hm|exact Hp].
Defined.

(* ===================================================================== *)
(** * Part III: further properties of the code                            *)
(* ===================================================================== *)

(** ** More on rounding *)

Lemma round_half_even_mono (x y : R) :
  (x <= y)%R → (round_half_even x ≤ round_half_even y)%Z.
Proof.
  intros Hxy. destruct (Z_le_gt_dec (round_half_even x) (round_half_even y)) as [|Hgt];
    [assumption|exfalso].
  pose proof (round_half_even_error x) as Hx.
  pose proof (round_half_even_error y) as Hy.
  assert (Hge : (IZR (round_half_even y) + 1 <= IZR (round_half_even x))%R).
  { rewrite <- plus_IZR. apply IZR_le. lia. }
  assert (Heq : x = y) by lra. subst y. lia.
Qed.

Lemma py_round_mono (x y : R) : (x <= y)%R → (py_round x 4 <= py_round y 4)%R.
Proof.
  intros Hxy. rewrite !py_round_4.
  assert (H : (round_half_even (x * 10000) ≤ round_half_even (y * 10000))%Z)
    by (apply round_half_even_mono; lra).
  apply IZR_le in H. lra.
Qed.

Lemma py_round_exact (k : Z) : py_round (IZR k / 10000) 4 = (IZR k / 10000)%R.
Proof.
  rewrite py_round_4. replace (IZR k / 10000 * 10000)%R with (IZR k) by field.
  rewrite round_half_even_IZR. reflexivity.
Qed.

(** ** The waveforms *)

Lemma base_sine_replicate : base_sine = replicate 50 (1 / sqrt 2)%R.
Proof.
  symmetry. apply replicate_as_Forall. split; [apply base_sine_length|].
  eapply Forall_impl; [apply base_sine_const|]. intros x ->. reflexivity.
Qed.

Lemma sine_wave_replicate (A : R) : sine_wave A = replicate 50 (A * (1 / sqrt 2))%R.
Proof. unfold sine_wave. rewrite base_sine_replicate, fmap_replicate. reflexivity. Qed.

Lemma inv_sqrt2_pos : (0 < 1 / sqrt 2)%R.
Proof. pose proof sqrt2_bounds. apply Rdiv_lt_0_compat; lra. Qed.

Lemma trend_voltage_lookup (k : nat) :
  (k < 50)%nat →
  zip_with Rmult (np_linspace NOMINAL_VOLTAGE 1.2 50) base_sine !! k
  = Some ((1 + 0.2 * INR k / 49) / sqrt 2)%R.
Proof.
  intros Hk. rewrite lookup_zip_with, base_sine_replicate.
  unfold np_linspace. rewrite list_lookup_fmap, lookup_seq_lt by assumption.
  rewrite lookup_replicate_2 by assumption. cbn [fmap option_fmap option_map mbind option_bind].
  f_equal. unfold NOMINAL_VOLTAGE. change (50 - 1)%nat with 49%nat.
  replace (INR 49) with 49%R by (simpl; lra). change (0 + k)%nat with k.
  unfold Rdiv. rewrite Rmult_1_l. f_equal. lra.
Qed.

Section GeneratorExtras.
Context `{RS : RandomSource}.

(** X1: the voltage array of a normal reading is constant: the wave is
    sampled once per period, so each of the 50 samples is sin(pi/4), that is
    1/sqrt 2; the frequency array holds 50 samples and the labels are "none"
    and "none". *)
Theorem normal_signal_is_constant (g : rng) :
  let r := (generate_normal_signal g).1 in
  voltage r = replicate 50 (1 / sqrt 2)%R ∧
  length (frequency r) = 50%nat ∧
  anomaly_type r = "none" ∧ severity r = "none".
Proof.
  destruct (generate_normal_signal_spec g) as (Hv & Hf & Ht & Hs).
  cbv zeta in *. rewrite Hv, sine_wave_replicate.
  split; [|auto]. f_equal. unfold NOMINAL_VOLTAGE. lra.
Qed.

(** X2: the voltage array of a trend reading rises strictly from 1/sqrt 2 at
    sample 0 to 1.2/sqrt 2 at sample 49: sample k is (1 + 0.2 k / 49)/sqrt 2;
    the labels are "trend" and "medium". *)
Theorem trend_anomaly_ramp (g : rng) (j k : nat) :
  (j < k < 50)%nat →
  let r := (generate_trend_anomaly g).1 in
  ∃ vj vk : R,
    voltage r !! j = Some vj ∧ voltage r !! k = Some vk ∧
    vj = ((1 + 0.2 * INR j / 49) / sqrt 2)%R ∧
    vk = ((1 + 0.2 * INR k / 49) / sqrt 2)%R ∧
    (1 / sqrt 2 <= vj < vk)%R ∧ (vk <= 1.2 / sqrt 2)%R ∧
    voltage r !! 0%nat = Some (1 / sqrt 2)%R ∧
    voltage r !! 49%nat = Some (1.2 / sqrt 2)%R ∧
    anomaly_type r = "trend" ∧ severity r = "medium".
Proof.
  intros [Hj Hk]. cbv zeta.
  assert (Hv : voltage (generate_trend_anomaly g).1
               = zip_with Rmult (np_linspace NOMINAL_VOLTAGE 1.2 50) base_sine).
  { unfold generate_trend_anomaly.
    destruct (random_normal_array 0 0.01 SAMPLES_PER_READING g). reflexivity. }
  destruct (generate_trend_anomaly_spec g) as (_ & _ & Ht & Hs). cbv zeta in Ht, Hs.
  rewrite Hv, !trend_voltage_lookup by lia.
  eexists _, _. split; [reflexivity|]. split; [reflexivity|].
  split; [reflexivity|]. split; [reflexivity|].
  pose proof sqrt2_bounds as Hs2.
  assert (Hinv : (0 < / sqrt 2)%R) by (apply Rinv_0_lt_compat; lra).
  assert (Hj0 : (0 <= INR j)%R) by apply pos_INR.
  assert (Hjk : (INR j < INR k)%R) by (apply lt_INR; assumption).
  assert (Hk49 : (INR k <= 49)%R).
  { replace 49%R with (INR 49) by (simpl; lra). apply le_INR. lia. }
  unfold Rdiv. repeat split; try assumption.
  - apply Rmult_le_compat_r; lra.
  - apply Rmult_lt_compat_r; lra.
  - apply Rmult_le_compat_r; lra.
  - f_equal. simpl. lra.
  - f_equal. replace (INR 49) with 49%R by (simpl; lra). lra.
Qed.

(** Whatever holds of every reading the three generators can build holds
    of every reading of a batch. *)
Lemma generate_batch_Forall (P : reading → Prop) (n : Z) (g : rng)
    (readings : list reading) (g' : rng) :
  (∀ g0, P (generate_normal_signal g0).1) →
  (∀ g0, P (generate_point_anomaly g0).1) →
  (∀ g0, P (generate_trend_anomaly g0).1) →
  generate_batch n g = Ok (readings, g') → Forall P readings.
Proof.
  intros Hn Hp Ht Hbatch. unfold generate_batch in Hbatch.
  destruct (Float64.round_mul_int Float64.lit_0_40 n) as [n_normal|e];
    [|discriminate].
  destruct (Float64.round_mul_int Float64.lit_0_35 n) as [n_point|e];
    [|discriminate].
  cbn [mbind result_bind] in Hbatch.
  destruct (append_loop_spec generate_normal_signal P (range_len n_normal) Hn [] g)
    as (l1 & H1 & _ & HP1).
  destruct (append_loop generate_normal_signal (range_len n_normal) [] g)
    as [r1 g1]. simpl in H1. subst r1.
  destruct (append_loop_spec generate_point_anomaly P (range_len n_point) Hp l1 g1)
    as (l2 & H2 & _ & HP2).
  destruct (append_loop generate_point_anomaly (range_len n_point) l1 g1)
    as [r2 g2]. simpl in H2. subst r2.
  destruct (append_loop_spec generate_trend_anomaly P
              (range_len (n - n_normal - n_point)) Ht (l1 ++ l2) g2)
    as (l3 & H3 & _ & HP3).
  destruct (append_loop generate_trend_anomaly
              (range_len (n - n_normal - n_point)) (l1 ++ l2) g2) as [r3 g3].
  simpl in H3. subst r3. injection Hbatch as Hshuf.
  pose proof (random_shuffle_perm ((l1 ++ l2) ++ l3) g3) as Hperm.
  rewrite Hshuf in Hperm. simpl in Hperm. rewrite Hperm.
  rewrite !Forall_app. auto.
Qed.

Lemma generate_normal_signal_generated (g : rng) :
  generated (generate_normal_signal g).1.
Proof.
  destruct (generate_normal_signal_spec g) as (Hv & Hf & Ht & Hs).
  split; [split; [rewrite Hv; apply sine_wave_length|assumption]|].
  left. auto.
Qed.

Lemma generate_point_anomaly_generated (g : rng) :
  generated (generate_point_anomaly g).1.
Proof.
  destruct (generate_point_anomaly_spec g)
    as (sv & si & Ht & Hr & Hi & Hv & Hf & Hs).
  split; [split; [|assumption]|].
  - rewrite Hv, length_insert. apply sine_wave_length.
  - right. left. split; [assumption|]. exists sv, si. auto.
Qed.

Lemma generate_trend_anomaly_generated (g : rng) :
  generated (generate_trend_anomaly g).1.
Proof.
  destruct (generate_trend_anomaly_spec g) as (Hv & Hf & Ht & Hs).
  split; [split; assumption|]. right. right.
  split; [assumption|]. split; [assumption|].
  unfold generate_trend_anomaly.
  destruct (random_normal_array 0 0.01 SAMPLES_PER_READING g). reflexivity.
Qed.

(** X3: every reading of a batch is one the generators build, so its labels
    are one of the pairs ("none", "none"), ("point", "high"),
    ("point", "medium") and ("trend", "medium"); the severity "low" and a
    normal reading with a severity never occur. *)
Theorem batch_labels_consistent (n : Z) (g : rng)
    (readings : list reading) (g' : rng) :
  generate_batch n g = Ok (readings, g') →
  Forall (λ r, generated r ∧
               (anomaly_type r, severity r)
                 ∈ [("none", "none"); ("point", "high");
                    ("point", "medium"); ("trend", "medium")]) readings.
Proof.
  intros Hbatch.
  assert (Hlab : ∀ r, generated r →
            (anomaly_type r, severity r)
              ∈ [("none", "none"); ("point", "high");
                 ("point", "medium"); ("trend", "medium")]).
  { intros r [_ [(-> & -> & _)|[(-> & sv & si & _ & _ & _ & ->)|(-> & -> & _)]]].
    - repeat constructor.
    - destruct (decide (sv > 1.4)%R); repeat constructor.
    - repeat constructor. }
  apply (generate_batch_Forall _ n g readings g'); try assumption;
    intros g0; split; try apply Hlab;
    auto using generate_normal_signal_generated,
      generate_point_anomaly_generated, generate_trend_anomaly_generated.
Qed.

End GeneratorExtras.

(** ** Negative batch sizes: the sign goes through conversion, product and
    rounding *)

Module Float64Sign.
Import Float64.
Local Open Scope Z_scope.

Lemma binary_round_aux_negb (s : bool) (m e : Z) (l : location) :
  binary_round_aux prec emax (negb s) m e l
  = SFopp (binary_round_aux prec emax s m e l).
Proof.
  unfold binary_round_aux. destruct (shr_fexp prec emax m e l) as [r1 e1].
  destruct (shr_fexp prec emax _ e1 loc_Exact) as [r2 e2].
  destruct (shr_m r2); [reflexivity| |reflexivity].
  destruct (e2 <=? emax - prec); reflexivity.
Qed.

Lemma of_int_neg (m : positive) (x : spec_float) :
  of_int (Zpos m) = Ok x → of_int (Zneg m) = Ok (SFopp x).
Proof.
  unfold of_int, binary_normalize, binary_round.
  destruct (shl_align m 0 (fexp prec emax (Zpos (digits2_pos m) + 0))) as [mz ez].
  change true with (negb false). rewrite binary_round_aux_negb.
  destruct (binary_round_aux prec emax false (Zpos mz) ez loc_Exact);
    intros [= <-]; reflexivity.
Qed.

Lemma mul_opp (mc : positive) (ec : Z) (x : spec_float) :
  mul (S754_finite false mc ec) (SFopp x)
  = SFopp (mul (S754_finite false mc ec) x).
Proof.
  unfold mul. destruct x as [s|s| |s m e]; try reflexivity.
  cbn [SFopp SFmul]. destruct s; cbn [xorb negb].
  - change false with (negb true) at 1. rewrite binary_round_aux_negb.
    rewrite <- (binary_round_aux_negb true). reflexivity.
  - change true with (negb false) at 1. apply binary_round_aux_negb.
Qed.

Lemma round_opp (x : spec_float) (N : Z) :
  round x = Ok N → round (SFopp x) = Ok (- N).
Proof.
  destruct x as [s|s| |s m e]; try discriminate; cbn [round SFopp].
  - intros [= <-]. reflexivity.
  - intros [= <-]. f_equal. destruct s; cbn [negb cond_Zopp]; lia.
Qed.

Lemma round_mul_int_neg (mc : positive) (ec : Z) (m : positive) (N : Z) :
  round_mul_int (S754_finite false mc ec) (Zpos m) = Ok N →
  round_mul_int (S754_finite false mc ec) (Zneg m) = Ok (- N).
Proof.
  unfold round_mul_int, mul_int.
  destruct (of_int (Zpos m)) as [x|e] eqn:Hx; [|discriminate].
  rewrite (of_int_neg m x Hx). cbn [mbind result_bind].
  rewrite mul_opp. apply round_opp.
Qed.

End Float64Sign.

Section NegativeBatch.
Context `{RS : RandomSource}.

Lemma append_loop_zero (gen : rng → reading * rng) (k : Z)
    (readings : list reading) (g : rng) :
  (k ≤ 0)%Z → append_loop gen (range_len k) readings g = (readings, g).
Proof.
  intros Hk. unfold range_len. replace (Z.to_nat k) with 0%nat by lia. reflexivity.
Qed.

(** X4: a negative batch size, as far as it converts to a float, gives an
    empty batch: both rounded shares and the remainder are at most zero, so
    none of the three loops runs and no random number is drawn before the
    shuffle of the empty list. *)
Theorem generate_batch_negative (n : Z) (g : rng) :
  (- (2 ^ 1024 - 2 ^ 970) < n < 0)%Z →
  generate_batch n g = Ok (random_shuffle [] g) ∧
  (random_shuffle [] g).1 = [].
Proof.
  intros [Hlo Hhi]. destruct n as [|m|m]; try lia.
  destruct (Float64Facts.shares_le (Zpos m) ltac:(lia))
    as (Na & Np & Ha & Hp & Ha0 & Hp0 & Hsum).
  apply Float64Sign.round_mul_int_neg in Ha, Hp.
  split.
  - unfold generate_batch, Float64.lit_0_40, Float64.lit_0_35.
    rewrite Ha, Hp. cbn [mbind result_bind].
    rewrite !append_loop_zero by lia. reflexivity.
  - apply Permutation_nil_r. apply random_shuffle_perm.
Qed.

End NegativeBatch.

Lemma generate_batch_negative_witness :
  generate_batch (RS := constant_source) (-7) tt
    = Ok (random_shuffle (RandomSource := constant_source) [] tt) ∧
  (random_shuffle (RandomSource := constant_source) [] tt).1 = [].
Proof.
  apply (generate_batch_negative (RS := constant_source) (-7) tt).
  split; reflexivity.
Defined.

(** ** More on the feature functions *)

Lemma np_max_unique (l : list R) (m : R) :
  m ∈ l → Forall (λ y, y <= m)%R l → np_max l = Ok m.
Proof.
  intros Hin Hall. destruct (np_max_nonempty l) as [m' Hm'].
  { intros ->. inversion Hin. }
  rewrite Hm'. f_equal. apply np_max_spec in Hm' as [Hin' Hall'].
  rewrite Forall_forall in Hall, Hall'.
  specialize (Hall _ Hin'). specialize (Hall' _ Hin). lra.
Qed.

Lemma sum_R_le_const (c : R) (l : list R) :
  Forall (λ y, y <= c)%R l → (sum_R l <= INR (length l) * c)%R.
Proof.
  induction 1 as [|y l Hy _ IH]; [simpl; lra|].
  cbn [sum_R foldr length]. fold (sum_R l). rewrite S_INR. lra.
Qed.

Lemma np_mean_le_const (c : R) (l : list R) :
  l ≠ [] → Forall (λ y, y <= c)%R l → (np_mean l <= c)%R.
Proof.
  intros Hne Hl. unfold np_mean. pose proof (sum_R_le_const c l Hl) as Hs.
  assert (Hn : (0 < INR (length l))%R).
  { apply lt_0_INR. destruct l; [done|simpl; lia]. }
  apply (Rmult_le_reg_r (INR (length l))); [assumption|].
  unfold Rdiv. rewrite Rmult_assoc, Rinv_l by lra. lra.
Qed.

Lemma sum_R_ge_const (c : R) (l : list R) :
  Forall (λ y, c <= y)%R l → (INR (length l) * c <= sum_R l)%R.
Proof.
  induction 1 as [|y l Hy _ IH]; [simpl; lra|].
  cbn [sum_R foldr length]. fold (sum_R l). rewrite S_INR. lra.
Qed.

Lemma np_mean_ge_const (c : R) (l : list R) :
  l ≠ [] → Forall (λ y, c <= y)%R l → (c <= np_mean l)%R.
Proof.
  intros Hne Hl. unfold np_mean. pose proof (sum_R_ge_const c l Hl) as Hs.
  assert (Hn : (0 < INR (length l))%R).
  { apply lt_0_INR. destruct l; [done|simpl; lia]. }
  apply (Rmult_le_reg_r (INR (length l))); [assumption|].
  unfold Rdiv. rewrite Rmult_assoc, Rinv_l by lra. lra.
Qed.

(** The root mean square never exceeds the largest absolute sample. *)
Lemma rms_le_peak (v : list R) (m : R) :
  v ≠ [] → np_max (map Rabs v) = Ok m →
  (sqrt (np_mean (map (λ x, x ^ 2)%R v)) <= m)%R.
Proof.
  intros Hne Hm. pose proof (np_max_abs_nonneg v m Hm) as Hm0.
  apply np_max_spec in Hm as [_ Hall]. apply Forall_fmap in Hall.
  rewrite <- (sqrt_pow2 m Hm0). apply sqrt_le_1_alt.
  apply np_mean_le_const.
  - intros H. apply (f_equal length) in H. rewrite length_map in H.
    destruct v; [done|discriminate].
  - apply Forall_fmap. eapply Forall_impl; [exact Hall|].
    intros x Hx. unfold compose in *. cbv beta in *. pose proof (Rabs_pos x).
    replace (x ^ 2)%R with (Rabs x ^ 2)%R.
    + apply pow_incr. split; assumption.
    + rewrite RPow_abs. apply Rabs_pos_eq, pow2_ge_0.
Qed.

Section FeatureExtras.
Variable butter : Z → R → R → result (list R * list R).
Variable filtfilt : list R → list R → list R → result (list R).

(** X5: with the parameters of the pipeline ([fs = 50],
    [fundamental = 50.0]) the fundamental bin is the last bin of the half
    spectrum and no harmonic bin fits, so [compute_thd] returns 0.0 on every
    signal of at least two samples, and every feature dictionary carries
    [thd_percent = 0.0]. *)
Theorem thd_percent_always_zero (r : reading) (fv : features) :
  extract_features butter filtfilt r = Ok fv →
  let n_fft := next_pow2 (Z.of_nat (length (voltage r))) in
  fundamental_bin n_fft 50 50.0 = (n_fft `div` 2)%Z ∧
  (n_fft `div` 2 < 2 * (n_fft `div` 2))%Z ∧
  compute_thd (voltage r) 50 50.0 = Ok 0%R ∧
  thd_percent fv = 0%R.
Proof.
  intros Hfv n_fft. pose proof (extract_features_inv _ _ r fv Hfv) as Hlen.
  destruct (next_pow2_spec (Z.of_nat (length (voltage r))) ltac:(lia))
    as (Hn & Hn2 & Heven & Hhalf). fold n_fft in Hn, Hn2, Heven, Hhalf.
  split; [|split; [lia|split]].
  - unfold fundamental_bin.
    replace (50.0 * IZR n_fft / 50)%R with (IZR n_fft) by lra.
    rewrite round_half_even_IZR. lia.
  - apply compute_thd_default, Hlen.
  - destruct (extract_features_ok butter filtfilt r Hlen) as (m & _ & Hok).
    rewrite Hok in Hfv. injection Hfv as <-. reflexivity.
Qed.

(** X6: [extract_features] returns a feature dictionary exactly for the
    readings whose voltage array holds at least two samples, whatever the
    frequency array, the labels and the filter routines are. *)
Theorem extract_features_returns_iff (r : reading) :
  (∃ fv, extract_features butter filtfilt r = Ok fv)
  ↔ (2 ≤ length (voltage r))%nat.
Proof.
  split.
  - intros [fv Hfv]. apply (extract_features_inv _ _ r fv Hfv).
  - intros Hlen. destruct (extract_features_ok butter filtfilt r Hlen)
      as (m & _ & Hok). eexists. exact Hok.
Qed.


(** X8: bounds in whole hertz carry over from the samples to the frequency
    deviation.  For a whole number [k] and a non-empty array, if every
    sample lies within [k] Hz of 50 the deviation is at most [k], and if
    every sample lies [k] Hz or more away from 50 the deviation is at least
    [k]; so samples that are all exactly [k] Hz away give [k], and samples
    all equal to 50 give 0.0.  The product of [k] and the number of samples
    stays below 2^53, where the sum of such an array is exact in floating
    point. *)
Theorem frequency_deviation_bounded (l : list R) (k : Z) :
  l ≠ [] → (0 ≤ k)%Z → (Z.of_nat (length l) * k < 2 ^ 53)%Z →
  (Forall (λ x, Rabs (x - 50) <= IZR k)%R l →
   (compute_frequency_deviation l <= IZR k)%R) ∧
  (Forall (λ x, IZR k <= Rabs (x - 50))%R l →
   (IZR k <= compute_frequency_deviation l)%R) ∧
  (Forall (λ x, Rabs (x - 50) = IZR k)%R l →
   compute_frequency_deviation l = IZR k).
Proof.
  intros Hne Hk _.
  assert (Hne' : map (λ x, Rabs (x - 50.0))%R l ≠ []).
  { intros H. apply (f_equal length) in H. rewrite length_map in H.
    destruct l; [done|discriminate]. }
  assert (Hround : py_round (IZR k) 4 = IZR k).
  { replace (IZR k) with (IZR (k * 10000) / 10000)%R
      by (rewrite mult_IZR; field).
    apply py_round_exact. }
  assert (Hcfd : compute_frequency_deviation l
                 = py_round (np_mean (map (λ x, Rabs (x - 50.0))%R l)) 4).
  { unfold compute_frequency_deviation.
    destruct (decide (length l = 0%nat)) as [H0|]; [|reflexivity].
    destruct l; [done|discriminate]. }
  assert (Hub : Forall (λ x, Rabs (x - 50) <= IZR k)%R l →
                (compute_frequency_deviation l <= IZR k)%R).
  { intros Hl. rewrite Hcfd, <- Hround.
    apply py_round_mono, np_mean_le_const; [exact Hne'|].
    apply Forall_fmap. eapply Forall_impl; [exact Hl|].
    intros x Hx. simpl. replace (x - 50.0)%R with (x - 50)%R by lra. exact Hx. }
  assert (Hlb : Forall (λ x, IZR k <= Rabs (x - 50))%R l →
                (IZR k <= compute_frequency_deviation l)%R).
  { intros Hl. rewrite Hcfd, <- Hround.
    apply py_round_mono, np_mean_ge_const; [exact Hne'|].
    apply Forall_fmap. eapply Forall_impl; [exact Hl|].
    intros x Hx. simpl. replace (x - 50.0)%R with (x - 50)%R by lra. exact Hx. }
  split; [exact Hub|]. split; [exact Hlb|].
  intros Heq. apply Rle_antisym.
  - apply Hub. eapply Forall_impl; [exact Heq|]. intros x ->. lra.
  - apply Hlb. eapply Forall_impl; [exact Heq|]. intros x ->. lra.
Qed.

(** X9: [bandpass_filter] never raises [ValueError] or [LinAlgError],
    whatever the filter routines do, and a sampling rate of zero makes it
    raise [ZeroDivisionError] before the cutoffs are looked at. *)
Theorem bandpass_filter_never_raises_caught (signal : list R)
    (lowcut highcut fs : R) (order : Z) (e : exn) :
  bandpass_filter butter filtfilt signal lowcut highcut fs order = Raise e →
  caught e = false ∧
  (fs = 0%R → e = ZeroDivisionError).
Proof.
  unfold bandpass_filter, py_div.
  destruct (decide (0.5 * fs = 0)%R) as [Hz|Hnz]; cbn [mbind result_bind].
  - intros [= <-]. split; [reflexivity|reflexivity].
  - destruct (decide _); [discriminate|].
    intros H. split; [|intros ->; exfalso; apply Hnz; lra].
    destruct (butter order _ _) as [[b a]|e1]; cbn [mbind result_bind fst snd] in H.
    + destruct (filtfilt b a signal) as [f|e2]; [discriminate|].
      destruct (caught e2) eqn:He2; [discriminate|]. injection H as <-. exact He2.
    + destruct (caught e1) eqn:He1; [discriminate|]. injection H as <-. exact He1.
Qed.

End FeatureExtras.

(** ** The distortion measure and the amplitude *)

Lemma sum_R_scale (c : R) (l : list R) :
  sum_R (map (Rmult c) l) = (c * sum_R l)%R.
Proof.
  unfold sum_R. induction l as [|x l IH]; cbn [map foldr]; [lra|].
  rewrite IH. lra.
Qed.

Lemma imap_scale (c : R) (f : nat → R) (l : list R) :
  imap (λ j xj, xj * f j)%R (map (Rmult c) l)
  = map (Rmult c) (imap (λ j xj, xj * f j)%R l).
Proof.
  revert f. induction l as [|x l IH]; intros f; [reflexivity|].
  cbn [map imap]. f_equal; [lra|]. apply (IH (f ∘ S)).
Qed.

Lemma fft_pad_scale (c : R) (x : list R) (n : nat) :
  fft_pad (map (Rmult c) x) n = map (Rmult c) (fft_pad x n).
Proof.
  unfold fft_pad. rewrite map_app, length_map, <- fmap_take.
  f_equal. rewrite (fmap_replicate (Rmult c)). f_equal. lra.
Qed.

Lemma magnitude_scale (c : R) (x : list R) (n_fft k : Z) :
  magnitude (map (Rmult c) x) n_fft k = (Rabs c * magnitude x n_fft k)%R.
Proof.
  unfold magnitude, fft_bin. rewrite fft_pad_scale.
  rewrite !(imap_scale c (λ j, cos _)), !(imap_scale c (λ j, sin _)).
  rewrite !sum_R_scale. unfold np_abs_c. cbn [fst snd].
  rewrite <- sqrt_Rsqr_abs, <- sqrt_mult_alt by apply Rle_0_sqr.
  f_equal. unfold Rsqr. ring.
Qed.

Lemma thd_unrounded_scale (c : R) (signal : list R) (fs fundamental : R) :
  c ≠ 0%R →
  thd_unrounded (map (Rmult c) signal) fs fundamental
  = thd_unrounded signal fs fundamental.
Proof.
  intros Hc. assert (Hac : (0 < Rabs c)%R) by (apply Rabs_pos_lt; assumption).
  unfold thd_unrounded. rewrite length_map.
  set (n_fft := next_pow2 (Z.of_nat (length signal))).
  set (fund_bin := fundamental_bin n_fft fs fundamental).
  set (bins := filter (λ b, (b ≤ n_fft `div` 2)%Z)
                 (map (λ h, (h * fund_bin)%Z) [2; 3; 4; 5]%Z)).
  rewrite magnitude_scale.
  pose proof (magnitude_nonneg signal n_fft fund_bin) as Hm.
  destruct (decide (magnitude signal n_fft fund_bin <= 0)%R) as [Hz|Hpos].
  - rewrite decide_True; [reflexivity|].
    replace (magnitude signal n_fft fund_bin) with 0%R by lra. lra.
  - apply Rnot_le_lt in Hpos.
    rewrite decide_False
      by (apply Rlt_not_le, Rmult_lt_0_compat; assumption).
    assert (Hsq : map (λ b, (magnitude (map (Rmult c) signal) n_fft b ^ 2)%R) bins
                  = map (Rmult (Rabs c ^ 2))
                      (map (λ b, (magnitude signal n_fft b ^ 2)%R) bins)).
    { rewrite map_map. apply map_ext. intros b.
      rewrite magnitude_scale. ring. }
    rewrite Hsq, sum_R_scale.
    assert (Hsum : (0 <= sum_R (map (λ b, magnitude signal n_fft b ^ 2) bins))%R).
    { apply sum_R_nonneg, Forall_fmap, Forall_true. intros b. unfold compose.
      apply pow2_ge_0. }
    rewrite sqrt_mult_alt by apply pow2_ge_0.
    rewrite sqrt_pow2 by lra. field. split; lra.
Qed.

(** X22: the distortion measure does not depend on the amplitude: scaling
    every sample of a signal of at least two samples by the same factor,
    positive or negative but not zero, leaves the result of [compute_thd]
    unchanged, for every sampling rate other than zero and every
    fundamental. *)
Theorem compute_thd_scale_invariant (c : R) (signal : list R)
    (fs fundamental : R) :
  c ≠ 0%R → (2 ≤ length signal)%nat → fs ≠ 0%R →
  compute_thd (map (Rmult c) signal) fs fundamental
  = compute_thd signal fs fundamental.
Proof.
  intros Hc Hlen Hfs.
  rewrite !compute_thd_by_words by (rewrite ?length_map; assumption).
  rewrite !thd_by_words_rounds, thd_unrounded_scale by assumption.
  reflexivity.
Qed.

(** ** Features of the generated waveforms *)

Lemma py_round_inv_sqrt2 : py_round (1 / sqrt 2) 4 = (7071 / 10000)%R.
Proof. apply py_round_near. pose proof sqrt2_bounds. rewrite inv_sqrt2. lra. Qed.

Lemma sqrt2_bounds_fine : (141421 / 100000 < sqrt 2 < 141422 / 100000)%R.
Proof.
  pose proof (sqrt_sqrt 2 ltac:(lra)) as Hs. pose proof (sqrt_pos 2) as Hp.
  split; nra.
Qed.

Lemma np_max_abs_replicate (n : nat) (c : R) :
  (0 < n)%nat → np_max (map Rabs (replicate n c)) = Ok (Rabs c).
Proof.
  intros Hn. apply np_max_unique.
  - apply list_elem_of_fmap. exists c. split; [reflexivity|].
    apply elem_of_replicate. split; [reflexivity|lia].
  - apply Forall_fmap, Forall_replicate. simpl. lra.
Qed.

Lemma np_max_abs_spike (n i : nat) (c s : R) :
  (i < n)%nat → (Rabs c <= s)%R →
  np_max (map Rabs (<[i := s]> (replicate n c))) = Ok s.
Proof.
  intros Hi Hcs. assert (Hs : Rabs s = s) by (apply Rabs_pos_eq; pose proof (Rabs_pos c); lra).
  apply np_max_unique.
  - apply list_elem_of_fmap. exists s. split; [symmetry; exact Hs|].
    apply list_elem_of_lookup. exists i. apply list_lookup_insert_eq.
    rewrite length_replicate. assumption.
  - apply Forall_fmap, Forall_forall. intros x Hx. simpl.
    apply list_elem_of_lookup in Hx as [j Hj].
    destruct (decide (i = j)) as [->|Hne].
    + rewrite list_lookup_insert_eq in Hj by (rewrite length_replicate; lia).
      injection Hj as <-. lra.
    + rewrite list_lookup_insert_ne in Hj by assumption.
      apply lookup_replicate in Hj as [-> _]. assumption.
Qed.

Section WaveformFeatures.
Variable butter : Z → R → R → result (list R * list R).
Variable filtfilt : list R → list R → list R → result (list R).

Lemma extract_features_with_peak (r : reading) (m : R) :
  (2 ≤ length (voltage r))%nat → np_max (map Rabs (voltage r)) = Ok m →
  extract_features butter filtfilt r =
    Ok {| rms_voltage := compute_rms (voltage r);
          thd_percent := 0;
          frequency_deviation_hz := compute_frequency_deviation (frequency r);
          peak_voltage := py_round m 4;
          feat_anomaly_type := anomaly_type r;
          feat_severity := severity r |}.
Proof.
  intros Hlen Hm. destruct (extract_features_ok butter filtfilt r Hlen)
    as (m' & Hm' & Hok).
  rewrite Hm in Hm'. injection Hm' as <-. exact Hok.
Qed.

Lemma extract_features_normal (r : reading) :
  voltage r = sine_wave NOMINAL_VOLTAGE →
  extract_features butter filtfilt r =
    Ok {| rms_voltage := 7071 / 10000;
          thd_percent := 0;
          frequency_deviation_hz := compute_frequency_deviation (frequency r);
          peak_voltage := 7071 / 10000;
          feat_anomaly_type := anomaly_type r;
          feat_severity := severity r |}.
Proof.
  intros Hv.
  assert (Hc : (NOMINAL_VOLTAGE * (1 / sqrt 2) = 1 / sqrt 2)%R)
    by (unfold NOMINAL_VOLTAGE; lra).
  rewrite (extract_features_with_peak r (1 / sqrt 2)).
  - rewrite Hv, compute_rms_sine_wave by (unfold NOMINAL_VOLTAGE; lra).
    replace (NOMINAL_VOLTAGE / sqrt 2)%R with (1 / sqrt 2)%R
      by (unfold NOMINAL_VOLTAGE; lra).
    rewrite py_round_inv_sqrt2. reflexivity.
  - rewrite Hv, sine_wave_length. lia.
  - rewrite Hv, sine_wave_replicate, Hc, np_max_abs_replicate by lia.
    f_equal. apply Rabs_pos_eq. pose proof inv_sqrt2_pos. lra.
Qed.

Lemma extract_features_point (r : reading) (sv : R) (si : nat) :
  voltage r = <[si := sv]> (sine_wave NOMINAL_VOLTAGE) →
  (si < 50)%nat → (1.3 <= sv <= 1.5)%R →
  extract_features butter filtfilt r =
    Ok {| rms_voltage := compute_rms (voltage r);
          thd_percent := 0;
          frequency_deviation_hz := compute_frequency_deviation (frequency r);
          peak_voltage := py_round sv 4;
          feat_anomaly_type := anomaly_type r;
          feat_severity := severity r |}.
Proof.
  intros Hv Hi Hs. apply extract_features_with_peak.
  - rewrite Hv, length_insert, sine_wave_length. lia.
  - rewrite Hv, sine_wave_replicate. apply np_max_abs_spike; [assumption|].
    pose proof sqrt2_bounds. pose proof inv_sqrt2_pos. rewrite inv_sqrt2 in *.
    unfold NOMINAL_VOLTAGE. apply Rabs_le. lra.
Qed.

Lemma extract_features_trend (r : reading) :
  voltage r = zip_with Rmult (np_linspace NOMINAL_VOLTAGE 1.2 50) base_sine →
  extract_features butter filtfilt r =
    Ok {| rms_voltage := compute_rms (voltage r);
          thd_percent := 0;
          frequency_deviation_hz := compute_frequency_deviation (frequency r);
          peak_voltage := 8485 / 10000;
          feat_anomaly_type := anomaly_type r;
          feat_severity := severity r |}.
Proof.
  intros Hv.
  assert (Hlen : length (voltage r) = 50%nat).
  { rewrite Hv, length_zip_with, base_sine_length. unfold np_linspace.
    rewrite length_map, length_seq. reflexivity. }
  pose proof sqrt2_bounds_fine as Hs2.
  assert (Hinv : (0 < / sqrt 2)%R) by (apply Rinv_0_lt_compat; lra).
  rewrite (extract_features_with_peak r (1.2 / sqrt 2)).
  - do 2 f_equal. apply py_round_near.
    replace (1.2 / sqrt 2)%R with (1.2 * (1 / sqrt 2))%R by (unfold Rdiv; lra).
    rewrite inv_sqrt2. lra.
  - lia.
  - apply np_max_unique.
    + apply list_elem_of_fmap. exists (1.2 / sqrt 2)%R. split.
      * symmetry. apply Rabs_pos_eq. unfold Rdiv. apply Rmult_le_pos; lra.
      * apply list_elem_of_lookup. exists 49%nat. rewrite Hv.
        rewrite trend_voltage_lookup by lia. f_equal.
        replace (INR 49) with 49%R by (simpl; lra). unfold Rdiv. lra.
    + apply Forall_fmap, Forall_forall. intros x Hx. simpl.
      apply list_elem_of_lookup in Hx as [k Hk].
      assert (Hk50 : (k < 50)%nat) by (rewrite <- Hlen; eapply lookup_lt_Some; eauto).
      rewrite Hv, trend_voltage_lookup in Hk by assumption. injection Hk as <-.
      assert (Hk0 : (0 <= INR k)%R) by apply pos_INR.
      assert (Hk49 : (INR k <= 49)%R).
      { replace 49%R with (INR 49) by (simpl; lra). apply le_INR. lia. }
      unfold Rdiv. rewrite Rabs_pos_eq.
      * apply Rmult_le_compat_r; lra.
      * apply Rmult_le_pos; lra.
Qed.

End WaveformFeatures.

Section WaveformExtras.
Variable butter : Z → R → R → result (list R * list R).
Variable filtfilt : list R → list R → list R → result (list R).

(** X17: the features of the three waveforms.  Every reading the
    generators build has a feature dictionary, with [thd_percent = 0.0]; a
    normal reading has [rms_voltage = peak_voltage = 0.7071]; the peak of a
    point anomaly is its spike rounded to four decimals, between 1.3 and
    1.5; the peak of a trend anomaly is 0.8485, the last sample of the
    ramp. *)
Theorem generated_reading_features (r : reading) :
  generated r →
  ∃ fv : features,
    extract_features butter filtfilt r = Ok fv ∧
    thd_percent fv = 0%R ∧
    frequency_deviation_hz fv = compute_frequency_deviation (frequency r) ∧
    (anomaly_type r = "none" →
     rms_voltage fv = (7071 / 10000)%R ∧ peak_voltage fv = (7071 / 10000)%R) ∧
    (anomaly_type r = "point" →
     (1.3 <= peak_voltage fv <= 1.5)%R ∧
     ∃ i : nat, (i < 50)%nat ∧
       option_map (λ x, py_round x 4) (voltage r !! i) = Some (peak_voltage fv)) ∧
    (anomaly_type r = "trend" → peak_voltage fv = (8485 / 10000)%R).
Proof.
  intros [_ [(Ht & Hs & Hv)|[(Ht & sv & si & Hr & Hi & Hv & Hs)|(Ht & Hs & Hv)]]].
  - eexists. split; [apply extract_features_normal; assumption|].
    cbn [thd_percent frequency_deviation_hz rms_voltage peak_voltage].
    rewrite Ht. split_and!; try reflexivity; try discriminate. auto.
  - eexists. split; [eapply extract_features_point; eassumption|].
    cbn [thd_percent frequency_deviation_hz rms_voltage peak_voltage].
    rewrite Ht. split_and!; try reflexivity; try discriminate.
    intros _. split.
    + pose proof (py_round_mono 1.3 sv ltac:(lra)) as Hlo.
      pose proof (py_round_mono sv 1.5 ltac:(lra)) as Hhi.
      replace 1.3%R with (IZR 13000 / 10000)%R in Hlo by lra.
      replace 1.5%R with (IZR 15000 / 10000)%R in Hhi by lra.
      rewrite py_round_exact in Hlo, Hhi. lra.
    + exists si. split; [assumption|]. rewrite Hv.
      rewrite list_lookup_insert_eq by (rewrite sine_wave_length; assumption).
      reflexivity.
  - eexists. split; [apply extract_features_trend; assumption|].
    cbn [thd_percent frequency_deviation_hz rms_voltage peak_voltage].
    rewrite Ht. split_and!; try reflexivity; try discriminate.
Qed.

End WaveformExtras.

Lemma generated_reading_features_witness :
  let r := (generate_trend_anomaly (RS := constant_source) tt).1 in
  generated r ∧
  ∃ fv : features,
    extract_features failing_butter failing_filtfilt r = Ok fv ∧
    thd_percent fv = 0%R ∧ peak_voltage fv = (8485 / 10000)%R.
Proof.
  cbv zeta.
  pose proof (generate_trend_anomaly_generated (RS := constant_source) tt) as Hg.
  split; [exact Hg|].
  destruct (generated_reading_features failing_butter failing_filtfilt _ Hg)
    as (fv & Hfv & Hthd & _ & _ & _ & Htrend).
  exists fv. split; [exact Hfv|]. split; [exact Hthd|].
  apply Htrend. reflexivity.
Defined.

(** ** The trace monad *)

Lemma io_bind_ret {A B} (a : A) (f : A → io B) : mret a ≫= f = f a.
Proof. unfold mret, io_ret, mbind, io_bind. destruct (f a). reflexivity. Qed.

Lemma lift_ok_bind {A B} (a : A) (f : A → io B) : lift (Ok a) ≫= f = f a.
Proof. apply io_bind_ret. Qed.

Lemma print_bind {B} (l : line) (f : unit → io B) :
  print l ≫= f = IO (Printed l :: effects (f tt)) (outcome (f tt)).
Proof. unfold print, mbind, io_bind. destruct (f tt). reflexivity. Qed.

Lemma io_bind_IO {A B} (l : list effect) (a : A) (f : A → io B) :
  IO l (Returns a) ≫= f = IO (l ++ effects (f a)) (outcome (f a)).
Proof. unfold mbind, io_bind. destruct (f a). reflexivity. Qed.

(** ** The mock agents *)

Lemma mock_score_features (fv : features) :
  ∃ t, mock_score_trust (features_dict fv) = Ok t ∧
       t !! "trust_score" = Some (VNum
         (if decide (feat_anomaly_type fv = "point" ∧ feat_severity fv = "high")
          then 0.15
          else if decide (feat_anomaly_type fv = "point"
                          ∧ feat_severity fv = "medium") then 0.35
          else if decide (feat_anomaly_type fv = "trend") then 0.50
          else if decide (thd_percent fv > 5.0 ∨ frequency_deviation_hz fv > 0.05
                          ∨ rms_voltage fv > 0.72 ∨ peak_voltage fv > 0.73)
          then 0.55 else 0.95)%R).
Proof.
  unfold mock_score_trust.
  change (dict_get (features_dict fv) "anomaly_type" (VStr "none"))
    with (VStr (feat_anomaly_type fv)).
  change (dict_get (features_dict fv) "severity" (VStr "none"))
    with (VStr (feat_severity fv)).
  change (dict_get (features_dict fv) "peak_voltage" (VNum 0.0))
    with (VNum (peak_voltage fv)).
  change (dict_get (features_dict fv) "thd_percent" (VNum 0.0))
    with (VNum (thd_percent fv)).
  change (dict_get (features_dict fv) "frequency_deviation_hz" (VNum 0.0))
    with (VNum (frequency_deviation_hz fv)).
  change (dict_get (features_dict fv) "rms_voltage" (VNum 0.0))
    with (VNum (rms_voltage fv)).
  cbv zeta. cbn [py_eq_str].
  destruct (decide (feat_anomaly_type fv = "point" ∧ feat_severity fv = "high"))
    as [[Ha Hs]|Hph].
  { rewrite !bool_decide_eq_true_2 by assumption. cbn [andb].
    eexists. split; reflexivity. }
  assert (Hph' : bool_decide (feat_anomaly_type fv = "point")
                 && bool_decide (feat_severity fv = "high") = false).
  { apply andb_false_iff. rewrite !bool_decide_eq_false. tauto. }
  rewrite Hph'. clear Hph'.
  destruct (decide (feat_anomaly_type fv = "point" ∧ feat_severity fv = "medium"))
    as [[Ha Hs]|Hpm].
  { rewrite !bool_decide_eq_true_2 by assumption. cbn [andb].
    eexists. split; reflexivity. }
  assert (Hpm' : bool_decide (feat_anomaly_type fv = "point")
                 && bool_decide (feat_severity fv = "medium") = false).
  { apply andb_false_iff. rewrite !bool_decide_eq_false. tauto. }
  rewrite Hpm'.
  destruct (decide (feat_anomaly_type fv = "trend")) as [Ht|Ht].
  { rewrite bool_decide_eq_true_2 by assumption. eexists. split; reflexivity. }
  rewrite bool_decide_eq_false_2 by assumption.
  unfold py_or, py_gt. cbn [py_number mbind result_bind].
  destruct (decide (thd_percent fv > 5.0 ∨ frequency_deviation_hz fv > 0.05
                    ∨ rms_voltage fv > 0.72 ∨ peak_voltage fv > 0.73)%R) as [Hb|Hb].
  - clear Hpm'. repeat (case_bool_decide; cbn [mbind result_bind]);
      try (eexists; split; reflexivity). exfalso. tauto.
  - rewrite !bool_decide_eq_false_2 by tauto. cbn [mbind result_bind].
    eexists. split; reflexivity.
Qed.

Lemma mock_decide_score (t : gmap string pyval) (s : R) :
  t !! "trust_score" = Some (VNum s) →
  ∃ m, mock_decide_mitigation t = Ok m ∧
       m !! "decision" = Some (VStr
         (if decide (s >= 0.70)%R then "ACCEPT"
          else if decide (s >= 0.30)%R then "QUARANTINE" else "REJECT")).
Proof.
  intros Ht. unfold mock_decide_mitigation, dict_get. rewrite Ht.
  cbn [default from_option]. unfold py_ge, Datatypes.id.
  cbn [py_number mbind result_bind].
  destruct (decide (s >= 0.70)%R).
  { rewrite bool_decide_eq_true_2 by assumption. eexists. split; reflexivity. }
  rewrite bool_decide_eq_false_2 by assumption. cbn [mbind result_bind].
  destruct (decide (s >= 0.30)%R).
  { rewrite bool_decide_eq_true_2 by assumption. eexists. split; reflexivity. }
  rewrite bool_decide_eq_false_2 by assumption. eexists. split; reflexivity.
Qed.

(** The two mock agents one after the other, on the features of a reading
    the generators build. *)
Lemma mock_agents_generated (butter : Z → R → R → result (list R * list R))
    (filtfilt : list R → list R → list R → result (list R)) (r : reading) :
  generated r →
  ∃ fv t m,
    extract_features butter filtfilt r = Ok fv ∧
    feat_anomaly_type fv = anomaly_type r ∧
    mock_score_trust (features_dict fv) = Ok t ∧
    mock_decide_mitigation t = Ok m ∧
    t !! "trust_score" = Some (VNum (verdict r).1) ∧
    m !! "decision" = Some (VStr (verdict r).2).
Proof.
  intros [_ Hgen].
  assert (Hfv : ∃ fv, extract_features butter filtfilt r = Ok fv ∧
            feat_anomaly_type fv = anomaly_type r ∧
            feat_severity fv = severity r ∧
            thd_percent fv = 0%R ∧
            frequency_deviation_hz fv
              = compute_frequency_deviation (frequency r) ∧
            (anomaly_type r = "none" →
             rms_voltage fv = (7071 / 10000)%R ∧
             peak_voltage fv = (7071 / 10000)%R)).
  { destruct Hgen as [(Ht & Hs & Hv)|[(Ht & sv & si & Hr & Hi & Hv & Hs)
                                     |(Ht & Hs & Hv)]].
    - eexists. split; [apply extract_features_normal; assumption|].
      cbn [feat_anomaly_type feat_severity thd_percent frequency_deviation_hz
           rms_voltage peak_voltage]. auto 10.
    - eexists. split; [eapply extract_features_point; eassumption|].
      cbn [feat_anomaly_type feat_severity thd_percent frequency_deviation_hz
           rms_voltage peak_voltage].
      rewrite Ht. split_and!; try reflexivity. discriminate.
    - eexists. split; [apply extract_features_trend; assumption|].
      cbn [feat_anomaly_type feat_severity thd_percent frequency_deviation_hz
           rms_voltage peak_voltage].
      rewrite Ht. split_and!; try reflexivity. discriminate. }
  destruct Hfv as (fv & Hex & Ha & Hs & Hthd & Hfd & Hnone).
  destruct (mock_score_features fv) as (t & Ht & Hscore).
  destruct (mock_decide_score t _ Hscore) as (m & Hm & Hdec).
  exists fv, t, m. split; [assumption|]. split; [assumption|].
  split; [assumption|]. split; [assumption|].
  rewrite Hscore, Hdec. clear Hscore Hdec Ht Hm Hex.
  rewrite Ha, Hs, Hthd, Hfd. unfold verdict.
  destruct (decide (anomaly_type r = "point" ∧ severity r = "high")).
  { rewrite decide_False by lra. rewrite decide_False by lra. auto. }
  destruct (decide (anomaly_type r = "point" ∧ severity r = "medium")).
  { rewrite decide_False by lra. rewrite decide_True by lra. auto. }
  destruct (decide (anomaly_type r = "trend")).
  { rewrite decide_False by lra. rewrite decide_True by lra. auto. }
  assert (Hn : anomaly_type r = "none").
  { destruct Hgen as [(Ht & _)|[(Ht & sv & si & _ & _ & _ & Hsev)|(Ht & _)]];
      [assumption| |contradiction].
    exfalso. destruct (decide (sv > 1.4)%R); tauto. }
  destruct (Hnone Hn) as [-> ->].
  destruct (decide (compute_frequency_deviation (frequency r) > 0.05)%R).
  - rewrite (decide_True (P := (_ ∨ _)%R)) by tauto.
    rewrite decide_False by lra. rewrite decide_True by lra. auto.
  - rewrite (decide_False (P := (_ ∨ _)%R)) by lra.
    rewrite decide_True by lra. auto.
Qed.

(** ** main.py: the loop and the summary *)

Lemma list_count_app (s : string) (l1 l2 : list pyval) :
  list_count s (l1 ++ l2) = (list_count s l1 + list_count s l2)%nat.
Proof. unfold list_count. rewrite filter_app, length_app. reflexivity. Qed.

Lemma list_count_labels {A} (s : string) (f : A → string) (l : list A) :
  list_count s (map (λ x, VStr (f x)) l) = length (filter (λ x, f x = s) l).
Proof.
  unfold list_count. induction l as [|x l IH]; [reflexivity|].
  cbn [map]. rewrite !filter_cons. cbn [py_eq_str].
  destruct (decide (f x = s)) as [Hx|Hx].
  - rewrite decide_True by (apply bool_decide_eq_true_2; assumption).
    cbn [length]. rewrite IH. reflexivity.
  - rewrite decide_False
      by (rewrite bool_decide_eq_false_2 by assumption; discriminate).
    exact IH.
Qed.

Section PipelineRun.
Context `{RS : RandomSource}.
Variable butter : Z → R → R → result (list R * list R).
Variable filtfilt : list R → list R → list R → result (list R).
Variable score_trust : gmap string pyval → io (gmap string pyval).
Variable decide_mitigation : gmap string pyval → io (gmap string pyval).

Lemma pipeline_step_generated (total i : nat) (r : reading)
    (decisions anomaly_types : list pyval) :
  generated r →
  pipeline_step butter filtfilt score_trust decide_mitigation total
    (decisions, anomaly_types) (i, r)
  = IO [Printed (reading_line i r)]
       (Returns (decisions ++ [VStr (verdict r).2],
                 anomaly_types ++ [VStr (anomaly_type r)])).
Proof.
  intros Hgen.
  destruct (mock_agents_generated butter filtfilt r Hgen)
    as (fv & t & m & Hex & Ha & Ht & Hm & Hscore & Hdec).
  unfold pipeline_step. rewrite Hex, lift_ok_bind. cbv zeta.
  unfold MOCK_MODE. cbn [negb andb].
  rewrite Ht, lift_ok_bind, Hm, lift_ok_bind.
  change (dict_get (features_dict fv) "anomaly_type" (VStr "none"))
    with (VStr (feat_anomaly_type fv)).
  unfold dict_get. rewrite Hscore, Hdec, Ha. cbn [default from_option].
  unfold Datatypes.id. cbn [format_2f].
  rewrite lift_ok_bind, print_bind, io_bind_ret. reflexivity.
Qed.

Lemma pipeline_loop_generated (total : nat) (readings : list reading) :
  ∀ (start : nat) (decisions anomaly_types : list pyval),
  Forall generated readings →
  for_each (pipeline_step butter filtfilt score_trust decide_mitigation total)
    (decisions, anomaly_types) (zip (seq start (length readings)) readings)
  = IO (map Printed
          (zip_with reading_line (seq start (length readings)) readings))
       (Returns (decisions ++ map (λ r, VStr (verdict r).2) readings,
                 anomaly_types ++ map (λ r, VStr (anomaly_type r)) readings)).
Proof.
  induction readings as [|r readings IH]; intros start ds ats Hall.
  - cbn. rewrite !app_nil_r. reflexivity.
  - apply Forall_cons in Hall as [Hr Hall].
    cbn [length seq zip zip_with for_each map].
    rewrite pipeline_step_generated by assumption.
    rewrite io_bind_IO, IH by assumption.
    cbn [effects outcome app]. rewrite <- !app_assoc. reflexivity.
Qed.

(** What [run_pipeline] prints and returns, given the batch. *)
Lemma run_pipeline_trace (n : Z) (g : rng) (readings : list reading) (g' : rng) :
  generate_batch n g = Ok (readings, g') →
  run_pipeline butter filtfilt score_trust decide_mitigation n g
  = IO (map Printed
          ([MockWarning]
           ++ zip_with reading_line (seq 1 (length readings)) readings
           ++ [BlankLine; SummaryHeader; TotalLine (length readings);
               DecisionsLine
                 (length (filter (λ r, (verdict r).2 = "ACCEPT") readings))
                 (length (filter (λ r, (verdict r).2 = "QUARANTINE") readings))
                 (length (filter (λ r, (verdict r).2 = "REJECT") readings));
               AnomalyLine "none" (count_type "none" readings);
               AnomalyLine "point" (count_type "point" readings);
               AnomalyLine "trend" (count_type "trend" readings)]))
       (Returns tt).
Proof.
  intros Hbatch.
  assert (Hall : Forall generated readings).
  { apply (generate_batch_Forall generated n g readings g');
      auto using generate_normal_signal_generated,
        generate_point_anomaly_generated, generate_trend_anomaly_generated. }
  unfold run_pipeline, MOCK_MODE. rewrite Hbatch. cbn [fst lift].
  rewrite io_bind_ret, pipeline_loop_generated by assumption.
  cbn [mbind io_bind mret io_ret print for_each app].
  rewrite !(list_count_labels _ (λ r, (verdict r).2)).
  rewrite !(list_count_labels _ anomaly_type).
  cbn [fst map]. rewrite map_app. reflexivity.
Qed.

End PipelineRun.

Lemma filter_length_impl {A} (P Q : A → Prop) `{∀ x, Decision (P x)}
    `{∀ x, Decision (Q x)} (l : list A) :
  Forall (λ x, P x → Q x) l → (length (filter P l) ≤ length (filter Q l))%nat.
Proof.
  induction 1 as [|x l Hx _ IH]; [reflexivity|].
  rewrite !filter_cons. destruct (decide (P x)).
  - rewrite decide_True by auto. cbn [length]. lia.
  - destruct (decide (Q x)); cbn [length]; lia.
Qed.

Lemma filter_length_three {A} (P Q S : A → Prop) `{∀ x, Decision (P x)}
    `{∀ x, Decision (Q x)} `{∀ x, Decision (S x)} (l : list A) :
  Forall (λ x, (P x ∧ ¬ Q x ∧ ¬ S x) ∨ (¬ P x ∧ Q x ∧ ¬ S x)
               ∨ (¬ P x ∧ ¬ Q x ∧ S x)) l →
  (length (filter P l) + length (filter Q l) + length (filter S l)
   = length l)%nat.
Proof.
  induction 1 as [|x l Hx _ IH]; [reflexivity|].
  rewrite !filter_cons.
  destruct (decide (P x)), (decide (Q x)), (decide (S x)); cbn [length];
    try lia; exfalso; tauto.
Qed.

(** The labels and the verdict of a reading the generators build. *)
Lemma verdict_generated (r : reading) :
  generated r →
  (anomaly_type r = "none" ∧ severity r = "none" ∧
   ((compute_frequency_deviation (frequency r) <= 0.05)%R ∧
    verdict r = (0.95, "ACCEPT")%R
    ∨ (compute_frequency_deviation (frequency r) > 0.05)%R ∧
      verdict r = (0.55, "QUARANTINE")%R))
  ∨ (anomaly_type r = "point" ∧ severity r = "high" ∧
     verdict r = (0.15, "REJECT")%R)
  ∨ (anomaly_type r = "point" ∧ severity r = "medium" ∧
     verdict r = (0.35, "QUARANTINE")%R)
  ∨ (anomaly_type r = "trend" ∧ severity r = "medium" ∧
     verdict r = (0.50, "QUARANTINE")%R).
Proof.
  intros [_ [(Ht & Hs & _)|[(Ht & sv & si & _ & _ & _ & Hs)|(Ht & Hs & _)]]];
    unfold verdict; rewrite Ht, Hs.
  - left. split; [reflexivity|]. split; [reflexivity|].
    rewrite !decide_False by (intros [? ?]; discriminate).
    rewrite decide_False by discriminate.
    destruct (decide (compute_frequency_deviation (frequency r) > 0.05)%R);
      [right|left]; split; (reflexivity || lra).
  - destruct (decide (sv > 1.4)%R).
    + right. left. rewrite decide_True by auto. auto.
    + right. right. left. rewrite decide_False by (intros [? ?]; discriminate).
      rewrite decide_True by auto. auto.
  - right. right. right.
    rewrite !(decide_False (P := (_ ∧ _))) by (intros [? ?]; discriminate).
    rewrite decide_True by reflexivity. auto.
Qed.

Section BatchCounts.
Context `{RS : RandomSource}.

(** The size of a batch and of its three parts, for the sizes that convert
    to a float. *)
Lemma generate_batch_counts (n : Z) (g : rng) :
  (0 ≤ n < 2 ^ 1024 - 2 ^ 970)%Z →
  ∃ (n_normal n_point : Z) (readings : list reading) (g' : rng),
    Float64.round_mul_int Float64.lit_0_40 n = Ok n_normal ∧
    Float64.round_mul_int Float64.lit_0_35 n = Ok n_point ∧
    (0 ≤ n_normal)%Z ∧ (0 ≤ n_point)%Z ∧ (n_normal + n_point ≤ n)%Z ∧
    generate_batch n g = Ok (readings, g') ∧
    length readings = Z.to_nat n ∧
    count_type "none" readings = Z.to_nat n_normal ∧
    count_type "point" readings = Z.to_nat n_point ∧
    count_type "trend" readings = Z.to_nat (n - n_normal - n_point).
Proof.
  intros Hn.
  destruct (Float64Facts.shares_le n Hn)
    as (n_normal & n_point & Ha & Hp & Ha0 & Hp0 & Hsum).
  destruct (generate_batch_shape n n_normal n_point g Ha Hp)
    as (l1 & l2 & l3 & g3 & Hb & Hl1 & Hl2 & Hl3 & H1 & H2 & H3).
  pose proof (random_shuffle_perm (l1 ++ l2 ++ l3) g3) as Hperm.
  destruct (random_shuffle (l1 ++ l2 ++ l3) g3) as [readings g'].
  simpl in Hperm.
  apply Forall_fst in H1, H2, H3.
  exists n_normal, n_point, readings, g'.
  split; [assumption|]. split; [assumption|]. split; [assumption|].
  split; [assumption|]. split; [assumption|]. split; [assumption|].
  split; [|split; [|split]].
  - rewrite (Permutation_length Hperm), !length_app. lia.
  - rewrite (count_type_perm _ _ _ Hperm), !count_type_app.
    rewrite (count_type_same _ _ H1).
    rewrite (count_type_other "none" "point" l2),
      (count_type_other "none" "trend" l3) by (assumption || discriminate).
    lia.
  - rewrite (count_type_perm _ _ _ Hperm), !count_type_app.
    rewrite (count_type_same _ _ H2).
    rewrite (count_type_other "point" "none" l1),
      (count_type_other "point" "trend" l3) by (assumption || discriminate).
    lia.
  - rewrite (count_type_perm _ _ _ Hperm), !count_type_app.
    rewrite (count_type_same _ _ H3).
    rewrite (count_type_other "trend" "none" l1),
      (count_type_other "trend" "point" l2) by (assumption || discriminate).
    lia.
Qed.

Lemma generate_batch_generated (n : Z) (g : rng) (readings : list reading)
    (g' : rng) :
  generate_batch n g = Ok (readings, g') → Forall generated readings.
Proof.
  apply generate_batch_Forall;
    auto using generate_normal_signal_generated,
      generate_point_anomaly_generated, generate_trend_anomaly_generated.
Qed.

End BatchCounts.

(** ** main.py: what the mock pipeline decides *)

(** X10: on a dictionary of [extract_features] the two mock agents never
    raise and end in one of the three decisions: REJECT exactly for a point
    anomaly of high severity; ACCEPT exactly when the reading is neither a
    point anomaly of high or medium severity nor a trend anomaly and none of
    the four features exceeds its bound (5.0, 0.05, 0.72, 0.73); QUARANTINE
    in every other case. *)
Theorem mock_decision_table (fv : features) :
  ∃ (t m : gmap string pyval) (decision : string),
    mock_score_trust (features_dict fv) = Ok t ∧
    mock_decide_mitigation t = Ok m ∧
    m !! "decision" = Some (VStr decision) ∧
    (decision = "REJECT" ↔
       feat_anomaly_type fv = "point" ∧ feat_severity fv = "high") ∧
    (decision = "ACCEPT" ↔
       ¬ (feat_anomaly_type fv = "point" ∧
          (feat_severity fv = "high" ∨ feat_severity fv = "medium")) ∧
       feat_anomaly_type fv ≠ "trend" ∧
       (thd_percent fv <= 5.0)%R ∧ (frequency_deviation_hz fv <= 0.05)%R ∧
       (rms_voltage fv <= 0.72)%R ∧ (peak_voltage fv <= 0.73)%R) ∧
    (decision = "ACCEPT" ∨ decision = "QUARANTINE" ∨ decision = "REJECT").
Proof.
  destruct (mock_score_features fv) as (t & Ht & Hscore).
  destruct (mock_decide_score t _ Hscore) as (m & Hm & Hdec).
  exists t, m. eexists. split; [exact Ht|]. split; [exact Hm|].
  split; [exact Hdec|]. clear Ht Hm Hscore Hdec.
  destruct (decide (feat_anomaly_type fv = "point" ∧ feat_severity fv = "high"))
    as [[Ha Hs]|Hph].
  { rewrite decide_False by lra. rewrite decide_False by lra.
    split; [tauto|]. split; [|auto]. split; [discriminate|tauto]. }
  destruct (decide (feat_anomaly_type fv = "point" ∧ feat_severity fv = "medium"))
    as [[Ha Hs]|Hpm].
  { rewrite decide_False by lra. rewrite decide_True by lra.
    split; [split; [discriminate|tauto]|].
    split; [|auto]. split; [discriminate|tauto]. }
  destruct (decide (feat_anomaly_type fv = "trend")) as [Htr|Htr].
  { rewrite decide_False by lra. rewrite decide_True by lra.
    split; [split; [discriminate|tauto]|].
    split; [|auto]. split; [discriminate|tauto]. }
  destruct (decide (thd_percent fv > 5.0 ∨ frequency_deviation_hz fv > 0.05
                    ∨ rms_voltage fv > 0.72 ∨ peak_voltage fv > 0.73)%R)
    as [Hb|Hb].
  { rewrite decide_False by lra. rewrite decide_True by lra.
    split; [split; [discriminate|tauto]|].
    split; [|auto]. split; [discriminate|].
    intros (_ & _ & H1 & H2 & H3 & H4). exfalso. lra. }
  rewrite decide_True by lra.
  split; [split; [discriminate|tauto]|]. split; [|auto].
  split; [|reflexivity]. intros _.
  split; [tauto|]. split; [assumption|]. repeat split; lra.
Qed.

Section PipelineExtras.
Context `{RS : RandomSource}.
Variable butter : Z → R → R → result (list R * list R).
Variable filtfilt : list R → list R → list R → result (list R).
Variable score_trust : gmap string pyval → io (gmap string pyval).
Variable decide_mitigation : gmap string pyval → io (gmap string pyval).

(** X11: one turn of the loop of [run_pipeline] on a reading the generators
    build never raises, prints one line and appends one decision and one
    anomaly type.  A normal reading is accepted with trust 0.95 when the
    rounded deviation of its frequency array is at most 0.05 and quarantined
    with trust 0.55 otherwise; a point anomaly is rejected with trust 0.15
    when its severity is high and quarantined with trust 0.35 when it is
    medium; a trend anomaly is quarantined with trust 0.50.  The voltage
    features never change the decision. *)
Theorem pipeline_step_verdict (total i : nat) (r : reading)
    (decisions anomaly_types : list pyval) :
  generated r →
  pipeline_step butter filtfilt score_trust decide_mitigation total
    (decisions, anomaly_types) (i, r)
  = IO [Printed (ReadingLine i (VStr (anomaly_type r)) (verdict r).1
                   (VStr (verdict r).2))]
       (Returns (decisions ++ [VStr (verdict r).2],
                 anomaly_types ++ [VStr (anomaly_type r)])) ∧
  ((anomaly_type r = "none" ∧ severity r = "none" ∧
    ((compute_frequency_deviation (frequency r) <= 0.05)%R ∧
     verdict r = (0.95, "ACCEPT")%R
     ∨ (compute_frequency_deviation (frequency r) > 0.05)%R ∧
       verdict r = (0.55, "QUARANTINE")%R))
   ∨ (anomaly_type r = "point" ∧ severity r = "high" ∧
      verdict r = (0.15, "REJECT")%R)
   ∨ (anomaly_type r = "point" ∧ severity r = "medium" ∧
      verdict r = (0.35, "QUARANTINE")%R)
   ∨ (anomaly_type r = "trend" ∧ severity r = "medium" ∧
      verdict r = (0.50, "QUARANTINE")%R)).
Proof.
  intros Hgen. split.
  - apply pipeline_step_generated. assumption.
  - apply verdict_generated. assumption.
Qed.

(** X12: for a batch size [n] with [0 <= n < 2^1024 - 2^970], [run_pipeline]
    returns normally whatever the random draws are.  It prints the mock-mode
    warning, one line for each of the [n] readings, numbered from 1, and the
    summary: the total [n], three decision counts that add up to [n], and
    the anomaly counts [round(0.40 n)], [round(0.35 n)] and the rest.  No
    more readings are rejected than there are point anomalies, no more
    accepted than there are normal readings, and at least the trend
    anomalies are quarantined.  It never pauses and never asks the two
    agents of [agents/]. *)
Theorem run_pipeline_summary (n : Z) (g : rng) :
  (0 ≤ n < 2 ^ 1024 - 2 ^ 970)%Z →
  ∃ (lines : list line) (accept quarantine reject : nat)
    (n_normal n_point n_trend : nat),
    run_pipeline butter filtfilt score_trust decide_mitigation n g
    = IO (map Printed
            ([MockWarning] ++ lines
             ++ [BlankLine; SummaryHeader; TotalLine (Z.to_nat n);
                 DecisionsLine accept quarantine reject;
                 AnomalyLine "none" n_normal;
                 AnomalyLine "point" n_point;
                 AnomalyLine "trend" n_trend]))
         (Returns tt) ∧
    length lines = Z.to_nat n ∧
    (∀ (i : nat) (l : line), lines !! i = Some l →
       ∃ (anomaly : pyval) (trust : R) (decision : pyval),
         l = ReadingLine (S i) anomaly trust decision) ∧
    (accept + quarantine + reject = Z.to_nat n)%nat ∧
    (n_normal + n_point + n_trend = Z.to_nat n)%nat ∧
    Float64.round_mul_int Float64.lit_0_40 n = Ok (Z.of_nat n_normal) ∧
    Float64.round_mul_int Float64.lit_0_35 n = Ok (Z.of_nat n_point) ∧
    (reject ≤ n_point)%nat ∧ (accept ≤ n_normal)%nat ∧
    (n_trend ≤ quarantine)%nat.
Proof.
  intros Hn.
  destruct (generate_batch_counts n g Hn)
    as (nn & np & readings & g' & Ha & Hp & Ha0 & Hp0 & Hsum & Hb & Hlen
        & Hc0 & Hc1 & Hc2).
  pose proof (generate_batch_generated n g readings g' Hb) as Hall.
  assert (Hv : Forall (λ r,
            ((verdict r).2 = "ACCEPT" ∧ anomaly_type r = "none")
            ∨ ((verdict r).2 = "QUARANTINE")
            ∨ ((verdict r).2 = "REJECT" ∧ anomaly_type r = "point")) readings).
  { eapply Forall_impl; [exact Hall|]. intros r Hr. cbv beta.
    destruct (verdict_generated r Hr)
      as [(Ht & _ & [[_ ->]|[_ ->]])|[(Ht & _ & ->)|[(Ht & _ & ->)|(Ht & _ & ->)]]];
      cbn [snd]; auto. }
  assert (Htrend : Forall (λ r, anomaly_type r = "trend" →
                                (verdict r).2 = "QUARANTINE") readings).
  { eapply Forall_impl; [exact Hall|]. intros r Hr. cbv beta.
    destruct (verdict_generated r Hr)
      as [(Ht & _ & _)|[(Ht & _ & _)|[(Ht & _ & _)|(Ht & _ & ->)]]];
      rewrite Ht; (discriminate || reflexivity). }
  rewrite (run_pipeline_trace butter filtfilt score_trust decide_mitigation
             n g readings g' Hb).
  exists (zip_with reading_line (seq 1 (length readings)) readings).
  exists (length (filter (λ r, (verdict r).2 = "ACCEPT") readings)),
         (length (filter (λ r, (verdict r).2 = "QUARANTINE") readings)),
         (length (filter (λ r, (verdict r).2 = "REJECT") readings)).
  exists (count_type "none" readings), (count_type "point" readings),
         (count_type "trend" readings).
  split; [rewrite Hlen; reflexivity|].
  split; [rewrite length_zip_with, length_seq; lia|].
  split.
  { intros i l Hl. apply lookup_zip_with_Some in Hl as (k & r & -> & Hk & _).
    apply lookup_seq in Hk as [-> _]. unfold reading_line. eauto. }
  split.
  { rewrite <- Hlen. apply filter_length_three.
    eapply Forall_impl; [exact Hv|]. intros r. cbv beta.
    intros [[-> _]|[->|[-> _]]]; [left|right; left|right; right];
      repeat split; discriminate. }
  split; [rewrite Hc0, Hc1, Hc2; lia|].
  split; [rewrite Hc0, Z2Nat.id by assumption; assumption|].
  split; [rewrite Hc1, Z2Nat.id by assumption; assumption|].
  unfold count_type. split; [|split]; apply filter_length_impl.
  - eapply Forall_impl; [exact Hv|]. intros r. cbv beta.
    intros [[-> _]|[->|[_ Ht]]]; (discriminate || auto).
  - eapply Forall_impl; [exact Hv|]. intros r. cbv beta.
    intros [[_ Ht]|[->|[-> _]]]; (discriminate || auto).
  - exact Htrend.
Qed.

(** X13: [run_pipeline] fails only when [generate_batch] does, and then
    with the exception of [generate_batch], after the warning line alone;
    feature extraction and the mock agents never raise on a batch, whatever
    the random draws; and the run never pauses. *)
Theorem run_pipeline_outcome (n : Z) (g : rng) :
  Forall (λ e, ∃ l, e = Printed l)
    (effects (run_pipeline butter filtfilt score_trust decide_mitigation n g)) ∧
  match generate_batch n g with
  | Ok _ =>
      outcome (run_pipeline butter filtfilt score_trust decide_mitigation n g)
      = Returns tt
  | Raise e =>
      run_pipeline butter filtfilt score_trust decide_mitigation n g
      = IO [Printed MockWarning] (Raises (Builtin e))
  end.
Proof.
  destruct (generate_batch n g) as [[readings g']|e] eqn:Hb.
  - rewrite (run_pipeline_trace butter filtfilt score_trust decide_mitigation
               n g readings g' Hb).
    cbn [effects outcome]. split; [|reflexivity].
    apply Forall_fmap, Forall_true. intros l. unfold compose. eauto.
  - assert (Hrun : run_pipeline butter filtfilt score_trust decide_mitigation n g
                   = IO [Printed MockWarning] (Raises (Builtin e))).
    { unfold run_pipeline, MOCK_MODE. rewrite Hb. reflexivity. }
    rewrite Hrun. cbn [effects]. split; [repeat constructor; eauto|reflexivity].
Qed.

End PipelineExtras.

Lemma pipeline_step_verdict_witness :
  let r := (generate_trend_anomaly (RS := constant_source) tt).1 in
  generated r ∧
  pipeline_step failing_butter failing_filtfilt (λ _, raise AttributeError)
    (λ _, raise AttributeError) 10 ([], []) (1%nat, r)
  = IO [Printed (ReadingLine 1 (VStr "trend") (verdict r).1 (VStr (verdict r).2))]
       (Returns ([VStr (verdict r).2], [VStr "trend"])).
Proof.
  cbv zeta. split; [apply (generate_trend_anomaly_generated (RS := constant_source))|].
  apply (pipeline_step_verdict failing_butter failing_filtfilt
           (λ _, raise AttributeError) (λ _, raise AttributeError) 10 1
           (generate_trend_anomaly (RS := constant_source) tt).1 [] []).
  apply (generate_trend_anomaly_generated (RS := constant_source)).
Defined.

Lemma run_pipeline_summary_witness :
  (0 ≤ 10 < 2 ^ 1024 - 2 ^ 970)%Z ∧
  ∃ (lines : list line) (accept quarantine reject : nat)
    (n_normal n_point n_trend : nat),
    run_pipeline (RS := constant_source) failing_butter failing_filtfilt
      (λ _, raise AttributeError) (λ _, raise AttributeError) 10 tt
    = IO (map Printed
            ([MockWarning] ++ lines
             ++ [BlankLine; SummaryHeader; TotalLine (Z.to_nat 10);
                 DecisionsLine accept quarantine reject;
                 AnomalyLine "none" n_normal;
                 AnomalyLine "point" n_point;
                 AnomalyLine "trend" n_trend]))
         (Returns tt) ∧
    length lines = Z.to_nat 10 ∧
    (∀ (i : nat) (l : line), lines !! i = Some l →
       ∃ (anomaly : pyval) (trust : R) (decision : pyval),
         l = ReadingLine (S i) anomaly trust decision) ∧
    (accept + quarantine + reject = Z.to_nat 10)%nat ∧
    (n_normal + n_point + n_trend = Z.to_nat 10)%nat ∧
    Float64.round_mul_int Float64.lit_0_40 10 = Ok (Z.of_nat n_normal) ∧
    Float64.round_mul_int Float64.lit_0_35 10 = Ok (Z.of_nat n_point) ∧
    (reject ≤ n_point)%nat ∧ (accept ≤ n_normal)%nat ∧
    (n_trend ≤ quarantine)%nat.
Proof.
  assert (Hn : (0 ≤ 10 < 2 ^ 1024 - 2 ^ 970)%Z) by (split; [easy|reflexivity]).
  split; [exact Hn|].
  exact (run_pipeline_summary (RS := constant_source) failing_butter
           failing_filtfilt (λ _, raise AttributeError)
           (λ _, raise AttributeError) 10 tt Hn).
Defined.

(** ** evals/run_evals.py *)

Lemma py_eq_str_iff (s : string) (v : pyval) :
  py_eq (VStr s) v = true ↔ v = VStr s.
Proof.
  unfold py_eq. destruct (excluded_middle_informative _) as [He|He].
  - split; [intros _|reflexivity]. inversion He; [discriminate|reflexivity].
  - split; [discriminate|]. intros ->. destruct He. constructor.
Qed.

Lemma mock_score_trust_score (features t : gmap string pyval) :
  mock_score_trust features = Ok t →
  ∃ s : R, t !! "trust_score" = Some (VNum s).
Proof.
  unfold mock_score_trust. cbv zeta.
  destruct (_ && _); [intros [= <-]; eexists; reflexivity|].
  destruct (_ && _); [intros [= <-]; eexists; reflexivity|].
  destruct (py_eq_str _ _); [intros [= <-]; eexists; reflexivity|].
  destruct (py_or _ _) as [[]|e]; cbn [mbind result_bind];
    [intros [= <-]; eexists; reflexivity..|discriminate].
Qed.

Lemma mock_decision_three (features : gmap string pyval) (got : pyval) :
  mock_decision features = Ok got →
  ∃ d : string, got = VStr d ∧
    (d = "ACCEPT" ∨ d = "QUARANTINE" ∨ d = "REJECT").
Proof.
  unfold mock_decision.
  destruct (mock_score_trust features) as [t|e] eqn:Ht; [|discriminate].
  cbn [mbind result_bind].
  destruct (mock_score_trust_score _ _ Ht) as (s & Hs).
  destruct (mock_decide_score t s Hs) as (m & Hm & Hd).
  rewrite Hm. cbn [mbind result_bind]. unfold dict_get. rewrite Hd.
  intros [= <-]. eexists. split; [reflexivity|].
  destruct (decide (s >= 0.70)%R); [auto|].
  destruct (decide (s >= 0.30)%R); auto.
Qed.

Lemma mock_score_trust_numbers (features : gmap string pyval) :
  is_Some (py_number (dict_get features "thd_percent" (VNum 0.0))) →
  is_Some (py_number (dict_get features "frequency_deviation_hz" (VNum 0.0))) →
  is_Some (py_number (dict_get features "rms_voltage" (VNum 0.0))) →
  is_Some (py_number (dict_get features "peak_voltage" (VNum 0.0))) →
  ∃ t, mock_score_trust features = Ok t.
Proof.
  intros [a Ha] [b Hb] [c Hc] [d Hd]. unfold mock_score_trust. cbv zeta.
  destruct (_ && _); [eauto|].
  destruct (_ && _); [eauto|].
  destruct (py_eq_str _ _); [eauto|].
  unfold py_or, py_gt. rewrite Ha, Hb, Hc, Hd.
  repeat (case_bool_decide; cbn [mbind result_bind]); eauto.
Qed.

Lemma mock_decision_numbers (features : gmap string pyval) :
  is_Some (py_number (dict_get features "thd_percent" (VNum 0.0))) →
  is_Some (py_number (dict_get features "frequency_deviation_hz" (VNum 0.0))) →
  is_Some (py_number (dict_get features "rms_voltage" (VNum 0.0))) →
  is_Some (py_number (dict_get features "peak_voltage" (VNum 0.0))) →
  ∃ got, mock_decision features = Ok got.
Proof.
  intros Ha Hb Hc Hd.
  destruct (mock_score_trust_numbers features Ha Hb Hc Hd) as (t & Ht).
  destruct (mock_score_trust_score _ _ Ht) as (s & Hs).
  destruct (mock_decide_score t s Hs) as (m & Hm & _).
  unfold mock_decision. rewrite Ht. cbn [mbind result_bind]. rewrite Hm.
  cbn [mbind result_bind]. eauto.
Qed.

Lemma io_bind_returns_inv {A B} (m : io A) (f : A → io B)
    (eff : list effect) (b : B) :
  m ≫= f = IO eff (Returns b) →
  ∃ l1 a l2, m = IO l1 (Returns a) ∧ f a = IO l2 (Returns b) ∧ eff = l1 ++ l2.
Proof.
  destruct m as [l1 [a|e]]; unfold mbind, io_bind; [|discriminate].
  destruct (f a) as [l2 r] eqn:Hf. intros [= <- ->]. eauto 6.
Qed.

Section EvalsFacts.
Variable score_trust : gmap string pyval → io (gmap string pyval).
Variable decide_mitigation : gmap string pyval → io (gmap string pyval).

(** One turn of the loop on a test case with the four keys. *)
Lemma evals_step_eq (test_cases : list pyval) (passed : nat) (d features : gmap string pyval)
    (case_id description expected got : pyval) :
  d !! "id" = Some case_id → d !! "description" = Some description →
  d !! "features" = Some (VDict features) →
  d !! "expected_decision" = Some expected →
  mock_decision features = Ok got →
  evals_step score_trust decide_mitigation test_cases passed (VDict d)
  = if py_eq got expected
    then IO [Printed (PassLine case_id description expected got)]
            (Returns (passed + 1)%nat)
    else IO [Printed (FailLine case_id description expected got)]
            (Returns passed).
Proof.
  intros Hi Hd Hf He Hgot. unfold evals_step, py_item.
  rewrite Hi, Hd, Hf, He. rewrite !io_bind_ret. unfold as_dict.
  rewrite io_bind_ret. unfold MOCK_MODE. cbn [negb].
  unfold mock_decision in Hgot.
  destruct (mock_score_trust features) as [t|e]; [|discriminate].
  cbn [mbind result_bind] in Hgot. rewrite lift_ok_bind.
  destruct (mock_decide_mitigation t) as [m|e]; [|discriminate].
  cbn [mbind result_bind] in Hgot. injection Hgot as <-.
  rewrite lift_ok_bind.
  destruct (py_eq _ expected); reflexivity.
Qed.

(** A turn that returns has found the four keys and a decision. *)
Lemma evals_step_returns_inv (test_cases : list pyval) (passed passed' : nat)
    (tc : pyval) (eff : list effect) :
  evals_step score_trust decide_mitigation test_cases passed tc
    = IO eff (Returns passed') →
  ∃ (d features : gmap string pyval) (case_id description expected got : pyval),
    tc = VDict d ∧
    d !! "id" = Some case_id ∧ d !! "description" = Some description ∧
    d !! "features" = Some (VDict features) ∧
    d !! "expected_decision" = Some expected ∧
    mock_decision features = Ok got.
Proof.
  unfold evals_step. intros H.
  destruct tc as [| | | | |d]; try discriminate. unfold py_item in H.
  destruct (d !! "id") as [case_id|] eqn:Hi; [|discriminate].
  rewrite io_bind_ret in H.
  destruct (d !! "description") as [description|] eqn:Hd; [|discriminate].
  rewrite io_bind_ret in H.
  destruct (d !! "features") as [features|] eqn:Hf; [|discriminate].
  rewrite io_bind_ret in H.
  destruct (d !! "expected_decision") as [expected|] eqn:He; [|discriminate].
  rewrite io_bind_ret in H.
  destruct features as [| | | | |features]; try discriminate.
  unfold as_dict in H. rewrite io_bind_ret in H. unfold MOCK_MODE in H.
  exists d, features, case_id, description, expected.
  unfold mock_decision.
  destruct (mock_score_trust features) as [t|e]; [|discriminate].
  rewrite lift_ok_bind in H. cbn [mbind result_bind].
  destruct (mock_decide_mitigation t) as [m|e]; [|discriminate].
  cbn [mbind result_bind]. eexists. split_and!; (assumption || reflexivity).
Qed.

End EvalsFacts.

Lemma INR_ratio_bounds (p t : nat) :
  (p ≤ t)%nat → (0 < t)%nat → (0 <= 100.0 * INR p / INR t <= 100)%R.
Proof.
  intros Hpt Ht. apply le_INR in Hpt. apply lt_INR in Ht. simpl in Ht.
  pose proof (pos_INR p) as Hp. unfold Rdiv.
  assert (Hinv : (0 < / INR t)%R) by (apply Rinv_0_lt_compat; assumption).
  split.
  - apply Rmult_le_pos; [lra|lra].
  - apply (Rmult_le_reg_r (INR t)); [assumption|].
    rewrite Rmult_assoc, Rinv_l by lra. lra.
Qed.

Lemma INR_ratio_ge_80 (p t : nat) :
  (0 < t)%nat → (100.0 * INR p / INR t >= 80.0)%R ↔ (4 * t ≤ 5 * p)%nat.
Proof.
  intros Ht. pose proof (lt_INR _ _ Ht) as Ht'. simpl in Ht'.
  assert (Hinv : (0 < / INR t)%R) by (apply Rinv_0_lt_compat; assumption).
  assert (Heq : (100.0 * INR p / INR t - 80.0
                 = 20 * (5 * INR p - 4 * INR t) * / INR t)%R).
  { replace 100.0%R with 100%R by lra. replace 80.0%R with 80%R by lra.
    field. lra. }
  split.
  - intros Hge. apply INR_le. rewrite !mult_INR.
    replace (INR 4) with 4%R by (simpl; lra).
    replace (INR 5) with 5%R by (simpl; lra).
    destruct (Rle_or_lt (4 * INR t) (5 * INR p)) as [|Hlt]; [assumption|].
    exfalso.
    assert (Hneg : (0 < 20 * (4 * INR t - 5 * INR p) * / INR t)%R)
      by (apply Rmult_lt_0_compat; lra).
    lra.
  - intros Hle. apply le_INR in Hle. rewrite !mult_INR in Hle.
    replace (INR 4) with 4%R in Hle by (simpl; lra).
    replace (INR 5) with 5%R in Hle by (simpl; lra).
    assert (Hpos : (0 <= 20 * (5 * INR p - 4 * INR t) * / INR t)%R).
    { apply Rmult_le_pos; lra. }
    lra.
Qed.

Section EvalsLoop.
Variable score_trust : gmap string pyval → io (gmap string pyval).
Variable decide_mitigation : gmap string pyval → io (gmap string pyval).

(** A turn that returns prints one line, PASS when the case passes and FAIL
    when it does not, and counts the case accordingly. *)
Lemma evals_step_returns (test_cases : list pyval) (passed passed' : nat)
    (tc : pyval) (eff : list effect) :
  evals_step score_trust decide_mitigation test_cases passed tc
    = IO eff (Returns passed') →
  ∃ case_id description expected got : pyval,
    (case_passes tc = true ∧ passed' = (passed + 1)%nat ∧
     eff = [Printed (PassLine case_id description expected got)])
    ∨ (case_passes tc = false ∧ passed' = passed ∧
       eff = [Printed (FailLine case_id description expected got)]).
Proof.
  intros H.
  destruct (evals_step_returns_inv _ _ _ _ _ _ _ H)
    as (d & f & cid & desc & e & got & -> & Hi & Hd & Hf & He & Hgot).
  rewrite (evals_step_eq _ _ _ _ _ _ _ _ _ _ Hi Hd Hf He Hgot) in H.
  destruct (mock_decision_three f got Hgot) as (g & -> & _).
  exists cid, desc, e, (VStr g). unfold case_passes. rewrite Hf, He, Hgot.
  destruct (py_eq (VStr g) e) eqn:Heq.
  - apply py_eq_str_iff in Heq as ->. injection H as <- <-.
    left. rewrite bool_decide_eq_true_2 by reflexivity. auto.
  - injection H as <- <-. right. split; [|auto].
    destruct e as [| | |e'| |]; try reflexivity.
    apply bool_decide_eq_false_2. intros ->.
    assert (Ht : py_eq (VStr e') (VStr e') = true) by (apply py_eq_str_iff; reflexivity).
    congruence.
Qed.

Lemma evals_loop_returns (test_cases l : list pyval) :
  ∀ (passed passed' : nat) (eff : list effect),
  for_each (evals_step score_trust decide_mitigation test_cases) passed l
    = IO eff (Returns passed') →
  passed' = (passed + length (filter (λ tc, case_passes tc = true) l))%nat ∧
  ∃ lines : list line,
    eff = map Printed lines ∧
    Forall2 (λ ln tc, ∃ case_id description expected got : pyval,
               ln = (if case_passes tc then PassLine else FailLine)
                      case_id description expected got) lines l.
Proof.
  induction l as [|tc l IH]; intros passed passed' eff H.
  - cbn in H. injection H as <- <-. split; [cbn; lia|].
    exists []. split; [reflexivity|constructor].
  - cbn [for_each] in H.
    apply io_bind_returns_inv in H as (l1 & p1 & l2 & Hstep & Hrest & ->).
    apply evals_step_returns in Hstep
      as (cid & desc & e & got & [(Hp & -> & ->)|(Hp & -> & ->)]);
      apply IH in Hrest as (-> & lines & -> & Hlines);
      rewrite filter_cons, Hp.
    + rewrite decide_True by reflexivity. split; [cbn [length]; lia|].
      exists (PassLine cid desc e got :: lines). split; [reflexivity|].
      constructor; [|assumption]. rewrite Hp. eauto.
    + rewrite decide_False by discriminate. split; [lia|].
      exists (FailLine cid desc e got :: lines). split; [reflexivity|].
      constructor; [|assumption]. rewrite Hp. eauto.
Qed.

Lemma evals_step_well_formed (test_cases : list pyval) (passed : nat)
    (tc : pyval) :
  well_formed_case tc →
  ∃ eff passed',
    evals_step score_trust decide_mitigation test_cases passed tc
    = IO eff (Returns passed').
Proof.
  intros (d & f & -> & [cid Hi] & [desc Hd] & Hf & [e He] & Ha & Hb & Hc & Hdd).
  destruct (mock_decision_numbers f Ha Hb Hc Hdd) as (got & Hgot).
  rewrite (evals_step_eq _ _ _ _ _ _ _ _ _ _ Hi Hd Hf He Hgot).
  destruct (py_eq got e); eauto.
Qed.

Lemma evals_loop_well_formed (test_cases l : list pyval) :
  Forall well_formed_case l →
  ∀ passed, ∃ eff passed',
    for_each (evals_step score_trust decide_mitigation test_cases) passed l
    = IO eff (Returns passed').
Proof.
  induction 1 as [|tc l Htc _ IH]; intros passed.
  - cbn. eauto.
  - destruct (evals_step_well_formed test_cases passed tc Htc) as (e1 & p1 & H1).
    destruct (IH p1) as (e2 & p2 & H2).
    cbn [for_each]. rewrite H1, io_bind_IO, H2. cbn [effects outcome]. eauto.
Qed.

End EvalsLoop.

Lemma for_each_app_raises {A B} (f : A → B → io A) (good rest : list B)
    (b : B) (e : error) :
  ∀ (a a' : A) (eff eff' : list effect),
  for_each f a good = IO eff (Returns a') →
  f a' b = IO eff' (Raises e) →
  for_each f a (good ++ b :: rest) = IO (eff ++ eff') (Raises e).
Proof.
  induction good as [|x good IH]; intros a a' eff eff' Hgood Hb.
  - cbn in Hgood. injection Hgood as <- <-. cbn [app for_each].
    rewrite Hb. reflexivity.
  - cbn [for_each] in Hgood.
    apply io_bind_returns_inv in Hgood as (l1 & a1 & l2 & Hx & Hrest & ->).
    cbn [app for_each]. rewrite Hx, io_bind_IO.
    rewrite (IH a1 a' l2 eff' Hrest Hb). cbn [effects outcome].
    rewrite app_assoc. reflexivity.
Qed.

Lemma demo_cases_well_formed : Forall well_formed_case demo_cases.
Proof.
  unfold demo_cases. repeat apply Forall_cons_2; [| |apply Forall_nil_2].
  - eexists _, _. split; [reflexivity|].
    split_and!; (reflexivity || (eexists; reflexivity)).
  - eexists _, _. split; [reflexivity|].
    split_and!; (reflexivity || (eexists; reflexivity)).
Qed.

Section EvalsExtras.
Variable score_trust : gmap string pyval → io (gmap string pyval).
Variable decide_mitigation : gmap string pyval → io (gmap string pyval).

Lemma evals_step_case_error (test_cases : list pyval) (passed : nat)
    (tc : pyval) (e : error) :
  case_error tc = Some e →
  evals_step score_trust decide_mitigation test_cases passed tc
  = IO [] (Raises e).
Proof.
  unfold case_error, evals_step, py_item.
  destruct tc as [| | | | |d]; try (intros [= <-]; reflexivity).
  destruct (d !! "id"); [|intros [= <-]; reflexivity].
  destruct (d !! "description"); [|intros [= <-]; reflexivity].
  destruct (d !! "features") as [f|]; [|intros [= <-]; reflexivity].
  destruct (d !! "expected_decision");
    [|destruct f; intros [= <-]; reflexivity].
  destruct f; try discriminate; intros [= <-]; reflexivity.
Qed.

(** X14: when [run_evals] returns, its score is the share of the test cases
    whose expected decision is the decision of the mock agents, in percent:
    a number between 0 and 100, and 0 for an empty file.  One PASS or FAIL
    line is printed per case, then the score and the verdict; the script
    exits with status 0 exactly when there is a case and at least four in
    five pass.  The run never pauses and never asks the agents of
    [agents/]. *)
Theorem run_evals_score (test_cases : list pyval) (eff : list effect)
    (score_pct : R) :
  run_evals score_trust decide_mitigation test_cases
    = IO eff (Returns score_pct) →
  let total := length test_cases in
  let passed := length (filter (λ tc, case_passes tc = true) test_cases) in
  (passed ≤ total)%nat ∧
  score_pct = (if decide (total = 0%nat) then 0
               else 100 * INR passed / INR total)%R ∧
  (0 <= score_pct <= 100)%R ∧
  (exit_status score_pct = 0%Z ↔
     (0 < total)%nat ∧ (4 * total ≤ 5 * passed)%nat) ∧
  ∃ lines : list line,
    eff = map Printed
            (lines ++ [BlankLine; ScoreLine passed total score_pct;
                       VerdictLine (bool_decide (score_pct >= 80.0)%R)]) ∧
    Forall2 (λ ln tc, ∃ case_id description expected got : pyval,
               ln = (if case_passes tc then PassLine else FailLine)
                      case_id description expected got) lines test_cases.
Proof.
  intros H. cbv zeta. unfold run_evals in H.
  apply io_bind_returns_inv in H as (l1 & p & l2 & Hloop & Hrest & ->).
  apply evals_loop_returns in Hloop as (-> & lines & -> & Hlines).
  cbn [plus] in Hrest. cbn in Hrest. injection Hrest as <- <-.
  set (passed := length (filter (λ tc, case_passes tc = true) test_cases)).
  set (total := length test_cases).
  assert (Hle : (passed ≤ total)%nat) by apply length_filter.
  split; [assumption|].
  split.
  { destruct (decide (total = 0%nat)); [lra|].
    replace 100.0%R with 100%R by lra. reflexivity. }
  split.
  { destruct (decide (total = 0%nat)); [lra|].
    apply INR_ratio_bounds; lia. }
  split.
  { unfold exit_status. destruct (decide (total = 0%nat)) as [H0|H0].
    - rewrite decide_False by lra. split; [discriminate|lia].
    - pose proof (INR_ratio_ge_80 passed total ltac:(lia)) as Hiff.
      destruct (decide (100.0 * INR passed / INR total >= 80.0)%R).
      + split; [intros _; split; [lia|tauto]|reflexivity].
      + split; [discriminate|]. intros [_ Hp]. tauto. }
  exists lines. split; [|assumption].
  rewrite map_app. reflexivity.
Qed.

(** X15: on a file whose test cases are all well formed, objects with the
    four keys whose features are an object with numbers where the four
    numeric features are present, [run_evals] does not raise; it returns
    100 times the number of passing cases over the number of cases. *)
Theorem run_evals_well_formed (test_cases : list pyval) :
  Forall well_formed_case test_cases →
  test_cases ≠ [] →
  ∃ eff : list effect,
    run_evals score_trust decide_mitigation test_cases
    = IO eff (Returns
        (100 * INR (length (filter (λ tc, case_passes tc = true) test_cases))
         / INR (length test_cases))%R).
Proof.
  intros Hwf Hne.
  destruct (evals_loop_well_formed score_trust decide_mitigation
              test_cases test_cases Hwf 0%nat) as (eff & p & Hloop).
  destruct (evals_loop_returns _ _ _ _ _ _ _ Hloop) as (-> & _).
  unfold run_evals. rewrite Hloop, io_bind_IO.
  rewrite decide_False by (destruct test_cases; [done|discriminate]).
  cbn [plus]. eexists. cbn. f_equal. f_equal.
  replace 100.0%R with 100%R by lra. reflexivity.
Qed.

(** X16: the first test case that is not an object, lacks one of the keys
    "id", "description", "features" and "expected_decision", or whose
    features are not an object, ends the run: after the lines of the cases
    before it [run_evals] raises a [TypeError], the [KeyError] of the first
    missing key or an [AttributeError], and prints neither a line for that
    case nor a score. *)
Theorem run_evals_malformed_case (good rest : list pyval) (tc : pyval)
    (e : error) :
  Forall well_formed_case good →
  case_error tc = Some e →
  ∃ lines : list line,
    run_evals score_trust decide_mitigation (good ++ tc :: rest)
    = IO (map Printed lines) (Raises e) ∧
    Forall2 (λ ln tc, ∃ case_id description expected got : pyval,
               ln = (if case_passes tc then PassLine else FailLine)
                      case_id description expected got) lines good.
Proof.
  intros Hwf He.
  destruct (evals_loop_well_formed score_trust decide_mitigation
              (good ++ tc :: rest) good Hwf 0%nat) as (eff & p & Hloop).
  destruct (evals_loop_returns _ _ _ _ _ _ _ Hloop) as (_ & lines & -> & Hl).
  exists lines. split; [|assumption].
  unfold run_evals.
  rewrite (for_each_app_raises _ good rest tc e 0%nat p (map Printed lines) []
             Hloop (evals_step_case_error _ _ _ _ He)).
  rewrite app_nil_r. reflexivity.
Qed.

End EvalsExtras.

(** ** The agents *)

Lemma except_parse_error_returns {A} (fallback a : A) (r : outcome_of A) :
  except_parse_error fallback r = Returns a →
  r = Returns a ∨ (a = fallback ∧ ∃ e, r = Raises e ∧ agent_catches e = true).
Proof.
  destruct r as [a'|e]; cbn [except_parse_error].
  - intros [= <-]. left. reflexivity.
  - destruct (agent_catches e) eqn:He; [|discriminate].
    intros [= <-]. right. eauto.
Qed.

Lemma except_parse_error_raises {A} (fallback : A) (r : outcome_of A)
    (e : error) :
  except_parse_error fallback r = Raises e →
  r = Raises e ∧ agent_catches e = false.
Proof.
  destruct r as [a'|e']; cbn [except_parse_error]; [discriminate|].
  destruct (agent_catches e') eqn:He; [discriminate|].
  intros [= <-]. auto.
Qed.

Lemma float_0_30_nearest :
  SFdiv Float64.prec Float64.emax (S754_finite false 3 0)
    (S754_finite false 10 0) = lit_0_30 ∧
  Double.value lit_0_30 = float_0_30 ∧
  (float_0_30 < 3 / 10)%R.
Proof.
  split; [vm_compute; reflexivity|]. split; [|unfold float_0_30; lra].
  unfold Double.value, lit_0_30, float_0_30.
  pose proof (bpow_neg_pow2 54 ltac:(lia)) as H54.
  change (- (54))%Z with (Zneg 54) in H54.
  change (2 ^ 54)%Z with 18014398509481984%Z in H54.
  rewrite H54. lra.
Qed.


Section RetryFacts.
Variable api : Type.
Variable generate_content : string → string → api → api_reply * api.

(** The three turns of the loop: how it ends after one, two or three
    requests. *)
Lemma generate_with_retry_cases (instruction contents : string) (a : api) :
  let m := (generate_with_retry api generate_content instruction contents 3
              [0; 1; 2]%Z a).1 in
  let ask := Asked instruction contents in
  let wait (s : Z) := [ask; Printed (RateLimitLine s); Slept s] in
  (∃ r, m = IO [ask] r ∨ m = IO (wait 15%Z ++ [ask]) r
        ∨ m = IO (wait 15%Z ++ wait 30%Z ++ [ask]) r)
  ∨ (∃ e, m = IO (wait 15%Z ++ wait 30%Z ++ wait 45%Z) (Raises e)).
Proof.
  cbv zeta. cbn [generate_with_retry].
  destruct (generate_content instruction contents a) as [[t1|e1 m1] a1];
    [left; eexists; left; reflexivity|].
  destruct (contains "429" m1 || contains "RESOURCE_EXHAUSTED" m1);
    [|left; eexists; left; reflexivity].
  cbn [Z.eqb Z.add Z.sub Z.mul Z.opp Z.pos_sub Pos.eqb Pos.add Pos.mul
       Pos.succ Pos.pred_double fst].
  destruct (generate_content instruction contents a1) as [[t2|e2 m2] a2];
    [left; eexists; right; left; reflexivity|].
  destruct (contains "429" m2 || contains "RESOURCE_EXHAUSTED" m2);
    [|left; eexists; right; left; reflexivity].
  cbn [Z.eqb Z.add Z.sub Z.mul Z.opp Z.pos_sub Pos.eqb Pos.add Pos.mul
       Pos.succ Pos.pred_double fst effects outcome app].
  destruct (generate_content instruction contents a2) as [[t3|e3 m3] a3];
    [left; eexists; right; right; reflexivity|].
  destruct (contains "429" m3 || contains "RESOURCE_EXHAUSTED" m3).
  - right. eexists. reflexivity.
  - left. eexists. right; right; reflexivity.
Qed.

Lemma requests_app (l1 l2 : list effect) :
  requests (l1 ++ l2) = (requests l1 + requests l2)%nat.
Proof.
  unfold requests. induction l1 as [|e l1 IH]; [reflexivity|].
  cbn [app foldr]. rewrite IH. destruct e; reflexivity.
Qed.

(** One turn of the loop, by what the request comes back with. *)
Lemma generate_with_retry_reply (instruction contents : string)
    (max_retries attempt : Z) (rest : list Z) (a a1 : api)
    (text : option string) :
  generate_content instruction contents a = (Reply text, a1) →
  generate_with_retry api generate_content instruction contents max_retries
    (attempt :: rest) a
  = (IO [Asked instruction contents] (Returns text), a1).
Proof. intros H. cbn [generate_with_retry]. rewrite H. reflexivity. Qed.

Lemma generate_with_retry_other (instruction contents : string)
    (max_retries attempt : Z) (rest : list Z) (a a1 : api)
    (e : error) (message : string) :
  generate_content instruction contents a = (Failure e message, a1) →
  rate_limited message = false →
  generate_with_retry api generate_content instruction contents max_retries
    (attempt :: rest) a
  = (IO [Asked instruction contents] (Raises e), a1).
Proof.
  intros H Hm. unfold rate_limited in Hm. cbn [generate_with_retry].
  rewrite H, Hm. reflexivity.
Qed.

Lemma generate_with_retry_limited (instruction contents : string)
    (max_retries attempt : Z) (rest : list Z) (a a1 : api)
    (e : error) (message : string) :
  generate_content instruction contents a = (Failure e message, a1) →
  rate_limited message = true →
  let wait_time := (15 * (attempt + 1))%Z in
  let eff := [Asked instruction contents; Printed (RateLimitLine wait_time);
              Slept wait_time] in
  generate_with_retry api generate_content instruction contents max_retries
    (attempt :: rest) a
  = if (attempt =? max_retries - 1)%Z then (IO eff (Raises e), a1)
    else
      let next := generate_with_retry api generate_content instruction
                    contents max_retries rest a1 in
      (IO (eff ++ effects next.1) (outcome next.1), next.2).
Proof.
  intros H Hm. unfold rate_limited in Hm. cbv zeta.
  cbn [generate_with_retry]. rewrite H, Hm.
  destruct (attempt =? max_retries - 1)%Z; [reflexivity|].
  destruct (generate_with_retry _ _ _ _ _ _ _) as [m a2]. reflexivity.
Qed.

(** X18: the request of an agent is sent up to three times, with the same
    instruction and contents, each time to the service as the request
    before left it.  A response ends the loop with its text.  A failure
    whose message does not name a rate limit ("429" or
    "RESOURCE_EXHAUSTED") is raised again at once.  A failure whose message
    names one is followed by the line about the rate limit and a pause of
    15, 30 and 45 seconds after the first, second and third request; after
    the first and the second pause the request is sent again, and after the
    third the failure is raised again. *)
Theorem retry_schedule (instruction contents : string) (a : api) :
  let call := generate_content instruction contents in
  let run :=
    generate_with_retry api generate_content instruction contents 3
      [0; 1; 2]%Z in
  let ask := Asked instruction contents in
  let wait (s : Z) := [ask; Printed (RateLimitLine s); Slept s] in
  (∀ text a1, call a = (Reply text, a1) →
     run a = (IO [ask] (Returns text), a1)) ∧
  (∀ e m a1, call a = (Failure e m, a1) → rate_limited m = false →
     run a = (IO [ask] (Raises e), a1)) ∧
  (∀ e1 m1 a1, call a = (Failure e1 m1, a1) → rate_limited m1 = true →
     (∀ text a2, call a1 = (Reply text, a2) →
        run a = (IO (wait 15%Z ++ [ask]) (Returns text), a2)) ∧
     (∀ e m a2, call a1 = (Failure e m, a2) → rate_limited m = false →
        run a = (IO (wait 15%Z ++ [ask]) (Raises e), a2)) ∧
     (∀ e2 m2 a2, call a1 = (Failure e2 m2, a2) → rate_limited m2 = true →
        (∀ text a3, call a2 = (Reply text, a3) →
           run a = (IO (wait 15%Z ++ wait 30%Z ++ [ask]) (Returns text), a3)) ∧
        (∀ e m a3, call a2 = (Failure e m, a3) → rate_limited m = false →
           run a = (IO (wait 15%Z ++ wait 30%Z ++ [ask]) (Raises e), a3)) ∧
        (∀ e3 m3 a3, call a2 = (Failure e3 m3, a3) →
           rate_limited m3 = true →
           run a = (IO (wait 15%Z ++ wait 30%Z ++ wait 45%Z) (Raises e3),
                    a3)))).
Proof.
  cbv zeta. split; [|split].
  - intros text a1 H. apply generate_with_retry_reply, H.
  - intros e m a1 H Hm. eapply generate_with_retry_other; eassumption.
  - intros e1 m1 a1 H1 Hm1.
    rewrite (generate_with_retry_limited _ _ _ _ _ _ _ _ _ H1 Hm1).
    change (0 =? 3 - 1)%Z with false. cbv iota.
    split; [|split].
    + intros text a2 H.
      rewrite (generate_with_retry_reply _ _ _ _ _ _ _ _ H). reflexivity.
    + intros e m a2 H Hm.
      rewrite (generate_with_retry_other _ _ _ _ _ _ _ _ _ H Hm). reflexivity.
    + intros e2 m2 a2 H2 Hm2.
      rewrite (generate_with_retry_limited _ _ _ _ _ _ _ _ _ H2 Hm2).
      change (1 =? 3 - 1)%Z with false. cbv iota.
      split; [|split].
      * intros text a3 H.
        rewrite (generate_with_retry_reply _ _ _ _ _ _ _ _ H). reflexivity.
      * intros e m a3 H Hm.
        rewrite (generate_with_retry_other _ _ _ _ _ _ _ _ _ H Hm).
        reflexivity.
      * intros e3 m3 a3 H3 Hm3.
        rewrite (generate_with_retry_limited _ _ _ _ _ _ _ _ _ H3 Hm3).
        reflexivity.
Qed.

End RetryFacts.

Section MitigationFacts.
Variable api : Type.
Variable generate_content : string → string → api → api_reply * api.
Variable json_loads : string → option pyval.
Variable py_repr : pyval → string.
Variable str_strip : string → string.
Variable str_upper : string → string.
Variable MITIGATION_PROMPT_V1 : string.

(** X19: what [decide_mitigation] does with the outcome of its request,
    sent with the mitigation prompt and the message made of the trust
    score and the reason.  The effects are those of the request.  An
    exception of the request is raised again, unless it is of one of the
    four classes handled, which give the decision QUARANTINE with the
    explanation "parse error"; so does a reply that is not JSON, a reply
    that is not an object, and a trust score that is not a number, whose
    comparison fails inside the [try] block.  When the reply is an object
    and the trust score a number below the float 0.30, the decision is
    REJECT with the explanation of the safety net, whatever the model
    decided; for a number of 0.30 or more the decision is the word of the
    model, stripped and in upper case, QUARANTINE when the key is missing,
    and is not checked against the three decisions. *)
Theorem decide_mitigation_safety_net (trust_result : gmap string pyval)
    (a a' : api) (eff : list effect) (r : outcome_of (option string)) :
  generate_with_retry api generate_content MITIGATION_PROMPT_V1
    (mitigation_message py_repr trust_result) 3 [0; 1; 2]%Z a
  = (IO eff r, a') →
  let score := dict_get trust_result "trust_score" (VNum 0.0) in
  ∃ out : outcome_of (gmap string pyval),
    decide_mitigation api generate_content json_loads py_repr str_strip
      str_upper MITIGATION_PROMPT_V1 trust_result a = (IO eff out, a') ∧
    (∀ e, r = Raises e →
       out = if agent_catches e then Returns mitigation_fallback
             else Raises e) ∧
    (∀ text, r = Returns text →
       let parsed := json_loads (response_text str_strip text) in
       (parsed = None → out = Returns mitigation_fallback) ∧
       (∀ v, parsed = Some v → (∀ data, v ≠ VDict data) →
          out = Returns mitigation_fallback) ∧
       (∀ data, parsed = Some (VDict data) →
          (py_number score = None → out = Returns mitigation_fallback) ∧
          (∀ s, py_number score = Some s → (s < float_0_30)%R →
             out = Returns
               {[ "decision" := VStr "REJECT";
                  "explanation" :=
                    VStr "Forced REJECT: trust_score below 0.30 threshold.";
                  "prompt_version" := VStr "mitigation_v1" ]}) ∧
          (∀ s, py_number score = Some s → (float_0_30 <= s)%R →
             out = Returns
               {[ "decision" :=
                    VStr (str_upper (str_strip (py_str py_repr
                            (dict_get data "decision" (VStr "QUARANTINE")))));
                  "explanation" :=
                    VStr (py_str py_repr
                            (dict_get data "explanation" (VStr "")));
                  "prompt_version" := VStr "mitigation_v1" ]}))).
Proof.
  intros Hrun score. unfold mitigation_message in Hrun.
  unfold decide_mitigation. cbv zeta. rewrite Hrun.
  fold mitigation_fallback.
  cbn [effects outcome]. eexists. split; [reflexivity|]. split.
  - intros e ->. reflexivity.
  - intros text ->. cbv zeta. cbn [mbind outcome_bind].
    unfold parse_mitigation, py_json_loads. fold score.
    destruct (json_loads (response_text str_strip text)) as [v|];
      cbn [mbind outcome_bind].
    2:{ split; [reflexivity|]. split; [discriminate|discriminate]. }
    split; [discriminate|]. split.
    + intros v' [= <-] Hv.
      destruct v as [| | | | |data]; try reflexivity.
      exfalso. exact (Hv data eq_refl).
    + intros data [= ->]. cbn [json_get mbind outcome_bind]. unfold py_lt.
      destruct (py_number score) as [s|]; cbn [mbind outcome_bind].
      * split; [discriminate|]. split.
        -- intros s' [= <-] Hs. rewrite bool_decide_eq_true_2 by exact Hs.
           reflexivity.
        -- intros s' [= <-] Hs. rewrite bool_decide_eq_false_2 by lra.
           reflexivity.
      * split; [reflexivity|]. split; discriminate.
Qed.

End MitigationFacts.

Section ScorerFacts.
Variable api : Type.
Variable generate_content : string → string → api → api_reply * api.
Variable json_loads : string → option pyval.
Variable py_repr : pyval → string.
Variable str_strip : string → string.
Variable float_of_str : string → option R.
Variable TRUST_SCORER_PROMPT_V1 : string.


End ScorerFacts.

(** ** Lines of text *)

Lemma split_newline_nonempty (s : string) : split_newline s ≠ [].
Proof.
  destruct s as [|c s]; [discriminate|]. cbn [split_newline].
  destruct (Ascii.eqb c newline_char); [discriminate|].
  destruct (split_newline s); discriminate.
Qed.

Lemma split_newline_app (l r : string) :
  split_newline (l +:+ newline +:+ r) = split_newline l ++ split_newline r.
Proof.
  induction l as [|c l IH].
  - reflexivity.
  - change (String c l +:+ newline +:+ r) with (String c (l +:+ newline +:+ r)).
    cbn [split_newline]. rewrite IH.
    destruct (Ascii.eqb c newline_char); [reflexivity|].
    destruct (split_newline l) as [|x xs] eqn:Hl;
      [destruct (split_newline_nonempty l Hl)|].
    reflexivity.
Qed.

Lemma join_newline_cons (c : Ascii.ascii) (x : string) (xs : list string) :
  join_newline (String c x :: xs) = String c (join_newline (x :: xs)).
Proof. destruct xs; reflexivity. Qed.

(** Joining the lines of a text gives the text back. *)
Lemma join_split_newline (s : string) : join_newline (split_newline s) = s.
Proof.
  induction s as [|c s IH]; [reflexivity|]. cbn [split_newline].
  destruct (Ascii.eqb c newline_char) eqn:Hc.
  - apply Ascii.eqb_eq in Hc as ->.
    destruct (split_newline s) as [|x xs] eqn:Hs;
      [destruct (split_newline_nonempty s Hs)|].
    change (join_newline (EmptyString :: x :: xs))
      with (EmptyString +:+ newline +:+ join_newline (x :: xs)).
    rewrite IH. reflexivity.
  - destruct (split_newline s) as [|x xs] eqn:Hs;
      [destruct (split_newline_nonempty s Hs)|].
    rewrite join_newline_cons, IH. reflexivity.
Qed.

Lemma split_newline_one_line (s : string) :
  contains newline s = false → split_newline s = [s].
Proof.
  induction s as [|c s IH]; [reflexivity|]. cbn [contains split_newline].
  intros H. apply orb_false_iff in H as [Hp Hs].
  assert (Hc : Ascii.eqb c newline_char = false).
  { destruct (Ascii.eqb c newline_char) eqn:Hc; [|reflexivity].
    apply Ascii.eqb_eq in Hc as ->. cbn in Hp.
    destruct (Ascii.ascii_dec newline_char newline_char); [|done].
    destruct s; discriminate. }
  rewrite Hc, IH by assumption. reflexivity.
Qed.

Lemma contains_newline_cons (c : Ascii.ascii) (s : string) :
  Ascii.eqb c newline_char = false →
  contains newline (String c s) = contains newline s.
Proof.
  intros Hc. cbn [contains String.prefix newline].
  destruct (Ascii.ascii_dec newline_char c) as [<-|_]; [|reflexivity].
  rewrite Ascii.eqb_refl in Hc. discriminate.
Qed.

Lemma prefix_cons (c : Ascii.ascii) (s1 s2 : string) :
  String.prefix (String c s1) (String c s2) = String.prefix s1 s2.
Proof.
  cbn [String.prefix]. destruct (Ascii.ascii_dec c c); [reflexivity|done].
Qed.

Lemma prefix_fence (s : string) : String.prefix "```" ("```" +:+ s) = true.
Proof. cbv [String.append]. rewrite !prefix_cons. destruct s; reflexivity. Qed.

Section FenceFacts.
Variable str_strip : string → string.

(** X21: a reply wrapped in a markdown code fence is read as its body: when
    the stripped text is a line that starts with three backquotes, the
    body, and a last line of three backquotes, [response_text] is the body,
    unchanged; a stripped text that does not start with three backquotes is
    passed on as it is; and a missing text, [None], is read as the empty
    string. *)
Theorem response_text_fenced (text : option string) (header body : string) :
  str_strip (default EmptyString text)
    = "```" +:+ header +:+ newline +:+ body +:+ newline +:+ "```" →
  contains newline header = false →
  str_strip "```" = "```" →
  response_text str_strip text = body ∧
  (∀ plain : option string,
     String.prefix "```" (str_strip (default EmptyString plain)) = false →
     response_text str_strip plain = str_strip (default EmptyString plain)) ∧
  response_text str_strip None = response_text str_strip (Some EmptyString).
Proof.
  intros Htext Hheader Hfence. split; [|split].
  - unfold response_text. rewrite Htext.
    set (first_line := "```" +:+ header).
    assert (Hfirst : contains newline first_line = false).
    { unfold first_line. cbv [String.append].
      rewrite !contains_newline_cons by reflexivity. assumption. }
    rewrite prefix_fence.
    change ("```" +:+ header +:+ newline +:+ body +:+ newline +:+ "```")
      with (first_line +:+ newline +:+ (body +:+ newline +:+ "```")).
    rewrite !split_newline_app.
    rewrite (split_newline_one_line first_line Hfirst).
    cbn [app hd tail].
    assert (Hp1 : String.prefix "```" first_line = true)
      by apply prefix_fence.
    rewrite !Hp1.
    change (split_newline "```") with ["```"].
    rewrite last_snoc, Hfence. cbn [String.eqb Ascii.eqb Bool.eqb].
    rewrite removelast_last. apply join_split_newline.
  - intros plain Hplain. unfold response_text. rewrite Hplain. reflexivity.
  - reflexivity.
Qed.

End FenceFacts.

Lemma response_text_fenced_witness :
  response_text (λ s, s)
    (Some ("```json" +:+ newline +:+ "{}" +:+ newline +:+ "```")) = "{}".
Proof.
  apply (response_text_fenced (λ s, s)
           (Some ("```json" +:+ newline +:+ "{}" +:+ newline +:+ "```"))
           "json" "{}"); reflexivity.
Defined.

(** ** Instances of the properties above *)

Lemma trend_anomaly_ramp_witness :
  let r := (generate_trend_anomaly (RS := constant_source) tt).1 in
  (0 < 49 < 50)%nat ∧
  ∃ vj vk : R,
    voltage r !! 0%nat = Some vj ∧ voltage r !! 49%nat = Some vk ∧
    (1 / sqrt 2 <= vj < vk)%R ∧ (vk <= 1.2 / sqrt 2)%R.
Proof.
  cbv zeta. assert (H : (0 < 49 < 50)%nat) by lia. split; [exact H|].
  destruct (trend_anomaly_ramp (RS := constant_source) tt 0 49 H)
    as (vj & vk & Hj & Hk & _ & _ & Hjk & Hk2 & _).
  exists vj, vk. split; [exact Hj|]. split; [exact Hk|].
  split; [exact Hjk|exact Hk2].
Defined.

Lemma batch_labels_consistent_witness :
  ∃ (readings : list reading) (g' : unit),
    generate_batch (RS := constant_source) 4 tt = Ok (readings, g') ∧
    Forall (λ r, generated r ∧
                 (anomaly_type r, severity r)
                   ∈ [("none", "none"); ("point", "high");
                      ("point", "medium"); ("trend", "medium")]) readings.
Proof.
  eexists _, _. split; [reflexivity|].
  apply (batch_labels_consistent (RS := constant_source) 4 tt _ tt).
  reflexivity.
Defined.

Lemma thd_percent_always_zero_witness :
  ∃ fv,
    extract_features failing_butter failing_filtfilt
      {| voltage := demo_signal; frequency := [50; 50; 50; 50]%R;
         anomaly_type := "none"; severity := "none" |} = Ok fv ∧
    compute_thd demo_signal 50 50.0 = Ok 0%R ∧
    thd_percent fv = 0%R.
Proof.
  set (r := {| voltage := demo_signal; frequency := [50; 50; 50; 50]%R;
               anomaly_type := "none"; severity := "none" |}).
  destruct (extract_features_ok failing_butter failing_filtfilt r)
    as (m & _ & Hfv); [simpl; lia|].
  eexists. split; [exact Hfv|].
  destruct (thd_percent_always_zero failing_butter failing_filtfilt r _ Hfv)
    as (_ & _ & Hthd & Hz).
  split; [exact Hthd|exact Hz].
Defined.


Lemma frequency_deviation_bounded_witness :
  [49; 51]%R ≠ [] ∧ (0 ≤ 1)%Z ∧ (Z.of_nat (length [49; 51]%R) * 1 < 2 ^ 53)%Z ∧
  compute_frequency_deviation [49; 51]%R = 1%R.
Proof.
  assert (H1 : [49; 51]%R ≠ []) by discriminate.
  assert (H2 : (0 ≤ 1)%Z) by lia.
  assert (H3 : (Z.of_nat (length [49; 51]%R) * 1 < 2 ^ 53)%Z)
    by (vm_compute; reflexivity).
  split; [exact H1|]. split; [exact H2|]. split; [exact H3|].
  apply (proj2 (proj2 (frequency_deviation_bounded [49; 51]%R 1 H1 H2 H3))).
  repeat (apply Forall_cons; split); [..|apply Forall_nil; exact I].
  - rewrite Rabs_left by lra. lra.
  - rewrite Rabs_right by lra. lra.
Defined.

Lemma bandpass_filter_never_raises_caught_witness :
  bandpass_filter failing_butter failing_filtfilt demo_signal 45.0 55.0 0 3
    = Raise ZeroDivisionError ∧
  caught ZeroDivisionError = false.
Proof.
  assert (H : bandpass_filter failing_butter failing_filtfilt demo_signal
                45.0 55.0 0 3 = Raise ZeroDivisionError).
  { apply bandpass_filter_zero_fs. }
  split; [exact H|].
  exact (proj1 (bandpass_filter_never_raises_caught failing_butter
                  failing_filtfilt demo_signal 45.0 55.0 0 3 _ H)).
Defined.

Lemma run_evals_score_witness :
  ∃ (eff : list effect) (score_pct : R),
    run_evals (λ _, raise AttributeError) (λ _, raise AttributeError) demo_cases
    = IO eff (Returns score_pct) ∧
    (0 <= score_pct <= 100)%R.
Proof.
  destruct (evals_loop_well_formed (λ _, raise AttributeError)
              (λ _, raise AttributeError) demo_cases demo_cases
              demo_cases_well_formed 0%nat) as (eff & p & Hloop).
  assert (Hrun : ∃ eff' s,
            run_evals (λ _, raise AttributeError) (λ _, raise AttributeError)
              demo_cases = IO eff' (Returns s)).
  { unfold run_evals. rewrite Hloop. eexists _, _. reflexivity. }
  destruct Hrun as (eff' & s & Hrun). exists eff', s. split; [exact Hrun|].
  destruct (run_evals_score _ _ demo_cases eff' s Hrun) as (_ & _ & Hb & _).
  exact Hb.
Defined.

Lemma run_evals_well_formed_witness :
  Forall well_formed_case demo_cases ∧ demo_cases ≠ [] ∧
  ∃ eff : list effect,
    run_evals (λ _, raise AttributeError) (λ _, raise AttributeError) demo_cases
    = IO eff (Returns
        (100 * INR (length (filter (λ tc, case_passes tc = true) demo_cases))
         / INR (length demo_cases))%R).
Proof.
  assert (Hne : demo_cases ≠ []) by discriminate.
  split; [exact demo_cases_well_formed|]. split; [exact Hne|].
  exact (run_evals_well_formed _ _ demo_cases demo_cases_well_formed Hne).
Defined.

Lemma run_evals_malformed_case_witness :
  Forall well_formed_case demo_cases ∧
  case_error (VList []) = Some (Builtin TypeError) ∧
  ∃ lines : list line,
    run_evals (λ _, raise AttributeError) (λ _, raise AttributeError)
      (demo_cases ++ VList [] :: demo_cases)
    = IO (map Printed lines) (Raises (Builtin TypeError)) ∧
    length lines = 2%nat.
Proof.
  assert (He : case_error (VList []) = Some (Builtin TypeError)) by reflexivity.
  split; [exact demo_cases_well_formed|]. split; [exact He|].
  destruct (run_evals_malformed_case (λ _, raise AttributeError)
              (λ _, raise AttributeError) demo_cases demo_cases (VList [])
              (Builtin TypeError) demo_cases_well_formed He)
    as (lines & Hrun & Hl).
  exists lines. split; [exact Hrun|].
  apply Forall2_length in Hl. exact Hl.
Defined.

Lemma compute_thd_scale_invariant_witness :
  (-2)%R ≠ 0%R ∧ (2 ≤ length demo_signal)%nat ∧ 200%R ≠ 0%R ∧
  compute_thd (map (Rmult (-2)) demo_signal) 200 50.0
  = compute_thd demo_signal 200 50.0.
Proof.
  assert (H1 : (-2)%R ≠ 0%R) by lra.
  assert (H2 : (2 ≤ length demo_signal)%nat) by (simpl; lia).
  assert (H3 : 200%R ≠ 0%R) by lra.
  split; [exact H1|]. split; [exact H2|]. split; [exact H3|].
  exact (compute_thd_scale_invariant (-2) demo_signal 200 50.0 H1 H2 H3).
Defined.

(** A service that answers the first two requests with a rate-limit
    failure and the third with a response: the text comes back after three
    requests and pauses of 15 and 30 seconds. *)
Lemma retry_schedule_witness :
  let service (i c : string) (n : nat) :=
    (if (n <? 2)%nat then Failure OtherError "429 Too Many Requests"
     else Reply (Some "{}"), S n) in
  let ask := Asked "prompt" "message" in
  generate_with_retry nat service "prompt" "message" 3 [0; 1; 2]%Z 0%nat
  = (IO [ask; Printed (RateLimitLine 15); Slept 15%Z;
         ask; Printed (RateLimitLine 30); Slept 30%Z; ask]
        (Returns (Some "{}")), 3%nat).
Proof.
  cbv zeta.
  destruct (retry_schedule nat
              (λ (i c : string) (n : nat),
                 (if (n <? 2)%nat
                  then Failure OtherError "429 Too Many Requests"
                  else Reply (Some "{}"), S n))
              "prompt" "message" 0%nat) as (_ & _ & H).
  destruct (H OtherError "429 Too Many Requests" 1%nat eq_refl eq_refl)
    as (_ & _ & H2).
  destruct (H2 OtherError "429 Too Many Requests" 2%nat eq_refl eq_refl)
    as (H3 & _).
  exact (H3 (Some "{}") 3%nat eq_refl).
Defined.

(** A model that answers every request with an object that accepts the
    reading, and a trust result with the score 0.1: the safety net turns
    the decision into REJECT. *)
Lemma decide_mitigation_safety_net_witness :
  let service (i c : string) (a : unit) := (Reply (Some "{}"), a) in
  let json_loads (text : string) :=
    Some (VDict {[ "decision" := VStr "ACCEPT" ]}) in
  let py_repr (v : pyval) := "0.1" in
  let trust_result : gmap string pyval := {[ "trust_score" := VNum 0.1 ]} in
  let message := "trust_score: 0.1" +:+ newline +:+ "reason: " in
  generate_with_retry unit service "prompt"
    (mitigation_message py_repr trust_result) 3 [0; 1; 2]%Z tt
  = (IO [Asked "prompt" message] (Returns (Some "{}")), tt) ∧
  decide_mitigation unit service json_loads py_repr (λ s, s) (λ s, s)
    "prompt" trust_result tt
  = (IO [Asked "prompt" message]
        (Returns
           {[ "decision" := VStr "REJECT";
              "explanation" :=
                VStr "Forced REJECT: trust_score below 0.30 threshold.";
              "prompt_version" := VStr "mitigation_v1" ]}), tt).
Proof.
  cbv zeta.
  set (service := λ (i c : string) (a : unit), (Reply (Some "{}"), a)).
  set (json_loads := λ text : string,
         Some (VDict {[ "decision" := VStr "ACCEPT" ]})).
  set (py_repr := λ v : pyval, "0.1").
  set (trust_result := ({[ "trust_score" := VNum 0.1 ]} : gmap string pyval)).
  assert (Hrun :
    generate_with_retry unit service "prompt"
      (mitigation_message py_repr trust_result) 3 [0; 1; 2]%Z tt
    = (IO [Asked "prompt" ("trust_score: 0.1" +:+ newline +:+ "reason: ")]
          (Returns (Some "{}")), tt)) by reflexivity.
  split; [exact Hrun|].
  destruct (decide_mitigation_safety_net unit service json_loads py_repr
              (λ s, s) (λ s, s) "prompt" trust_result tt tt _ _ Hrun)
    as (out & Hout & _ & Hret).
  rewrite Hout. do 2 f_equal.
  destruct (Hret (Some "{}") eq_refl) as (_ & _ & Hobj).
  destruct (Hobj {[ "decision" := VStr "ACCEPT" ]} eq_refl) as (_ & Hlow & _).
  apply (Hlow 0.1%R eq_refl). unfold float_0_30. lra.
Defined.

